(** * Component equations and asset conversion of the heat/gas network models

    A shallow embedding of
    - [mesido/pycml/component_library/milp/gas/gas_pipe.py] ([GasPipe]),
    - [rtctools_heat_network/pycml/component_library/qth/pipe.py] ([Pipe]),
    - [rtctools_heat_network/esdl/esdl_heat_model.py]
      ([AssetToHeatComponent]),
    together with the properties of the emitted equations, of the variable
    nominals and of the conversion rules. *)

From Stdlib Require Import Floats Uint63.
From Stdlib Require Import ZArith Reals Lra Bool List String.
From stdpp Require Import gmap strings.
Import ListNotations.

Local Open Scope Z_scope.
Local Open Scope string_scope.
Local Open Scope list_scope.

(** ** Python floats

    The sources compute with Python floats.  The constructors and the
    conversion rules are written once over an abstract float; two carriers
    are provided:
    - [float], the binary64 numbers of the kernel, on which the definitions
      run;
    - [ideal], a real number or not-a-number, on which the algebraic
      properties of the equations are proved (rounding, overflow and the
      infinities are outside this carrier). *)

Class PyFloat (F : Type) := {
  f_of_Z : Z -> F;
  fpi : F;
  fnan : F;
  fadd : F -> F -> F;
  fsub : F -> F -> F;
  fmul : F -> F -> F;
  fdiv : F -> F -> F;
  fopp : F -> F;
  fsqrt : F -> F;
  fltb : F -> F -> bool;
  feqb : F -> F -> bool;
  f_is_finite : F -> bool
}.

Declare Scope py_scope.
Delimit Scope py_scope with py.
Infix "+" := fadd : py_scope.
Infix "-" := fsub : py_scope.
Infix "*" := fmul : py_scope.
Infix "/" := fdiv : py_scope.
Notation "- x" := (fopp x) : py_scope.
Infix "<?" := fltb : py_scope.
Infix "=?" := feqb : py_scope.

(** [dec m k] is the literal with decimal digits [m] and [k] digits after
    the point: [dec 25 2] is [0.25], [dec 1 3] is [1.0e-3]. For [k = 0] it
    is the integer itself. *)
Definition dec {F} `{PyFloat F} (m : Z) (k : nat) : F :=
  match k with
  | O => f_of_Z m
  | _ => (f_of_Z m / f_of_Z (10 ^ Z.of_nat k))%py
  end.

(** *** The binary64 carrier *)

Definition float_of_Z (z : Z) : float :=
  match z with
  | Zneg p => PrimFloat.opp (PrimFloat.of_uint63 (Uint63.of_Z (Zpos p)))
  | _ => PrimFloat.of_uint63 (Uint63.of_Z z)
  end.

#[export] Instance float_PyFloat : PyFloat float := {
  f_of_Z := float_of_Z;
  fpi := 0x1.921fb54442d18p+1%float;
  fnan := PrimFloat.nan;
  fadd := PrimFloat.add;
  fsub := PrimFloat.sub;
  fmul := PrimFloat.mul;
  fdiv := PrimFloat.div;
  fopp := PrimFloat.opp;
  fsqrt := PrimFloat.sqrt;
  fltb := PrimFloat.ltb;
  feqb := PrimFloat.eqb;
  f_is_finite := PrimFloat.is_finite
}.

(** *** The ideal carrier *)

Inductive ideal : Type :=
| Fin (r : R)
| NaN.

Definition ideal_lift2 (op : R -> R -> R) (a b : ideal) : ideal :=
  match a, b with
  | Fin x, Fin y => Fin (op x y)
  | _, _ => NaN
  end.

(** A quotient by zero is not a finite number. *)
Definition ideal_div (a b : ideal) : ideal :=
  match a, b with
  | Fin x, Fin y => if Req_dec_T y 0 then NaN else Fin (x / y)
  | _, _ => NaN
  end.

Definition ideal_opp (a : ideal) : ideal :=
  match a with Fin x => Fin (- x) | NaN => NaN end.

Definition ideal_sqrt (a : ideal) : ideal :=
  match a with
  | Fin x => if Rlt_dec x 0 then NaN else Fin (R_sqrt.sqrt x)
  | NaN => NaN
  end.

(** Comparisons with not-a-number are false. *)
Definition ideal_ltb (a b : ideal) : bool :=
  match a, b with
  | Fin x, Fin y => if Rlt_dec x y then true else false
  | _, _ => false
  end.

Definition ideal_eqb (a b : ideal) : bool :=
  match a, b with
  | Fin x, Fin y => if Req_dec_T x y then true else false
  | _, _ => false
  end.

Definition ideal_is_finite (a : ideal) : bool :=
  match a with Fin _ => true | NaN => false end.

#[export] Instance ideal_PyFloat : PyFloat ideal := {
  f_of_Z := fun z => Fin (IZR z);
  fpi := Fin PI;
  fnan := NaN;
  fadd := ideal_lift2 Rplus;
  fsub := ideal_lift2 Rminus;
  fmul := ideal_lift2 Rmult;
  fdiv := ideal_div;
  fopp := ideal_opp;
  fsqrt := ideal_sqrt;
  fltb := ideal_ltb;
  feqb := ideal_eqb;
  f_is_finite := ideal_is_finite
}.

(** ** Exceptions *)

Inductive exn : Type :=
| AssertionError
| KeyError
| TypeError
| ZeroDivisionError
| ConfigurationError
| ReferenceError.

Inductive result (A : Type) : Type :=
| Ok (a : A)
| Raise (e : exn).
Arguments Ok {A} a.
Arguments Raise {A} e.

#[export] Instance result_ret : MRet result := fun A a => Ok a.
#[export] Instance result_bind : MBind result := fun A B k m =>
  match m with
  | Ok a => k a
  | Raise e => Raise e
  end.

(** [assert b]: the Python statement. *)
Definition assert (b : bool) : result unit :=
  if b then Ok tt else Raise AssertionError.

(** Python's operators on floats, where they differ from the IEEE ones. *)
Section PyOps.
Context {F : Type} `{PyFloat F}.

(** [a / b] on two floats raises on a zero divisor. *)
Definition py_div (a b : F) : result F :=
  if (b =? f_of_Z 0)%py then Raise ZeroDivisionError else Ok (a / b)%py.

(** [a ** 2] and [a ** 3], taken as exactly rounded products. *)
Definition py_pow2 (a : F) : F := (a * a)%py.
Definition py_pow3 (a : F) : F := (a * a * a)%py.

(** [a > b]. *)
Definition py_gt (a b : F) : bool := (b <? a)%py.

(** [max(a, b)] keeps [a] unless [b > a]. *)
Definition py_max (a b : F) : F := if py_gt b a then b else a.

(** [a ** 0.5] is a float for a non-negative (or not-a-number) base and a
    complex number for a negative one. *)
Inductive pynum : Type :=
| PyFloatV (f : F)
| PyComplexV (base : F).

Definition py_pow_half (a : F) : pynum :=
  if (a <? f_of_Z 0)%py then PyComplexV a else PyFloatV (fsqrt a).
End PyOps.
Arguments pynum F : clear implicits.

(** ** The symbolic layer: variables, expressions, components *)

(** A symbol is a variable of the component itself ([self.Q]) or of one of
    its ports ([self.GasIn.Q]). *)
Inductive sym : Type :=
| Own (v : string)
| PortVar (port v : string).

#[export] Instance sym_eq_dec : EqDecision sym.
Proof. solve_decision. Defined.

Section Symbolic.
Context {F : Type} `{PyFloat F}.

(** The expressions that the components build with [-] and [/] (and the
    other arithmetic operators of the expression type). *)
Inductive expr : Type :=
| MSym (s : sym)
| MConst (c : F)
| MAdd (a b : expr)
| MSub (a b : expr)
| MMul (a b : expr)
| MDiv (a b : expr).

Fixpoint symbols (e : expr) : list sym :=
  match e with
  | MSym s => [s]
  | MConst _ => []
  | MAdd a b | MSub a b | MMul a b | MDiv a b => symbols a ++ symbols b
  end.

(** The residual of an expression under a valuation of the symbols. *)
Fixpoint eval (env : sym -> F) (e : expr) : F :=
  match e with
  | MSym s => env s
  | MConst c => c
  | MAdd a b => (eval env a + eval env b)%py
  | MSub a b => (eval env a - eval env b)%py
  | MMul a b => (eval env a * eval env b)%py
  | MDiv a b => (eval env a / eval env b)%py
  end.

(** An equation is an expression asserted to equal zero. *)
Definition satisfied (env : sym -> F) (e : expr) : bool :=
  (eval env e =? f_of_Z 0)%py.

(** Modelled from the spec: a variable has a name, a nominal and two
    optional bounds (the class is not part of the sources at hand; its
    [fixed_value] plays no part in the constructors below). *)
Record Var : Type := {
  var_name : string;
  var_nominal : F;
  var_min : option F;   (* [None]: unbounded below *)
  var_max : option F    (* [None]: unbounded above *)
}.

Definition nominal_ok (n : F) : bool := (f_of_Z 0 <? n)%py && f_is_finite n.

Definition bounds_ok (lo hi : option F) : bool :=
  match lo, hi with
  | Some a, Some b =>
      if f_is_finite a && f_is_finite b then negb (b <? a)%py else true
  | _, _ => true
  end.

(** Modelled from the spec: the constructor of [Variable] (the class is
    not part of the sources at hand).  The nominal defaults to [1.0]; the
    construction fails with [ConfigurationError] unless the nominal is
    finite and strictly positive and [min <= max] when both are finite. *)
Definition new_Variable (name : string) (nominal lo hi : option F) : result Var :=
  let n := default (dec 1 0) nominal in
  if nominal_ok n && bounds_ok lo hi
  then Ok {| var_name := name; var_nominal := n; var_min := lo; var_max := hi |}
  else Raise ConfigurationError.

(** Modelled from the spec: a component owns ports (named bundles of
    variables), variables and an ordered sequence of equations (the base
    class is not part of the sources at hand). *)
Record Component : Type := {
  name : string;
  component_type : string;
  disconnectable : bool;
  ports : list (string * list Var);
  variables : list Var;
  equations : list expr
}.

Definition set_component_type (self : Component) (t : string) : Component :=
  {| name := name self; component_type := t;
     disconnectable := disconnectable self; ports := ports self;
     variables := variables self; equations := equations self |}.

Definition set_disconnectable (self : Component) (b : bool) : Component :=
  {| name := name self; component_type := component_type self;
     disconnectable := b; ports := ports self;
     variables := variables self; equations := equations self |}.

(** Modelled from the spec: [add_variable] of the component base class
    (not part of the sources at hand) constructs the variable and appends
    it to the variables of the component. *)
Definition add_variable (self : Component) (vname : string)
    (nominal lo hi : option F) : result Component :=
  v ← new_Variable vname nominal lo hi;
  Ok {| name := name self; component_type := component_type self;
        disconnectable := disconnectable self; ports := ports self;
        variables := variables self ++ [v]; equations := equations self |}.

Definition has_var (vs : list Var) (v : string) : bool :=
  existsb (fun x => String.eqb (var_name x) v) vs.

Definition declared (self : Component) (s : sym) : bool :=
  match s with
  | Own v => has_var (variables self) v
  | PortVar p v =>
      existsb (fun pv => String.eqb (fst pv) p && has_var (snd pv) v)
              (ports self)
  end.

(** Modelled from the spec: [add_equation] of the component base class
    (not part of the sources at hand) appends the expression, unevaluated,
    to the equations; a symbol that is neither a variable of the component
    nor of one of its ports is a [ReferenceError]. *)
Definition add_equation (self : Component) (e : expr) : result Component :=
  if forallb (declared self) (symbols e)
  then Ok {| name := name self; component_type := component_type self;
             disconnectable := disconnectable self; ports := ports self;
             variables := variables self; equations := equations self ++ [e] |}
  else Raise ReferenceError.

(** Modelled from the spec: a modifier overwrites the default of the
    parameter it names; the derived constants are computed from the
    parameters so resolved (the merge is done by the component base
    class, not part of the sources at hand). *)
Definition param (modifiers : gmap string F) (key : string) (dflt : F) : F :=
  default dflt (modifiers !! key).
End Symbolic.
Arguments expr F : clear implicits.
Arguments Var F : clear implicits.
Arguments Component F : clear implicits.

Declare Scope mx_scope.
Delimit Scope mx_scope with mx.
Infix "+" := MAdd : mx_scope.
Infix "-" := MSub : mx_scope.
Infix "*" := MMul : mx_scope.
Infix "/" := MDiv : mx_scope.

(** ** [GasPipe] (gas_pipe.py) *)

Module GasPipe.
Section GasPipe.
Context {F : Type} `{PyFloat F}.

(** The attributes that [__init__] sets on [self], next to the state of
    the component base ([base]).  [id_mapping_carrier] is the integer [-1]
    in the source; it takes part in no computation. *)
Record t : Type := {
  base : Component F;
  v_max : F;
  density : F;
  rho : F;
  diameter : F;
  area : F;
  Q_nominal : F;
  pressure : F;
  id_mapping_carrier : F;
  nominal_head : F;
  length : F;
  r : F;
  nominal_head_loss : pynum F;
  Hydraulic_power_nominal : F
}.

Definition port (p v : string) : expr F := MSym (PortVar p v).
Definition own (v : string) : expr F := MSym (Own v).

(** [self] is the component as [super().__init__(name, **modifiers)]
    leaves it: the two ports [GasIn] and [GasOut] are declared there.
    A division of two floats by a non-zero literal cannot raise and is
    written with the total quotient. *)
Definition __init__ (self : Component F) (modifiers : gmap string F)
  : result t :=
  let self := set_component_type self "gas_pipe" in
  let self := set_disconnectable self false in

  let v_max := param modifiers "v_max" (dec 15 0) in
  let density := param modifiers "density" (dec 2500 0) in
  let rho := density in
  let diameter := param modifiers "diameter" fnan in
  let area := (dec 25 2 * fpi * py_pow2 diameter)%py in
  let Q_nominal := (v_max / dec 2 0 * area)%py in
  let pressure := param modifiers "pressure" (dec 1600000 0) in
  let id_mapping_carrier := param modifiers "id_mapping_carrier" (dec (-1) 0) in

  let nominal_head := param modifiers "nominal_head" (dec 30 0) in
  let length := param modifiers "length" fnan in
  let r := (dec 1 6 * length)%py in
  let nominal_head_loss := py_pow_half (Q_nominal * r * nominal_head)%py in

  self ← add_variable self "dH" (Some (Q_nominal * r)%py) None None;
  self ← add_variable self "Q" (Some Q_nominal) None None;

  (* Flow should be preserved *)
  self ← add_equation self
    ((port "GasIn" "Q" - port "GasOut" "Q") / MConst Q_nominal)%mx;
  self ← add_equation self
    ((own "Q" - port "GasOut" "Q") / MConst Q_nominal)%mx;
  self ← add_equation self
    ((port "GasIn" "Q" - port "GasIn" "mass_flow" / MConst density)
     / MConst Q_nominal)%mx;

  (* Flow should be preserved *)
  self ← add_equation self
    ((port "GasIn" "mass_flow" - port "GasOut" "mass_flow")
     / MConst (Q_nominal * density)%py)%mx;
  (* shadow Q for aliases *)
  self ← add_equation self
    (port "GasOut" "Q_shadow" - (port "GasIn" "Q_shadow" - MConst (dec 1 3)))%mx;

  (* Hydraulic power *)
  let ff := dec 2 2 : F in
  velo ← py_div Q_nominal area;
  q ← py_div (rho * ff * py_max length (dec 1 0) * fpi * area)%py diameter;
  let Hydraulic_power_nominal := (q / dec 2 0 * py_pow3 velo)%py in
  self ← add_variable self "Hydraulic_power"
           (Some Hydraulic_power_nominal) (Some (dec 0 0)) None;

  match py_pow_half (pressure * Q_nominal * Hydraulic_power_nominal)%py with
  | PyComplexV _ =>
      (* an expression has no quotient by a complex number *)
      Raise TypeError
  | PyFloatV s =>
      self ← add_equation self
        ((own "Hydraulic_power"
          - (port "GasIn" "Hydraulic_power" - port "GasOut" "Hydraulic_power"))
         / MConst s)%mx;
      Ok {| base := self; v_max := v_max; density := density; rho := rho;
            diameter := diameter; area := area; Q_nominal := Q_nominal;
            pressure := pressure; id_mapping_carrier := id_mapping_carrier;
            nominal_head := nominal_head; length := length; r := r;
            nominal_head_loss := nominal_head_loss;
            Hydraulic_power_nominal := Hydraulic_power_nominal |}
  end.
End GasPipe.
Arguments t F : clear implicits.
End GasPipe.

(** ** [Pipe] of the QTH library (qth/pipe.py) *)

Module QTHPipe.
Section QTHPipe.
Context {F : Type} `{PyFloat F}.

Record t : Type := {
  base : Component F;
  has_control_valve : bool;
  length : F;
  diameter : F;
  temperature : F;
  cp : F;
  rho : F;
  (* Parameters determining the heat loss *)
  insulation_thickness : F;
  conductivity_insulation : F;
  conductivity_subsoil : F;
  depth : F;
  h_surface : F;
  pipe_pair_distance : F;
  T_supply : F;
  T_return : F;
  dT : F;
  T_ground : F
}.

Definition port (p v : string) : expr F := MSym (PortVar p v).
Definition own (v : string) : expr F := MSym (Own v).

(** [self] is the component as [super().__init__(name, **modifiers)]
    leaves it: the two ports [QTHIn] and [QTHOut] are declared there. *)
Definition __init__ (self : Component F) (modifiers : gmap string F)
  : result t :=
  let self := set_component_type self "pipe" in
  let self := set_disconnectable self false in
  let has_control_valve := false in

  let length := param modifiers "length" (dec 1 0) in
  let diameter := param modifiers "diameter" (dec 1 0) in
  let temperature := param modifiers "temperature" fnan in
  let cp := param modifiers "cp" (dec 4200 0) in
  let rho := param modifiers "rho" (dec 988 0) in

  let insulation_thickness := param modifiers "insulation_thickness" fnan in
  let conductivity_insulation := param modifiers "conductivity_insulation" fnan in
  let conductivity_subsoil := param modifiers "conductivity_subsoil" fnan in
  let depth := param modifiers "depth" fnan in
  let h_surface := param modifiers "h_surface" fnan in
  let pipe_pair_distance := param modifiers "pipe_pair_distance" fnan in

  let T_supply := param modifiers "T_supply" fnan in
  let T_return := param modifiers "T_return" fnan in
  let dT := (T_supply - T_return)%py in
  let T_ground := param modifiers "T_ground" (dec 10 0) in

  self ← add_variable self "Q" None None None;
  self ← add_variable self "dH" None None (Some (dec 0 0));

  self ← add_equation self (port "QTHIn" "Q" - own "Q")%mx;
  self ← add_equation self (port "QTHOut" "Q" - port "QTHIn" "Q")%mx;

  (* The heat loss equation is added by the Python script that assembles
     the network, so that pipes can be disconnected. *)
  Ok {| base := self; has_control_valve := has_control_valve;
        length := length; diameter := diameter; temperature := temperature;
        cp := cp; rho := rho;
        insulation_thickness := insulation_thickness;
        conductivity_insulation := conductivity_insulation;
        conductivity_subsoil := conductivity_subsoil;
        depth := depth; h_surface := h_surface;
        pipe_pair_distance := pipe_pair_distance;
        T_supply := T_supply; T_return := T_return; dT := dT;
        T_ground := T_ground |}.
End QTHPipe.
Arguments t F : clear implicits.
End QTHPipe.

(** ** Assets and modifiers (esdl_heat_model.py) *)

Module esdl.
(** The class of a port object; [type(x) == esdl.esdl.InPort] holds for
    [InPort] only. *)
Inductive port_class : Type := InPort | OutPort | OtherPort.

#[global] Instance port_class_eq_dec : EqDecision port_class.
Proof. solve_decision. Defined.

Record Port : Type := {
  port_type : port_class;
  connectedTo : list string
}.

(** A layer of a compound material: [x.layerWidth] and
    [x.matter.thermalConductivity]. *)
Record Layer (F : Type) : Type := {
  layerWidth : F;
  thermalConductivity : F
}.
Arguments layerWidth {F} _.
Arguments thermalConductivity {F} _.

(** The values found in [asset.attributes]. *)
Inductive attr (F : Type) : Type :=
| AFloat (f : F)
| AStr (s : string)
| ANone
| APorts (items : list Port)
| ACompoundMatter (components : list (Layer F))
| AMatter.
Arguments AFloat {F} f.
Arguments AStr {F} s.
Arguments ANone {F}.
Arguments APorts {F} items.
Arguments ACompoundMatter {F} components.
Arguments AMatter {F}.
End esdl.

Record Asset (F : Type) : Type := {
  asset_type : string;
  attributes : gmap string (esdl.attr F)
}.
Arguments asset_type {F} _.
Arguments attributes {F} _.

(** The modifier mappings: a value or a nested mapping per key. *)
#[warnings="-register-all"]
Inductive modval (F : Type) : Type :=
| MFloat (f : F)
| MInt (z : Z)
| MList (l : list F)
| MAttr (a : esdl.attr F)
| MDict (d : list (string * modval F)).
Arguments MFloat {F} f.
Arguments MAttr {F} a.
Arguments MInt {F} z.
Arguments MList {F} l.
Arguments MDict {F} d.

Abbreviation MODIFIERS F := (list (string * modval F)).

Inductive ComponentType : Type := Buffer | Demand | Node | Pipe | Pump | Source.

Section Dicts.
Context {F : Type}.

Definition dict_get (d : MODIFIERS F) (k : string) : option (modval F) :=
  snd <$> List.find (fun kv => String.eqb (fst kv) k) d.

(** [d[k1][k2]] *)
Definition dict_get2 (d : MODIFIERS F) (k1 k2 : string) : option (modval F) :=
  match dict_get d k1 with
  | Some (MDict d') => dict_get d' k2
  | _ => None
  end.

Definition has_key (d : MODIFIERS F) (k : string) : bool :=
  existsb (fun kv => String.eqb (fst kv) k) d.

(** [dict(k1=v1, ..., **d1, **d2, ...)]: a key given twice is a
    [TypeError]. *)
Fixpoint dict_kwargs (kw : MODIFIERS F) (unpacked : list (MODIFIERS F))
  : result (MODIFIERS F) :=
  match unpacked with
  | [] => Ok kw
  | d :: rest =>
      if existsb (fun kv => has_key kw (fst kv)) d
      then Raise TypeError
      else dict_kwargs (kw ++ d) rest
  end.

(** [asset.attributes[k]] *)
Definition getitem (a : Asset F) (k : string) : result (esdl.attr F) :=
  match attributes a !! k with
  | Some v => Ok v
  | None => Raise KeyError
  end.

(** A numeric use of an attribute: anything but a number is a
    [TypeError]. *)
Definition as_float (v : esdl.attr F) : result F :=
  match v with
  | esdl.AFloat f => Ok f
  | _ => Raise TypeError
  end.

(** [needle in v] for an attribute that holds a string. *)
Definition str_contains (needle : string) (v : esdl.attr F) : result bool :=
  match v with
  | esdl.AStr s =>
      Ok (match String.index 0 needle s with Some _ => true | None => false end)
  | _ => Raise TypeError
  end.

Definition str_in (s : string) (l : list string) : bool :=
  existsb (String.eqb s) l.
End Dicts.

(** ** [AssetToHeatComponent] (esdl_heat_model.py) *)

Module AssetToHeatComponent.
Section Converter.
Context {F : Type} `{PyFloat F}.

(** The base class [_AssetToComponentBase] is not part of the sources at
    hand: its state [S] and the four methods of it that the conversion
    rules call are parameters of the development. *)
Context {S : Type}.
Context (_get_connected_q_nominal : S -> Asset F -> result F).
Context (_set_q_nominal : S -> Asset F -> F -> S).
Context (_get_supply_return_temperatures : S -> Asset F -> result (F * F)).
Context (_supply_return_temperature_modifiers :
           S -> Asset F -> result (MODIFIERS F)).

Record t : Type := {
  state : S;
  v_nominal : F;
  v_max : F;
  rho : F;
  cp : F
}.

(** The keyword arguments of [__init__] default to [v_nominal=1.0],
    [v_max=5.0], [rho=988.0] and [cp=4200.0]. *)
Definition __init__ (base : S) (v_nominal v_max rho cp : option F) : t :=
  {| state := base;
     v_nominal := default (dec 1 0) v_nominal;
     v_max := default (dec 5 0) v_max;
     rho := default (dec 988 0) rho;
     cp := default (dec 4200 0) cp |}.

Definition _rho_cp_modifiers (self : t) : MODIFIERS F :=
  [("rho", MFloat (rho self)); ("cp", MFloat (cp self))].

Definition convert_buffer (self : t) (asset : Asset F)
  : result (ComponentType * MODIFIERS F) :=
  _ ← assert (String.eqb (asset_type asset) "HeatStorage");

  max_heat ← getitem asset "capacity" ≫= as_float;
  _ ← assert (py_gt max_heat (dec 0 0));

  q ← _get_connected_q_nominal (state self) asset;
  modifiers ← dict_kwargs
    [("Q_nominal", MFloat q);
     ("Stored_heat", MDict [("min", MFloat (dec 0 0)); ("max", MFloat max_heat)]);
     ("init_Heat", MFloat (dec 0 0))]
    [_rho_cp_modifiers self];

  Ok (Buffer, modifiers).

Definition convert_demand (self : t) (asset : Asset F)
  : result (ComponentType * MODIFIERS F) :=
  _ ← assert (str_in (asset_type asset) ["GenericConsumer"; "HeatingDemand"]);

  max_demand ← getitem asset "power" ≫= as_float;
  _ ← assert (py_gt max_demand (dec 0 0));

  q ← _get_connected_q_nominal (state self) asset;
  temps ← _supply_return_temperature_modifiers (state self) asset;
  modifiers ← dict_kwargs
    [("Q_nominal", MFloat q);
     ("Heat_demand", MDict [("max", MFloat max_demand)])]
    [temps; _rho_cp_modifiers self];

  Ok (Demand, modifiers).

(** The loop of [convert_node] over the ports of the asset. *)
Definition count_port (sums : Z * Z) (x : esdl.Port) : Z * Z :=
  let '(sum_in, sum_out) := sums in
  let sum_in :=
    if decide (esdl.port_type x = esdl.InPort)
    then sum_in + Z.of_nat (List.length (esdl.connectedTo x)) else sum_in in
  let sum_out :=
    if decide (esdl.port_type x = esdl.OutPort)
    then sum_out + Z.of_nat (List.length (esdl.connectedTo x)) else sum_out in
  (sum_in, sum_out).

Definition convert_node (self : t) (asset : Asset F)
  : result (ComponentType * MODIFIERS F) :=
  _ ← assert (String.eqb (asset_type asset) "Joint");

  port ← getitem asset "port";
  items ← match port with esdl.APorts items => Ok items | _ => Raise TypeError end;
  let '(sum_in, sum_out) := fold_left count_port items (0, 0) in

  let modifiers := [("n", MInt (sum_in + sum_out))] in

  Ok (Node, modifiers).

(** The part of [convert_pipe] that precedes [_set_q_nominal]. *)
Definition pipe_flows (self : t) (asset : Asset F)
  : result (F * F * F * F * F * F) :=
  _ ← assert (String.eqb (asset_type asset) "Pipe");

  '(supply_temperature, return_temperature) ←
    _get_supply_return_temperatures (state self) asset;

  is_ret ← getitem asset "name" ≫= str_contains "_ret";
  let temperature :=
    if is_ret : bool then return_temperature else supply_temperature in

  (* Compute the maximum heat flow based on an assumed maximum velocity *)
  diameter ← getitem asset "innerDiameter" ≫= as_float;
  let area := (fpi * py_pow2 diameter / dec 4 0)%py in
  let q_max := (area * v_max self)%py in
  let q_nominal := (area * v_nominal self)%py in
  Ok (supply_temperature, return_temperature, temperature,
      diameter, q_max, q_nominal).

(** The part of [convert_pipe] that follows [_set_q_nominal]; [st] is the
    state that [_set_q_nominal] has left. *)
Definition pipe_modifiers (self : t) (st : S) (asset : Asset F)
    (flows : F * F * F * F * F * F)
  : result (ComponentType * MODIFIERS F) :=
  let '(supply_temperature, return_temperature, temperature,
        diameter, q_max, q_nominal) := flows in
  let delta_temperature := (supply_temperature - return_temperature)%py in
  let hfr_nominal := (rho self * cp self * q_nominal * delta_temperature)%py in
  let hfr_max := (rho self * cp self * q_max * delta_temperature * dec 2 0)%py in

  _ ← assert (py_gt hfr_max (dec 0 0));

  (* Insulation properties *)
  material ← getitem asset "material";
  (* NaN means the default values will be used *)
  '(insulation_thicknesses, conductivies_insulation) ←
    match material with
    | esdl.ANone => Ok (MFloat fnan, MFloat fnan)
    | esdl.ACompoundMatter components =>
        match components with
        | [] => Ok (MFloat fnan, MFloat fnan)
        | _ => Ok (MList (map esdl.layerWidth components),
                   MList (map esdl.thermalConductivity components))
        end
    | _ => Raise AssertionError
    end;

  length ← getitem asset "length";
  let heat_q :=
    MDict [("Heat", MDict [("min", MFloat (- hfr_max)%py);
                           ("max", MFloat hfr_max);
                           ("nominal", MFloat hfr_nominal)]);
           ("Q", MDict [("min", MFloat (- q_max)%py);
                        ("max", MFloat q_max)])] in
  temps ← _supply_return_temperature_modifiers st asset;
  modifiers ← dict_kwargs
    [("Q_nominal", MFloat q_nominal);
     ("length", MAttr length);
     ("diameter", MFloat diameter);
     ("temperature", MFloat temperature);
     ("HeatIn", heat_q);
     ("HeatOut", heat_q);
     ("insulation_thickness", insulation_thicknesses);
     ("conductivity_insulation", conductivies_insulation)]
    [temps; _rho_cp_modifiers self];

  Ok (Pipe, modifiers).

(** [convert_pipe] changes the state of the converter; the state is
    returned with the result, also when the rule raises after the
    change. *)
Definition convert_pipe (self : t) (asset : Asset F)
  : S * result (ComponentType * MODIFIERS F) :=
  match pipe_flows self asset with
  | Raise e => (state self, Raise e)
  | Ok flows =>
      let st := _set_q_nominal (state self) asset (snd flows) in
      (st, pipe_modifiers self st asset flows)
  end.

Definition convert_pump (self : t) (asset : Asset F)
  : result (ComponentType * MODIFIERS F) :=
  _ ← assert (String.eqb (asset_type asset) "Pump");

  q ← _get_connected_q_nominal (state self) asset;
  temps ← _supply_return_temperature_modifiers (state self) asset;
  modifiers ← dict_kwargs
    [("Q_nominal", MFloat q)]
    [temps; _rho_cp_modifiers self];

  Ok (Pump, modifiers).

Definition convert_source (self : t) (asset : Asset F)
  : result (ComponentType * MODIFIERS F) :=
  _ ← assert (str_in (asset_type asset)
                ["GasHeater"; "GenericProducer"; "GeothermalSource";
                 "ResidualHeatSource"]);

  max_supply ← getitem asset "power" ≫= as_float;
  _ ← assert (py_gt max_supply (dec 0 0));

  q ← _get_connected_q_nominal (state self) asset;
  temps ← _supply_return_temperature_modifiers (state self) asset;
  modifiers ← dict_kwargs
    [("Q_nominal", MFloat q);
     ("Heat_source", MDict [("min", MFloat (dec 0 0));
                            ("max", MFloat max_supply);
                            ("nominal", MFloat (max_supply / dec 2 0)%py)])]
    [temps; _rho_cp_modifiers self];

  Ok (Source, modifiers).
End Converter.
Arguments t F S : clear implicits.
End AssetToHeatComponent.

(** ** The equations and variables named by the specification *)

Section Emitted.
Context {F : Type} `{PyFloat F}.

(** The divisor of an equation of the form [a / c], [c] a constant. *)
Definition normalizer (e : expr F) : option F :=
  match e with
  | MDiv _ (MConst c) => Some c
  | _ => None
  end.

Definition normalized (e : expr F) : bool :=
  match normalizer e with Some _ => true | None => false end.

(** Whether an equation refers to a [Q_shadow] variable of a port. *)
Definition is_shadow (s : sym) : bool :=
  match s with
  | PortVar _ v => String.eqb v "Q_shadow"
  | Own _ => false
  end.

Definition mentions_shadow (e : expr F) : bool := existsb is_shadow (symbols e).

(** The equations of [GasPipe.__init__], in the order of the source. *)
Definition eq_flow (gp : GasPipe.t F) : expr F :=
  ((MSym (PortVar "GasIn" "Q") - MSym (PortVar "GasOut" "Q"))
   / MConst (GasPipe.Q_nominal gp))%mx.
Definition eq_alias (gp : GasPipe.t F) : expr F :=
  ((MSym (Own "Q") - MSym (PortVar "GasOut" "Q"))
   / MConst (GasPipe.Q_nominal gp))%mx.
Definition eq_density (gp : GasPipe.t F) : expr F :=
  ((MSym (PortVar "GasIn" "Q")
    - MSym (PortVar "GasIn" "mass_flow") / MConst (GasPipe.density gp))
   / MConst (GasPipe.Q_nominal gp))%mx.
Definition eq_mass_flow (gp : GasPipe.t F) : expr F :=
  ((MSym (PortVar "GasIn" "mass_flow") - MSym (PortVar "GasOut" "mass_flow"))
   / MConst (GasPipe.Q_nominal gp * GasPipe.density gp)%py)%mx.
Definition eq_shadow : expr F :=
  (MSym (PortVar "GasOut" "Q_shadow")
   - (MSym (PortVar "GasIn" "Q_shadow") - MConst (dec 1 3)))%mx.
Definition eq_power (s : F) : expr F :=
  ((MSym (Own "Hydraulic_power")
    - (MSym (PortVar "GasIn" "Hydraulic_power")
       - MSym (PortVar "GasOut" "Hydraulic_power")))
   / MConst s)%mx.

Definition gas_equations (gp : GasPipe.t F) (s : F) : list (expr F) :=
  [eq_flow gp; eq_alias gp; eq_density gp; eq_mass_flow gp;
   eq_shadow; eq_power s].

Definition gas_variables (gp : GasPipe.t F) : list (Var F) :=
  [ {| var_name := "dH";
       var_nominal := (GasPipe.Q_nominal gp * GasPipe.r gp)%py;
       var_min := None; var_max := None |};
    {| var_name := "Q"; var_nominal := GasPipe.Q_nominal gp;
       var_min := None; var_max := None |};
    {| var_name := "Hydraulic_power";
       var_nominal := GasPipe.Hydraulic_power_nominal gp;
       var_min := Some (dec 0 0); var_max := None |} ].

(** The parameters and the derived constants of a constructed gas pipe. *)
Record gas_constants (modifiers : gmap string F) (gp : GasPipe.t F) : Prop := {
  gc_v_max : GasPipe.v_max gp = param modifiers "v_max" (dec 15 0);
  gc_density : GasPipe.density gp = param modifiers "density" (dec 2500 0);
  gc_rho : GasPipe.rho gp = GasPipe.density gp;
  gc_diameter : GasPipe.diameter gp = param modifiers "diameter" fnan;
  gc_area :
    GasPipe.area gp = (dec 25 2 * fpi * py_pow2 (GasPipe.diameter gp))%py;
  gc_Q_nominal :
    GasPipe.Q_nominal gp = (GasPipe.v_max gp / dec 2 0 * GasPipe.area gp)%py;
  gc_pressure : GasPipe.pressure gp = param modifiers "pressure" (dec 1600000 0);
  gc_nominal_head :
    GasPipe.nominal_head gp = param modifiers "nominal_head" (dec 30 0);
  gc_length : GasPipe.length gp = param modifiers "length" fnan;
  gc_r : GasPipe.r gp = (dec 1 6 * GasPipe.length gp)%py;
  gc_nominal_head_loss :
    GasPipe.nominal_head_loss gp =
    py_pow_half (GasPipe.Q_nominal gp * GasPipe.r gp * GasPipe.nominal_head gp)%py;
  gc_Hydraulic_power_nominal :
    GasPipe.Hydraulic_power_nominal gp =
    (GasPipe.rho gp * dec 2 2 * py_max (GasPipe.length gp) (dec 1 0) * fpi
     * GasPipe.area gp / GasPipe.diameter gp / dec 2 0
     * py_pow3 (GasPipe.Q_nominal gp / GasPipe.area gp))%py;
  gc_area_nonzero : (GasPipe.area gp =? f_of_Z 0)%py = false;
  gc_diameter_nonzero : (GasPipe.diameter gp =? f_of_Z 0)%py = false
}.

(** The equations and the variables of [QTHPipe.__init__]. *)
Definition eq_qth_in : expr F :=
  (MSym (PortVar "QTHIn" "Q") - MSym (Own "Q"))%mx.
Definition eq_qth_out : expr F :=
  (MSym (PortVar "QTHOut" "Q") - MSym (PortVar "QTHIn" "Q"))%mx.

Definition qth_equations : list (expr F) := [eq_qth_in; eq_qth_out].

Definition qth_variables : list (Var F) :=
  [ {| var_name := "Q"; var_nominal := dec 1 0;
       var_min := None; var_max := None |};
    {| var_name := "dH"; var_nominal := dec 1 0;
       var_min := None; var_max := Some (dec 0 0) |} ].

(** The port symbols that the two constructors refer to. *)
Definition gas_port_symbols : list sym :=
  [PortVar "GasIn" "Q"; PortVar "GasOut" "Q";
   PortVar "GasIn" "mass_flow"; PortVar "GasOut" "mass_flow";
   PortVar "GasIn" "Q_shadow"; PortVar "GasOut" "Q_shadow";
   PortVar "GasIn" "Hydraulic_power"; PortVar "GasOut" "Hydraulic_power"].

Definition qth_port_symbols : list sym :=
  [PortVar "QTHIn" "Q"; PortVar "QTHOut" "Q"].

(** All the variables of a component: its own and those of its ports. *)
Definition all_variables (c : Component F) : list (Var F) :=
  variables c ++ concat (map snd (ports c)).

Definition nominals_ok (c : Component F) : Prop :=
  Forall (fun v => nominal_ok (var_nominal v) = true) (all_variables c).

(** The components that the two constructors build, from a base whose
    variables have passed the validation of [new_Variable]. *)
Inductive constructed : Component F -> Prop :=
| constructed_gas_pipe self modifiers gp :
    nominals_ok self ->
    GasPipe.__init__ self modifiers = Ok gp ->
    constructed (GasPipe.base gp)
| constructed_qth_pipe self modifiers p :
    nominals_ok self ->
    QTHPipe.__init__ self modifiers = Ok p ->
    constructed (QTHPipe.base p).

(** [abs(a - b) < tol] *)
Definition fabs (x : F) : F := if (x <? f_of_Z 0)%py then (- x)%py else x.
Definition within (tol a b : F) : bool := (fabs (a - b) <? tol)%py.

(** The number of connections of the ports of one class. *)
Definition connections (cls : esdl.port_class) (items : list esdl.Port) : Z :=
  Z.of_nat
    (list_sum (map (fun x => List.length (esdl.connectedTo x))
                   (filter (fun x => esdl.port_type x = cls) items))).
End Emitted.

(** ** Example inputs *)

Section Examples.
Context {F : Type} `{PyFloat F}.

(** Modelled from the spec: a gas port exposes [Q], [mass_flow],
    [Hydraulic_power] and the shadow variable [Q_shadow]; the two-port
    base class (not part of the sources at hand) declares the ports
    [GasIn] and [GasOut]. *)
Definition GasTwoPort (nm : string) : result (Component F) :=
  p ← mapM (fun n => new_Variable n None None None)
           ["Q"; "mass_flow"; "Hydraulic_power"; "Q_shadow"];
  Ok {| name := nm; component_type := ""; disconnectable := false;
        ports := [("GasIn", p); ("GasOut", p)];
        variables := []; equations := [] |}.

(** Modelled from the spec: the two-port base class of the QTH pipe (not
    part of the sources at hand) declares the ports [QTHIn] and [QTHOut];
    of their variables the pipe refers to [Q] only. *)
Definition QTHTwoPort (nm : string) : result (Component F) :=
  p ← mapM (fun n => new_Variable n None None None) ["Q"];
  Ok {| name := nm; component_type := ""; disconnectable := false;
        ports := [("QTHIn", p); ("QTHOut", p)];
        variables := []; equations := [] |}.

(** A pipe of diameter [0.1] and length [10.0]. *)
Definition example_modifiers : gmap string F :=
  <["diameter" := dec 1 1]> (<["length" := dec 10 0]> ∅).

Definition example_gas_pipe : result (GasPipe.t F) :=
  self ← GasTwoPort "pipe"; GasPipe.__init__ self example_modifiers.

Definition example_qth_pipe : result (QTHPipe.t F) :=
  self ← QTHTwoPort "pipe"; QTHPipe.__init__ self ∅.

(** A valuation under which the equations of [example_gas_pipe] hold. *)
Definition example_env (s : sym) : F :=
  match s with
  | Own v => if String.eqb v "Q" then dec 2 0 else dec 0 0
  | PortVar p v =>
      if String.eqb v "Q" then dec 2 0
      else if String.eqb v "mass_flow" then dec 5000 0
      else if String.eqb v "Q_shadow" && String.eqb p "GasIn" then dec 1 3
      else dec 0 0
  end.

(** A converter with the default parameters, over a base class without
    state whose helpers answer [q] and [temps]. *)
Definition example_converter : AssetToHeatComponent.t F unit :=
  AssetToHeatComponent.__init__ tt None None None None.

Definition answer_q (q : F) (_ : unit) (_ : Asset F) : result F := Ok q.
Definition answer_temps (temps : MODIFIERS F) (_ : unit) (_ : Asset F)
  : result (MODIFIERS F) := Ok temps.
Definition answer_temperatures (ts : F * F) (_ : unit) (_ : Asset F)
  : result (F * F) := Ok ts.
Definition keep_state (_ : unit) (_ : Asset F) (_ : F) : unit := tt.

Definition example_temps : MODIFIERS F :=
  [("T_supply", MFloat (dec 80 0)); ("T_return", MFloat (dec 40 0))].

Definition demand_asset (power : F) : Asset F :=
  {| asset_type := "HeatingDemand";
     attributes := <["power" := esdl.AFloat power]> ∅ |}.

Definition buffer_asset (capacity : F) : Asset F :=
  {| asset_type := "HeatStorage";
     attributes := <["capacity" := esdl.AFloat capacity]> ∅ |}.

(** A pipe whose supply and return temperatures will be taken equal, so
    that [hfr_max] is zero. *)
Definition pipe_asset : Asset F :=
  {| asset_type := "Pipe";
     attributes :=
       <["name" := esdl.AStr "Pipe1"]>
       (<["innerDiameter" := esdl.AFloat (dec 1 1)]>
       (<["length" := esdl.AFloat (dec 10 0)]>
       (<["material" := esdl.ANone]> ∅))) |}.

(** A joint with two inbound ports and one outbound port, each with one
    connection. *)
Definition joint_asset : Asset F :=
  {| asset_type := "Joint";
     attributes :=
       <["port" := esdl.APorts
           [ {| esdl.port_type := esdl.InPort; esdl.connectedTo := ["a"] |};
             {| esdl.port_type := esdl.InPort; esdl.connectedTo := ["b"] |};
             {| esdl.port_type := esdl.OutPort; esdl.connectedTo := ["c"] |} ]]>
       ∅ |}.
End Examples.

(** ** Lookups in nested modifiers, occurrences in strings *)

(** [d[k1][k2][k3]] *)
Definition dict_get3 {F : Type} (d : MODIFIERS F) (k1 k2 k3 : string)
  : option (modval F) :=
  match dict_get d k1 with
  | Some (MDict d') => dict_get2 d' k2 k3
  | _ => None
  end.

(** [needle in s] for two strings: [needle] occurs in [s]. *)
Definition occurs_in (needle s : string) : Prop :=
  exists a b : string, s = String.append a (String.append needle b).

(** ** More example inputs *)

Section MoreExamples.
Context {F : Type} `{PyFloat F}.

(** A base class whose state is the list of the nominal flows recorded so
    far, with helpers that give the same answer for every asset, and one
    that answers the number of flows recorded. *)
Definition record_q (st : list F) (_ : Asset F) (q : F) : list F := q :: st.

Definition always {S A : Type} (r : result A) (_ : S) (_ : Asset F)
  : result A := r.

Definition count_recorded (st : list F) (_ : Asset F)
  : result (MODIFIERS F) :=
  Ok [("recorded", MInt (Z.of_nat (List.length st)))].

Definition example_list_converter : AssetToHeatComponent.t F (list F) :=
  AssetToHeatComponent.__init__ [] None None None None.

(** An asset without attributes. *)
Definition bare_asset (ty : string) : Asset F :=
  {| asset_type := ty; attributes := ∅ |}.

(** A pipe of inner diameter [0.1] and length [10.0] with the given name
    and material. *)
Definition named_pipe_asset (nm : string) (material : esdl.attr F) : Asset F :=
  {| asset_type := "Pipe";
     attributes :=
       <["name" := esdl.AStr nm]>
       (<["innerDiameter" := esdl.AFloat (dec 1 1)]>
       (<["length" := esdl.AFloat (dec 10 0)]>
       (<["material" := material]> ∅))) |}.

Definition two_layers : esdl.attr F :=
  esdl.ACompoundMatter
    [ {| esdl.layerWidth := dec 5 3; esdl.thermalConductivity := dec 52 0 |};
      {| esdl.layerWidth := dec 3 2; esdl.thermalConductivity := dec 27 3 |} ].

(** A return pipe with two layers of insulation. *)
Definition ret_pipe_asset : Asset F := named_pipe_asset "Pipe1_ret" two_layers.

Definition source_asset (power : F) : Asset F :=
  {| asset_type := "GeothermalSource";
     attributes := <["power" := esdl.AFloat power]> ∅ |}.

(** The joint of [joint_asset] with its ports in another order. *)
Definition rearranged_joint_asset : Asset F :=
  {| asset_type := "Joint";
     attributes :=
       <["port" := esdl.APorts
           [ {| esdl.port_type := esdl.OutPort; esdl.connectedTo := ["c"] |};
             {| esdl.port_type := esdl.InPort; esdl.connectedTo := ["a"] |};
             {| esdl.port_type := esdl.InPort; esdl.connectedTo := ["b"] |} ]]>
       ∅ |}.

(** Temperature modifiers that repeat a key of the converter. *)
Definition clashing_temps : MODIFIERS F :=
  [("T_supply", MFloat (dec 80 0)); ("rho", MFloat (dec 1000 0))].

(** The example pipe at pressure zero. *)
Definition zero_pressure_modifiers : gmap string F :=
  <["pressure" := dec 0 0]> example_modifiers.
End MoreExamples.

(** * Properties *)

(** ** The error monad *)

Lemma bind_Ok {A B : Type} (m : result A) (k : A -> result B) (b : B) :
  m ≫= k = Ok b -> exists a, m = Ok a /\ k a = Ok b.
Proof.
  destruct m as [a|e]; simpl; intros Hk.
  - exists a. split; [reflexivity | exact Hk].
  - discriminate Hk.
Qed.

Lemma assert_Ok (b : bool) (u : unit) : assert b = Ok u -> b = true.
Proof. destruct b; simpl; [reflexivity | discriminate]. Qed.

Ltac inv_bind H :=
  let a := fresh "a" in
  let Ha := fresh "H" a in
  apply bind_Ok in H as (a & Ha & H).

(** Reduction of one step of a construction. *)
Ltac step :=
  cbn [mbind result_bind name component_type disconnectable ports variables
       equations set_disconnectable set_component_type].

(** ** Variables and equations of a component *)

Section SymbolicFacts.
Context {F : Type} `{PyFloat F}.

Lemma new_Variable_Ok (n : string) (nominal lo hi : option F) (v : Var F) :
  new_Variable n nominal lo hi = Ok v ->
  v = {| var_name := n; var_nominal := default (dec 1 0) nominal;
         var_min := lo; var_max := hi |}
  /\ nominal_ok (var_nominal v) = true
  /\ bounds_ok lo hi = true.
Proof.
  unfold new_Variable.
  destruct (nominal_ok _ && bounds_ok lo hi) eqn:Hok; [|discriminate].
  intros [= <-]. apply andb_true_iff in Hok as [Hn Hb]. simpl. auto.
Qed.

Lemma add_variable_Ok (self self' : Component F) (n : string)
    (nominal lo hi : option F) :
  add_variable self n nominal lo hi = Ok self' ->
  let v := {| var_name := n; var_nominal := default (dec 1 0) nominal;
              var_min := lo; var_max := hi |} in
  variables self' = variables self ++ [v]
  /\ equations self' = equations self
  /\ ports self' = ports self
  /\ component_type self' = component_type self
  /\ disconnectable self' = disconnectable self
  /\ nominal_ok (default (dec 1 0) nominal) = true.
Proof.
  unfold add_variable. intros Hadd. inv_bind Hadd.
  apply new_Variable_Ok in Ha as (-> & Hn & _).
  injection Hadd as <-. simpl in *. auto 10.
Qed.

Lemma add_equation_Ok (self self' : Component F) (e : expr F) :
  add_equation self e = Ok self' ->
  equations self' = equations self ++ [e]
  /\ variables self' = variables self
  /\ ports self' = ports self
  /\ component_type self' = component_type self
  /\ disconnectable self' = disconnectable self
  /\ forallb (declared self) (symbols e) = true.
Proof.
  unfold add_equation.
  destruct (forallb (declared self) (symbols e)) eqn:Hd; [|discriminate].
  intros [= <-]. simpl. auto 10.
Qed.

Lemma add_variable_succeeds (self : Component F) (n : string) (x : F)
    (lo hi : option F) :
  nominal_ok x = true -> bounds_ok lo hi = true ->
  add_variable self n (Some x) lo hi =
  Ok {| name := name self; component_type := component_type self;
        disconnectable := disconnectable self; ports := ports self;
        variables :=
          variables self
          ++ [ {| var_name := n; var_nominal := x;
                  var_min := lo; var_max := hi |} ];
        equations := equations self |}.
Proof.
  intros Hn Hb. unfold add_variable, new_Variable. simpl. rewrite Hn, Hb.
  reflexivity.
Qed.

Lemma add_default_variable_succeeds (self : Component F) (n : string)
    (lo hi : option F) :
  nominal_ok (dec (F:=F) 1 0) = true -> bounds_ok lo hi = true ->
  add_variable self n None lo hi =
  Ok {| name := name self; component_type := component_type self;
        disconnectable := disconnectable self; ports := ports self;
        variables :=
          variables self
          ++ [ {| var_name := n; var_nominal := dec 1 0;
                  var_min := lo; var_max := hi |} ];
        equations := equations self |}.
Proof.
  intros Hn Hb. unfold add_variable, new_Variable. cbn [from_option id].
  rewrite Hn, Hb. reflexivity.
Qed.

Lemma add_equation_succeeds (self : Component F) (e : expr F) :
  forallb (declared self) (symbols e) = true ->
  add_equation self e =
  Ok {| name := name self; component_type := component_type self;
        disconnectable := disconnectable self; ports := ports self;
        variables := variables self; equations := equations self ++ [e] |}.
Proof. intros Hd. unfold add_equation. rewrite Hd. reflexivity. Qed.

Lemma py_div_Ok (a b q : F) :
  py_div a b = Ok q -> q = (a / b)%py /\ (b =? f_of_Z 0)%py = false.
Proof.
  unfold py_div. destruct (b =? f_of_Z 0)%py; [discriminate|].
  intros [= <-]. auto.
Qed.

Lemma py_pow_half_float (x s : F) :
  py_pow_half x = PyFloatV s -> s = fsqrt x /\ (x <? f_of_Z 0)%py = false.
Proof.
  unfold py_pow_half. destruct (x <? f_of_Z 0)%py; [discriminate|].
  intros [= <-]. auto.
Qed.

(** What a successful construction of a gas pipe has done to [self]. *)
Lemma GasPipe_init_inv (self : Component F) (modifiers : gmap string F)
    (gp : GasPipe.t F) :
  GasPipe.__init__ self modifiers = Ok gp ->
  gas_constants modifiers gp
  /\ exists s : F,
       py_pow_half (GasPipe.pressure gp * GasPipe.Q_nominal gp
                    * GasPipe.Hydraulic_power_nominal gp)%py = PyFloatV s
       /\ equations (GasPipe.base gp) = equations self ++ gas_equations gp s
       /\ variables (GasPipe.base gp) = variables self ++ gas_variables gp
       /\ ports (GasPipe.base gp) = ports self
       /\ Forall (fun v => nominal_ok (var_nominal v) = true) (gas_variables gp).
Proof.
  unfold GasPipe.__init__. cbv zeta. intros Hi.
  repeat inv_bind Hi.
  destruct (py_pow_half _) as [s|] eqn:Hs in Hi; [|discriminate].
  inv_bind Hi.
  assert (Hgp : gp = _)
    by (symmetry;
        exact (f_equal (fun x => match x with Ok g => g | Raise _ => gp end) Hi)).
  clear Hi. subst gp.
  apply py_div_Ok in Ha6 as [-> Harea], Ha7 as [-> Hdiam].
  apply add_variable_Ok in Ha as (Hv & He & Hp & _ & _ & Hn),
    Ha0 as (Hv0 & He0 & Hp0 & _ & _ & Hn0),
    Ha8 as (Hv8 & He8 & Hp8 & _ & _ & Hn8).
  apply add_equation_Ok in Ha1 as (He1 & Hv1 & Hp1 & _),
    Ha2 as (He2 & Hv2 & Hp2 & _), Ha3 as (He3 & Hv3 & Hp3 & _),
    Ha4 as (He4 & Hv4 & Hp4 & _), Ha5 as (He5 & Hv5 & Hp5 & _),
    Ha9 as (He9 & Hv9 & Hp9 & _).
  split; [constructor; simpl; solve [reflexivity | assumption]|].
  exists s. simpl. split; [exact Hs|]. repeat split.
  - rewrite He9, He8, He5, He4, He3, He2, He1, He0, He. simpl.
    rewrite <- !app_assoc. reflexivity.
  - rewrite Hv9, Hv8, Hv5, Hv4, Hv3, Hv2, Hv1, Hv0, Hv. simpl.
    rewrite <- !app_assoc. reflexivity.
  - rewrite Hp9, Hp8, Hp5, Hp4, Hp3, Hp2, Hp1, Hp0, Hp. reflexivity.
  - unfold gas_variables. simpl in *. repeat constructor; assumption.
Qed.

(** What a successful construction of a QTH pipe has done to [self]. *)
Lemma QTHPipe_init_inv (self : Component F) (modifiers : gmap string F)
    (p : QTHPipe.t F) :
  QTHPipe.__init__ self modifiers = Ok p ->
  equations (QTHPipe.base p) = equations self ++ qth_equations
  /\ variables (QTHPipe.base p) = variables self ++ qth_variables
  /\ ports (QTHPipe.base p) = ports self
  /\ nominal_ok (dec (F:=F) 1 0) = true.
Proof.
  unfold QTHPipe.__init__. cbv zeta. intros Hi.
  repeat inv_bind Hi.
  assert (Hp : p = _)
    by (symmetry;
        exact (f_equal (fun x => match x with Ok g => g | Raise _ => p end) Hi)).
  clear Hi. subst p.
  apply add_variable_Ok in Ha as (Hv & He & Hp & _ & _ & Hn),
    Ha0 as (Hv0 & He0 & Hp0 & _ & _ & Hn0).
  apply add_equation_Ok in Ha1 as (He1 & Hv1 & Hp1 & _),
    Ha2 as (He2 & Hv2 & Hp2 & _).
  simpl. repeat split.
  - rewrite He2, He1, He0, He. simpl. rewrite <- !app_assoc. reflexivity.
  - rewrite Hv2, Hv1, Hv0, Hv. simpl. rewrite <- !app_assoc. reflexivity.
  - rewrite Hp2, Hp1, Hp0, Hp. reflexivity.
  - exact Hn.
Qed.
End SymbolicFacts.

(** ** Residuals over the ideal carrier *)

Section IdealFacts.
Local Open Scope R_scope.

Lemma ideal_eqb_true (a b : ideal) :
  ideal_eqb a b = true <-> exists x, a = Fin x /\ b = Fin x.
Proof.
  destruct a as [x|], b as [y|]; simpl;
    try (split; [discriminate | intros (z & Hz1 & Hz2); discriminate]).
  destruct (Req_dec_T x y) as [->|Hne]; split.
  - intros _. exists y. auto.
  - reflexivity.
  - discriminate.
  - intros (z & [= ->] & [= ->]). contradiction.
Qed.

Lemma ideal_div_Fin (x y : R) :
  y <> 0 -> ideal_div (Fin x) (Fin y) = Fin (x / y).
Proof.
  intros Hy. simpl. destruct (Req_dec_T y 0); [contradiction | reflexivity].
Qed.

Lemma ideal_div_Fin_inv (a b : ideal) (z : R) :
  ideal_div a b = Fin z ->
  exists m d, a = Fin m /\ b = Fin d /\ d <> 0 /\ z = m / d.
Proof.
  destruct a as [m|], b as [d|]; simpl; try discriminate.
  destruct (Req_dec_T d 0) as [|Hd]; [discriminate|].
  intros [= <-]. exists m, d. auto.
Qed.

Lemma ideal_sub_zero (a b : ideal) :
  ideal_lift2 Rminus a b = Fin 0 <-> exists x, a = Fin x /\ b = Fin x.
Proof.
  destruct a as [x|], b as [y|]; simpl;
    try (split; [discriminate | intros (z & Hz1 & Hz2); discriminate]).
  split.
  - intros [= Hxy]. exists x. split; [reflexivity | f_equal; lra].
  - intros (z & [= ->] & [= ->]). f_equal. lra.
Qed.

(** A quotient is zero exactly when the divisor is a non-zero number and
    the dividend is zero. *)
Lemma ideal_div_zero (a b : ideal) :
  ideal_div a b = Fin 0 <-> a = Fin 0 /\ exists n, b = Fin n /\ n <> 0.
Proof.
  destruct a as [x|], b as [y|]; simpl;
    try (split; [discriminate | intros (Ha & n & Hn & _); discriminate]).
  destruct (Req_dec_T y 0) as [->|Hy]; split.
  - discriminate.
  - intros (_ & n & [= <-] & Hn). contradiction.
  - intros [= Hq]. split; [|exists y; auto].
    f_equal. apply (Rmult_eq_compat_r y) in Hq. unfold Rdiv in Hq.
    rewrite Rmult_assoc, Rinv_l, Rmult_1_r, Rmult_0_l in Hq by exact Hy.
    exact Hq.
  - intros ([= ->] & _). f_equal. unfold Rdiv. apply Rmult_0_l.
Qed.

Lemma satisfied_ideal (env : sym -> ideal) (e : expr ideal) :
  satisfied env e = true <-> eval env e = Fin 0.
Proof.
  unfold satisfied. simpl. rewrite ideal_eqb_true. split.
  - intros (x & -> & [= <-]). reflexivity.
  - intros ->. exists 0. auto.
Qed.

(** An equation [a / c] with a constant [c] holds exactly when [c] is a
    non-zero number and [a] vanishes. *)
Lemma satisfied_normalized (env : sym -> ideal) (a : expr ideal) (c : ideal) :
  satisfied env (a / MConst c)%mx = true
  <-> eval env a = Fin 0 /\ exists n, c = Fin n /\ n <> 0.
Proof. rewrite satisfied_ideal. simpl. apply ideal_div_zero. Qed.

(** An equation [a - b] holds exactly when both sides are the same
    number. *)
Lemma eval_difference (env : sym -> ideal) (a b : expr ideal) :
  eval env (a - b)%mx = Fin 0
  <-> exists x, eval env a = Fin x /\ eval env b = Fin x.
Proof. simpl. apply ideal_sub_zero. Qed.

Lemma fpi_ideal : fpi (F:=ideal) = Fin PI.
Proof. reflexivity. Qed.

Lemma fmul_Fin (a b : R) : (Fin a * Fin b)%py = Fin (a * b).
Proof. reflexivity. Qed.

Lemma fsub_Fin (a b : R) : (Fin a - Fin b)%py = Fin (a - b).
Proof. reflexivity. Qed.

Lemma fdiv_Fin (a b : R) : b <> 0 -> (Fin a / Fin b)%py = Fin (a / b).
Proof. apply ideal_div_Fin. Qed.

Lemma dec_ideal_0 (m : Z) : dec (F:=ideal) m 0 = Fin (IZR m).
Proof. reflexivity. Qed.

Lemma dec_25_2 : dec (F:=ideal) 25 2 = Fin (25 / 100).
Proof. apply ideal_div_Fin. lra. Qed.

Lemma dec_1_6 : dec (F:=ideal) 1 6 = Fin (1 / 1000000).
Proof. apply ideal_div_Fin. lra. Qed.

Lemma dec_2_2 : dec (F:=ideal) 2 2 = Fin (2 / 100).
Proof. apply ideal_div_Fin. lra. Qed.

Lemma dec_1_3 : dec (F:=ideal) 1 3 = Fin (1 / 1000).
Proof. apply ideal_div_Fin. lra. Qed.

Lemma dec_1_2 : dec (F:=ideal) 1 2 = Fin (1 / 100).
Proof. apply ideal_div_Fin. lra. Qed.

Lemma dec_1_1 : dec (F:=ideal) 1 1 = Fin (1 / 10).
Proof. apply ideal_div_Fin. lra. Qed.

Lemma nominal_ok_ideal (x : R) : 0 < x -> nominal_ok (Fin x) = true.
Proof.
  intros Hx. unfold nominal_ok. simpl.
  destruct (Rlt_dec 0 x); [reflexivity | contradiction].
Qed.

Lemma nominal_ok_ideal_inv (a : ideal) :
  nominal_ok a = true -> exists x, a = Fin x /\ 0 < x.
Proof.
  unfold nominal_ok. destruct a as [x|]; simpl; [|discriminate].
  destruct (Rlt_dec 0 x); [|discriminate]. intros _. exists x. auto.
Qed.

Lemma py_div_ideal (a b : R) :
  b <> 0 -> py_div (Fin a) (Fin b) = Ok (Fin (a / b)).
Proof.
  intros Hb. unfold py_div. simpl.
  destruct (Req_dec_T b 0); [contradiction | reflexivity].
Qed.

Lemma py_max_ideal (a b : R) : py_max (Fin a) (Fin b) = Fin (Rmax a b).
Proof.
  unfold py_max, py_gt. simpl. unfold Rmax.
  destruct (Rlt_dec a b), (Rle_dec a b); try reflexivity; try lra.
  f_equal. lra.
Qed.

Lemma py_pow_half_ideal (x : R) :
  0 <= x -> py_pow_half (Fin x) = PyFloatV (Fin (sqrt x)).
Proof.
  intros Hx. unfold py_pow_half. simpl.
  destruct (Rlt_dec x 0); [lra | reflexivity].
Qed.

Lemma Rmax_1_pos (x : R) : 0 < Rmax x 1.
Proof. apply Rlt_le_trans with 1; [lra | apply Rmax_r]. Qed.
End IdealFacts.

(** Positivity of a product or quotient of positive numbers. *)
Ltac pos :=
  repeat first [ exact PI_RGT_0 | assumption | apply Rmax_1_pos
               | apply Rdiv_lt_0_compat | apply Rmult_lt_0_compat
               | apply Rinv_0_lt_compat | lra ].

(** Arithmetic on numbers of the ideal carrier. *)
Ltac ideal_norm :=
  rewrite ?fpi_ideal, ?dec_ideal_0, ?dec_25_2, ?dec_1_6, ?dec_2_2, ?dec_1_1,
    ?py_max_ideal;
  repeat first [ rewrite fmul_Fin
               | rewrite fdiv_Fin by (apply Rgt_not_eq; pos) ].

Ltac split_ports H :=
  cbn [forallb declared gas_port_symbols qth_port_symbols] in H;
  repeat (let H' := fresh "Hport" in apply andb_true_iff in H as [H' H]);
  clear H.

Ltac solve_declared :=
  cbn [symbols app forallb declared ports variables GasPipe.port GasPipe.own
       QTHPipe.port QTHPipe.own];
  repeat match goal with
         | Hx : ?x = true |- context [?x] => rewrite Hx
         end;
  unfold has_var; rewrite ?existsb_app; cbn; rewrite ?orb_true_r; reflexivity.

Section ConstructionSucceeds.
Local Open Scope R_scope.

(** Over the ideal carrier the construction of a gas pipe succeeds for
    every positive geometry. *)
Lemma GasPipe_init_succeeds (self : Component ideal)
    (mods : gmap string ideal) (vmax rho d L p : R) :
  param mods "v_max" (dec 15 0) = Fin vmax -> 0 < vmax ->
  param mods "density" (dec 2500 0) = Fin rho -> 0 < rho ->
  param mods "diameter" fnan = Fin d -> 0 < d ->
  param mods "length" fnan = Fin L -> 0 < L ->
  param mods "pressure" (dec 1600000 0) = Fin p -> 0 <= p ->
  forallb (declared self) gas_port_symbols = true ->
  exists gp, GasPipe.__init__ self mods = Ok gp.
Proof.
  intros Hv Hv0 Hr Hr0 Hd Hd0 HL HL0 Hp Hp0 Hports. split_ports Hports.
  unfold GasPipe.__init__. cbv zeta. rewrite Hv, Hr, Hd, HL, Hp.
  unfold py_pow2, py_pow3. ideal_norm. step.
  do 2 (rewrite add_variable_succeeds
          by (try reflexivity; apply nominal_ok_ideal; pos); step).
  do 5 (rewrite add_equation_succeeds by solve_declared; step).
  do 2 (rewrite py_div_ideal by (apply Rgt_not_eq; pos); step).
  ideal_norm.
  rewrite add_variable_succeeds
    by (try reflexivity; apply nominal_ok_ideal; pos).
  step.
  rewrite py_pow_half_ideal
    by (apply Rmult_le_pos;
        [apply Rmult_le_pos; [exact Hp0 | left; pos] | left; pos]).
  rewrite add_equation_succeeds by solve_declared. step.
  eexists. reflexivity.
Qed.

(** Over the ideal carrier the construction of a QTH pipe succeeds
    whatever the modifiers. *)
Lemma QTHPipe_init_succeeds (self : Component ideal)
    (mods : gmap string ideal) :
  forallb (declared self) qth_port_symbols = true ->
  exists p, QTHPipe.__init__ self mods = Ok p.
Proof.
  intros Hports. split_ports Hports.
  unfold QTHPipe.__init__. cbv zeta. step.
  do 2 (rewrite add_default_variable_succeeds
          by (try reflexivity; apply nominal_ok_ideal; lra); step).
  do 2 (rewrite add_equation_succeeds by solve_declared; step).
  eexists. reflexivity.
Qed.
End ConstructionSucceeds.

(** ** The example components over the ideal carrier *)

Section IdealExamples.
Local Open Scope R_scope.

Lemma new_Variable_default_ideal (n : string) :
  new_Variable (F:=ideal) n None None None =
  Ok {| var_name := n; var_nominal := Fin 1;
        var_min := None; var_max := None |}.
Proof.
  unfold new_Variable. cbn [from_option id].
  rewrite dec_ideal_0, nominal_ok_ideal by lra. reflexivity.
Qed.

Lemma GasTwoPort_ideal (nm : string) :
  exists self : Component ideal,
    GasTwoPort nm = Ok self
    /\ equations self = [] /\ variables self = []
    /\ forallb (declared self) gas_port_symbols = true
    /\ nominals_ok self.
Proof.
  unfold GasTwoPort. cbn -[new_Variable].
  rewrite !new_Variable_default_ideal. cbn [mbind result_bind].
  eexists. split; [reflexivity|]. repeat split.
  unfold nominals_ok, all_variables. cbn.
  repeat constructor; apply nominal_ok_ideal; lra.
Qed.

Lemma QTHTwoPort_ideal (nm : string) :
  exists self : Component ideal,
    QTHTwoPort nm = Ok self
    /\ equations self = [] /\ variables self = []
    /\ forallb (declared self) qth_port_symbols = true
    /\ nominals_ok self.
Proof.
  unfold QTHTwoPort. cbn -[new_Variable].
  rewrite !new_Variable_default_ideal. cbn [mbind result_bind].
  eexists. split; [reflexivity|]. repeat split.
  unfold nominals_ok, all_variables. cbn.
  repeat constructor; apply nominal_ok_ideal; lra.
Qed.

Lemma example_params_ideal :
  param (example_modifiers (F:=ideal)) "v_max" (dec 15 0) = Fin 15
  /\ param (example_modifiers (F:=ideal)) "density" (dec 2500 0) = Fin 2500
  /\ param (example_modifiers (F:=ideal)) "diameter" fnan = Fin (1 / 10)
  /\ param (example_modifiers (F:=ideal)) "length" fnan = Fin 10
  /\ param (example_modifiers (F:=ideal)) "pressure" (dec 1600000 0)
     = Fin 1600000.
Proof.
  unfold param, example_modifiers.
  repeat split;
    rewrite ?lookup_insert_eq, ?lookup_insert_ne, ?lookup_insert_eq,
      ?lookup_empty by done;
    cbn [from_option id]; rewrite ?dec_1_1; reflexivity.
Qed.

(** The scales of a constructed gas pipe are positive numbers. *)
Lemma gas_pipe_scales (self : Component ideal) (mods : gmap string ideal)
    (gp : GasPipe.t ideal) :
  GasPipe.__init__ self mods = Ok gp ->
  exists qn h : R,
    GasPipe.Q_nominal gp = Fin qn /\ 0 < qn
    /\ GasPipe.Hydraulic_power_nominal gp = Fin h /\ 0 < h.
Proof.
  intros Hgp.
  apply GasPipe_init_inv in Hgp as (_ & s & _ & _ & _ & _ & Hok).
  unfold gas_variables in Hok.
  inversion Hok as [|? ? _ Hok1]; subst.
  inversion Hok1 as [|? ? HQ Hok2]; subst.
  inversion Hok2 as [|? ? HP _]; subst.
  cbn [var_nominal] in HQ, HP.
  apply nominal_ok_ideal_inv in HQ as (qn & HQ & Hqn).
  apply nominal_ok_ideal_inv in HP as (h & HP & Hh).
  exists qn, h. auto.
Qed.

(** The example pipe is constructed, and [example_env] satisfies its
    equations. *)
Lemma example_gas_pipe_ideal :
  exists (self : Component ideal) (gp : GasPipe.t ideal),
    GasTwoPort "pipe" = Ok self
    /\ GasPipe.__init__ self example_modifiers = Ok gp
    /\ nominals_ok self
    /\ Forall (fun e => satisfied example_env e = true)
              (equations (GasPipe.base gp)).
Proof.
  destruct (GasTwoPort_ideal "pipe") as (self & Hself & He & Hv & Hd & Hok).
  destruct example_params_ideal as (Pv & Pr & Pd & PL & Pp).
  destruct (GasPipe_init_succeeds self example_modifiers 15 2500 (1 / 10)
              10 1600000) as [gp Hgp]; try assumption; try lra.
  exists self, gp. repeat split; try assumption.
  destruct (gas_pipe_scales _ _ _ Hgp) as (qn & h & HQ & Hqn & HP & Hh).
  apply GasPipe_init_inv in Hgp as (Hc & s & Hs & Heq & _).
  rewrite Heq, He. cbn [app]. clear Heq.
  assert (Hrho : GasPipe.density gp = Fin 2500)
    by (rewrite (gc_density _ _ Hc); exact Pr).
  rewrite (gc_pressure _ _ Hc), Pp, HQ, HP, !fmul_Fin in Hs.
  rewrite py_pow_half_ideal in Hs
    by (apply Rmult_le_pos; [apply Rmult_le_pos|]; lra).
  injection Hs as <-.
  assert (Hsq : sqrt (1600000 * qn * h) <> 0).
  { apply Rgt_not_eq, sqrt_lt_R0. pos. }
  unfold gas_equations, eq_flow, eq_alias, eq_density, eq_mass_flow,
    eq_shadow, eq_power.
  rewrite HQ, Hrho, fmul_Fin.
  repeat apply List.Forall_cons; try apply List.Forall_nil;
    first [ apply satisfied_normalized;
            split; [| eexists; split; [reflexivity | solve [lra | exact Hsq]]]
          | apply satisfied_ideal ];
    cbn [eval example_env String.eqb Ascii.eqb Bool.eqb andb];
    rewrite ?dec_ideal_0, ?dec_1_3, ?fdiv_Fin by lra;
    rewrite ?fsub_Fin; f_equal; lra.
Qed.
End IdealExamples.

(** ** The equations of the gas pipe *)

Section GasPipeEquations.
Local Open Scope R_scope.

Lemma ideal_sub_Fin_inv (a b : ideal) (z : R) :
  ideal_lift2 Rminus a b = Fin z ->
  exists x y, a = Fin x /\ b = Fin y /\ z = x - y.
Proof.
  destruct a as [x|], b as [y|]; simpl; try discriminate.
  intros [= <-]. exists x, y. auto.
Qed.

(** What the four flow equations say about a valuation. *)
Lemma gas_flow_equations_sound (gp : GasPipe.t ideal) (env : sym -> ideal) :
  satisfied env (eq_flow gp) = true ->
  satisfied env (eq_alias gp) = true ->
  satisfied env (eq_density gp) = true ->
  satisfied env (eq_mass_flow gp) = true ->
  exists q m d : R,
    GasPipe.density gp = Fin d /\ d <> 0
    /\ env (PortVar "GasIn" "Q") = Fin q
    /\ env (PortVar "GasOut" "Q") = Fin q
    /\ env (Own "Q") = Fin q
    /\ env (PortVar "GasIn" "mass_flow") = Fin m
    /\ env (PortVar "GasOut" "mass_flow") = Fin m
    /\ q = m / d.
Proof.
  unfold eq_flow, eq_alias, eq_density, eq_mass_flow.
  rewrite !satisfied_normalized, !eval_difference.
  intros ((q & Hin & Hout) & _) ((q' & Hown & Hout') & _)
         ((q'' & Hin' & Hmd) & _) ((m & Hmin & Hmout) & _).
  simpl in *.
  rewrite Hin in Hin'. injection Hin' as <-.
  rewrite Hout in Hout'. injection Hout' as <-.
  apply ideal_div_Fin_inv in Hmd as (m' & d & Hm' & Hd & Hd0 & Hq).
  rewrite Hmin in Hm'. injection Hm' as <-.
  exists q, m, d. auto 10.
Qed.

(** The shadow equation holds exactly when the outlet shadow flow is the
    inlet one minus [1/1000]. *)
Lemma shadow_equation_sound (env : sym -> ideal) :
  satisfied env eq_shadow = true
  <-> exists x : R,
        env (PortVar "GasIn" "Q_shadow") = Fin x
        /\ env (PortVar "GasOut" "Q_shadow") = Fin (x - 1 / 1000).
Proof.
  unfold eq_shadow. rewrite satisfied_ideal, eval_difference.
  cbn [eval]. rewrite dec_1_3. split.
  - intros (y & Hout & Hin).
    apply ideal_sub_Fin_inv in Hin as (x & c & Hx & [= <-] & ->).
    exists x. auto.
  - intros (x & Hin & Hout). exists (x - 1 / 1000).
    rewrite Hin, Hout. auto.
Qed.

(** The power equation holds exactly when its divisor is a non-zero
    number and the power of the pipe is the difference of the powers at
    the two ports. *)
Lemma power_equation_sound (env : sym -> ideal) (s : ideal) :
  satisfied env (eq_power s) = true
  <-> (exists n : R, s = Fin n /\ n <> 0)
      /\ exists a b : R,
           env (PortVar "GasIn" "Hydraulic_power") = Fin a
           /\ env (PortVar "GasOut" "Hydraulic_power") = Fin b
           /\ env (Own "Hydraulic_power") = Fin (a - b).
Proof.
  unfold eq_power. rewrite satisfied_normalized, eval_difference.
  cbn [eval]. split.
  - intros ((h & Hh & Hd) & Hs). split; [exact Hs|].
    apply ideal_sub_Fin_inv in Hd as (a & b & Ha & Hb & ->).
    exists a, b. auto.
  - intros (Hs & a & b & Ha & Hb & Hh). split; [|exact Hs].
    exists (a - b). rewrite Ha, Hb, Hh. auto.
Qed.
End GasPipeEquations.

(** C1. The equations of a constructed gas pipe contain the four flow
    equations; a valuation that satisfies the equations of the pipe gives
    one flow to [GasIn.Q], [GasOut.Q] and [Q], one mass flow to the two
    ports, and the flow is the mass flow divided by the density; hence
    [GasIn.Q = X] forces [GasOut.Q = X]. *)
Theorem gas_pipe_flow_conservation (self : Component ideal)
    (modifiers : gmap string ideal) (gp : GasPipe.t ideal) :
  GasPipe.__init__ self modifiers = Ok gp ->
  (exists s,
     equations (GasPipe.base gp)
     = equations self
       ++ [eq_flow gp; eq_alias gp; eq_density gp; eq_mass_flow gp;
           eq_shadow; eq_power s])
  /\ forall env : sym -> ideal,
       Forall (fun e => satisfied env e = true) (equations (GasPipe.base gp)) ->
       (exists q m d : R,
          GasPipe.density gp = Fin d /\ d <> 0%R
          /\ env (PortVar "GasIn" "Q") = Fin q
          /\ env (PortVar "GasOut" "Q") = Fin q
          /\ env (Own "Q") = Fin q
          /\ env (PortVar "GasIn" "mass_flow") = Fin m
          /\ env (PortVar "GasOut" "mass_flow") = Fin m
          /\ q = (m / d)%R)
       /\ forall X : R,
            env (PortVar "GasIn" "Q") = Fin X ->
            env (PortVar "GasOut" "Q") = Fin X.
Proof.
  intros Hgp.
  apply GasPipe_init_inv in Hgp as (_ & s & _ & Heq & _).
  split; [exists s; exact Heq|].
  intros env Hsat. rewrite Heq in Hsat.
  apply Forall_app in Hsat as [_ Hsat].
  unfold gas_equations in Hsat.
  inversion Hsat as [|? ? H1 Hsat1]; subst.
  inversion Hsat1 as [|? ? H2 Hsat2]; subst.
  inversion Hsat2 as [|? ? H3 Hsat3]; subst.
  inversion Hsat3 as [|? ? H4 _]; subst.
  destruct (gas_flow_equations_sound gp env H1 H2 H3 H4)
    as (q & m & d & Hd & Hd0 & Hin & Hout & Hown & Hmi & Hmo & Hq).
  split; [exists q, m, d; auto 10|].
  intros X HX. rewrite Hin in HX. injection HX as <-. exact Hout.
Qed.

Lemma gas_pipe_flow_conservation_witness :
  exists (self : Component ideal) (gp : GasPipe.t ideal),
    GasTwoPort "pipe" = Ok self
    /\ GasPipe.__init__ self example_modifiers = Ok gp
    /\ example_env (PortVar "GasOut" "Q") = Fin 2.
Proof.
  destruct example_gas_pipe_ideal as (self & gp & Hself & Hgp & _ & Hsat).
  exists self, gp. split; [exact Hself|]. split; [exact Hgp|].
  apply (gas_pipe_flow_conservation self example_modifiers gp Hgp).
  - exact Hsat.
  - reflexivity.
Defined.

(** ** The example components over binary64 *)

Lemma example_gas_pipe_float :
  exists (self : Component float) (gp : GasPipe.t float),
    GasTwoPort "pipe" = Ok self
    /\ GasPipe.__init__ self example_modifiers = Ok gp
    /\ nominals_ok self /\ equations self = [].
Proof.
  eexists. eexists. split; [vm_compute; reflexivity|].
  split; [vm_compute; reflexivity|].
  split; [|reflexivity].
  unfold nominals_ok, all_variables. cbn [variables ports map snd concat app].
  repeat constructor.
Qed.

Lemma example_qth_pipe_float :
  exists (self : Component float) (p : QTHPipe.t float),
    QTHTwoPort "pipe" = Ok self
    /\ QTHPipe.__init__ self ∅ = Ok p
    /\ nominals_ok self /\ equations self = [].
Proof.
  eexists. eexists. split; [vm_compute; reflexivity|].
  split; [vm_compute; reflexivity|].
  split; [|reflexivity].
  unfold nominals_ok, all_variables. cbn [variables ports map snd concat app].
  repeat constructor.
Qed.

(** C4. The last equation of a constructed gas pipe is the power balance
    [Hydraulic_power - (GasIn.Hydraulic_power - GasOut.Hydraulic_power)]
    divided by the square root of [pressure * Q_nominal *
    Hydraulic_power_nominal]; the nominal power is [rho * 0.02 *
    max(length, 1.0) * pi * area / diameter / 2.0 * (Q_nominal / area) ** 3]
    with [rho] the density.  Over the ideal carrier the equation holds
    exactly when the divisor is a non-zero number and the power of the pipe
    is the inlet power minus the outlet power. *)
Theorem gas_pipe_hydraulic_power_balance :
  (forall (F : Type) (HF : PyFloat F) (self : Component F)
          (modifiers : gmap string F) (gp : GasPipe.t F),
      GasPipe.__init__ self modifiers = Ok gp ->
      exists s front,
        equations (GasPipe.base gp) = front ++ [eq_power s]
        /\ normalizer (eq_power s) = Some s
        /\ s = fsqrt (GasPipe.pressure gp * GasPipe.Q_nominal gp
                      * GasPipe.Hydraulic_power_nominal gp)%py
        /\ GasPipe.Hydraulic_power_nominal gp
           = (GasPipe.rho gp * dec 2 2 * py_max (GasPipe.length gp) (dec 1 0)
              * fpi * GasPipe.area gp / GasPipe.diameter gp / dec 2 0
              * py_pow3 (GasPipe.Q_nominal gp / GasPipe.area gp))%py
        /\ GasPipe.rho gp = GasPipe.density gp
        /\ GasPipe.density gp = param modifiers "density" (dec 2500 0))
  /\ (forall (env : sym -> ideal) (s : ideal),
        satisfied env (eq_power s) = true
        <-> (exists n : R, s = Fin n /\ n <> 0%R)
            /\ exists a b : R,
                 env (PortVar "GasIn" "Hydraulic_power") = Fin a
                 /\ env (PortVar "GasOut" "Hydraulic_power") = Fin b
                 /\ env (Own "Hydraulic_power") = Fin (a - b)%R).
Proof.
  split; [|exact power_equation_sound].
  intros F HF self modifiers gp Hgp.
  apply GasPipe_init_inv in Hgp as (Hc & s & Hs & Heq & _).
  apply py_pow_half_float in Hs as [Hs _].
  exists s, (equations self
             ++ [eq_flow gp; eq_alias gp; eq_density gp; eq_mass_flow gp;
                 eq_shadow]).
  rewrite Heq, <- app_assoc. repeat split; try assumption; apply Hc.
Qed.

Lemma gas_pipe_hydraulic_power_balance_witness :
  exists (self : Component float) (gp : GasPipe.t float),
    GasTwoPort "pipe" = Ok self
    /\ GasPipe.__init__ self example_modifiers = Ok gp
    /\ GasPipe.rho gp = GasPipe.density gp.
Proof.
  destruct example_gas_pipe_float as (self & gp & Hself & Hgp & _).
  exists self, gp. split; [exact Hself|]. split; [exact Hgp|].
  destruct (proj1 gas_pipe_hydraulic_power_balance float _ self
              example_modifiers gp Hgp)
    as (s & front & _ & _ & _ & _ & Hrho & _).
  exact Hrho.
Defined.

(** C5. Exactly one of the equations of a constructed gas pipe refers to
    the shadow flows; it is [GasOut.Q_shadow - (GasIn.Q_shadow - 1.0e-3)],
    the constant being the binary64 number nearest to [0.001]; over the ideal
    carrier
    it holds exactly when the outlet shadow flow is the inlet one minus
    [1/1000]. *)
Theorem gas_pipe_shadow_equation :
  (forall (F : Type) (HF : PyFloat F) (self : Component F)
          (modifiers : gmap string F) (gp : GasPipe.t F),
      GasPipe.__init__ self modifiers = Ok gp ->
      exists s,
        equations (GasPipe.base gp) = equations self ++ gas_equations gp s
        /\ List.filter mentions_shadow (gas_equations gp s)
           = [ (MSym (PortVar "GasOut" "Q_shadow")
                - (MSym (PortVar "GasIn" "Q_shadow") - MConst (dec 1 3)))%mx ])
  /\ dec (F:=float) 1 3 = 0x1.0624dd2f1a9fcp-10%float
  /\ dec (F:=ideal) 1 3 = Fin (1 / 1000)
  /\ (forall env : sym -> ideal,
        satisfied env eq_shadow = true
        <-> exists x : R,
              env (PortVar "GasIn" "Q_shadow") = Fin x
              /\ env (PortVar "GasOut" "Q_shadow") = Fin (x - 1 / 1000)%R).
Proof.
  split; [|split; [vm_compute; reflexivity|split;
                   [exact dec_1_3 | exact shadow_equation_sound]]].
  intros F HF self modifiers gp Hgp.
  apply GasPipe_init_inv in Hgp as (_ & s & _ & Heq & _).
  exists s. split; [exact Heq | reflexivity].
Qed.

Lemma gas_pipe_shadow_equation_witness :
  exists (self : Component float) (gp : GasPipe.t float),
    GasTwoPort "pipe" = Ok self
    /\ GasPipe.__init__ self example_modifiers = Ok gp
    /\ exists s,
         equations (GasPipe.base gp) = equations self ++ gas_equations gp s
         /\ List.filter mentions_shadow (gas_equations gp s)
            = [ (MSym (PortVar "GasOut" "Q_shadow")
                 - (MSym (PortVar "GasIn" "Q_shadow") - MConst (dec 1 3)))%mx ].
Proof.
  destruct example_gas_pipe_float as (self & gp & Hself & Hgp & _).
  exists self, gp. split; [exact Hself|]. split; [exact Hgp|].
  exact (proj1 gas_pipe_shadow_equation float _ self example_modifiers gp Hgp).
Defined.

(** C7. In a constructed gas pipe the diameter is the modifier's (the
    default is not-a-number), [v_max] defaults to [15.0], the area is
    [0.25 * pi * diameter ** 2] of that diameter and [Q_nominal] is
    [v_max / 2.0 * area].  With diameter [0.1] and the default [v_max] the
    binary64 area and [Q_nominal] are within [1e-9] of [pi / 4 * 0.01] and
    of [v_max / 2 * (pi / 4 * 0.01)]; over the ideal carrier they are equal
    to them. *)
Theorem gas_pipe_geometry :
  (forall (F : Type) (HF : PyFloat F) (self : Component F)
          (modifiers : gmap string F) (gp : GasPipe.t F),
      GasPipe.__init__ self modifiers = Ok gp ->
      GasPipe.diameter gp = default fnan (modifiers !! "diameter")
      /\ GasPipe.v_max gp = default (dec 15 0) (modifiers !! "v_max")
      /\ GasPipe.area gp
         = (dec 25 2 * fpi * (GasPipe.diameter gp * GasPipe.diameter gp))%py
      /\ GasPipe.Q_nominal gp
         = (GasPipe.v_max gp / dec 2 0 * GasPipe.area gp)%py)
  /\ (forall (self : Component float) (modifiers : gmap string float)
             (gp : GasPipe.t float),
        modifiers !! "diameter" = Some (dec 1 1) ->
        modifiers !! "v_max" = None ->
        GasPipe.__init__ self modifiers = Ok gp ->
        within (dec 1 9) (GasPipe.area gp) (fpi / dec 4 0 * dec 1 2)%py = true
        /\ within (dec 1 9) (GasPipe.Q_nominal gp)
             (dec 15 0 / dec 2 0 * (fpi / dec 4 0 * dec 1 2))%py = true)
  /\ (forall (self : Component ideal) (modifiers : gmap string ideal)
             (gp : GasPipe.t ideal),
        modifiers !! "diameter" = Some (dec 1 1) ->
        modifiers !! "v_max" = None ->
        GasPipe.__init__ self modifiers = Ok gp ->
        GasPipe.area gp = Fin (PI / 4 * (1 / 100))%R
        /\ GasPipe.Q_nominal gp = Fin (15 / 2 * (PI / 4 * (1 / 100)))%R).
Proof.
  assert (Hgen : forall (F : Type) (HF : PyFloat F) (self : Component F)
                        (modifiers : gmap string F) (gp : GasPipe.t F),
             GasPipe.__init__ self modifiers = Ok gp ->
             GasPipe.diameter gp = default fnan (modifiers !! "diameter")
             /\ GasPipe.v_max gp = default (dec 15 0) (modifiers !! "v_max")
             /\ GasPipe.area gp
                = (dec 25 2 * fpi
                   * (GasPipe.diameter gp * GasPipe.diameter gp))%py
             /\ GasPipe.Q_nominal gp
                = (GasPipe.v_max gp / dec 2 0 * GasPipe.area gp)%py).
  { intros F HF self modifiers gp Hgp.
    apply GasPipe_init_inv in Hgp as (Hc & _).
    repeat split; apply Hc. }
  split; [exact Hgen|]. split.
  - intros self modifiers gp Hd Hv Hgp.
    destruct (Hgen _ _ _ _ _ Hgp) as (Hdiam & Hvmax & Harea & HQ).
    rewrite Hd in Hdiam. rewrite Hv in Hvmax.
    cbn [from_option] in *. unfold Datatypes.id in *.
    rewrite HQ, Hvmax, Harea, Hdiam. split; vm_compute; reflexivity.
  - intros self modifiers gp Hd Hv Hgp.
    destruct (Hgen _ _ _ _ _ Hgp) as (Hdiam & Hvmax & Harea & HQ).
    rewrite Hd in Hdiam. rewrite Hv in Hvmax.
    cbn [from_option] in *. unfold Datatypes.id in *.
    rewrite HQ, Hvmax, Harea, Hdiam.
    ideal_norm. split; f_equal; field.
Qed.

Lemma gas_pipe_geometry_witness :
  exists (self : Component float) (gp : GasPipe.t float),
    GasTwoPort "pipe" = Ok self
    /\ GasPipe.__init__ self example_modifiers = Ok gp
    /\ within (dec 1 9) (GasPipe.area gp) (fpi / dec 4 0 * dec 1 2)%py = true
    /\ within (dec 1 9) (GasPipe.Q_nominal gp)
         (dec 15 0 / dec 2 0 * (fpi / dec 4 0 * dec 1 2))%py = true.
Proof.
  destruct example_gas_pipe_float as (self & gp & Hself & Hgp & _).
  exists self, gp. split; [exact Hself|]. split; [exact Hgp|].
  apply (proj1 (proj2 gas_pipe_geometry) self example_modifiers gp).
  - reflexivity.
  - reflexivity.
  - exact Hgp.
Defined.

(** ** Nominals *)

Section Nominals.
Context {F : Type} `{PyFloat F}.

Lemma constructed_nominals_ok (c : Component F) :
  constructed c -> nominals_ok c.
Proof.
  unfold nominals_ok, all_variables.
  intros [self modifiers gp Hok Hgp | self modifiers p Hok Hp].
  - apply GasPipe_init_inv in Hgp as (_ & s & _ & _ & Hv & Hports & Hnew).
    rewrite Hv, Hports. apply Forall_app in Hok as [Hown Hport].
    repeat (apply Forall_app; split); assumption.
  - apply QTHPipe_init_inv in Hp as (_ & Hv & Hports & Hn).
    rewrite Hv, Hports. apply Forall_app in Hok as [Hown Hport].
    repeat (apply Forall_app; split); try assumption.
    unfold qth_variables. repeat constructor; exact Hn.
Qed.
End Nominals.

(** Without a diameter and a length the nominals of the gas pipe are
    not-a-number and the validation of the variables refuses the
    construction. *)
Lemma gas_pipe_without_geometry_refused :
  (self ← GasTwoPort (F:=float) "pipe"; GasPipe.__init__ self ∅)
  = Raise ConfigurationError.
Proof. vm_compute. reflexivity. Qed.

(** Over the ideal carrier a positive diameter and a positive length (with
    positive [v_max] and density and a pressure that is not negative) give
    a constructed pipe whose three nominals are positive numbers. *)
Lemma gas_pipe_positive_geometry (self : Component ideal)
    (modifiers : gmap string ideal) (vmax rho d L p : R) :
  param modifiers "v_max" (dec 15 0) = Fin vmax -> (0 < vmax)%R ->
  param modifiers "density" (dec 2500 0) = Fin rho -> (0 < rho)%R ->
  param modifiers "diameter" fnan = Fin d -> (0 < d)%R ->
  param modifiers "length" fnan = Fin L -> (0 < L)%R ->
  param modifiers "pressure" (dec 1600000 0) = Fin p -> (0 <= p)%R ->
  forallb (declared self) gas_port_symbols = true ->
  exists gp,
    GasPipe.__init__ self modifiers = Ok gp
    /\ Forall (fun v => exists x : R, var_nominal v = Fin x /\ (0 < x)%R)
              (gas_variables gp).
Proof.
  intros Hv Hv0 Hr Hr0 Hd Hd0 HL HL0 Hp Hp0 Hports.
  destruct (GasPipe_init_succeeds self modifiers vmax rho d L p)
    as [gp Hgp]; try assumption.
  exists gp. split; [exact Hgp|].
  apply GasPipe_init_inv in Hgp as (_ & s & _ & _ & _ & _ & Hok).
  eapply Forall_impl; [exact Hok|].
  intros v Hn. apply nominal_ok_ideal_inv. exact Hn.
Qed.

(** C2. Every variable of a constructed component (its own and those of
    its ports) has a finite and strictly positive nominal.  The variables
    that the gas pipe adds are [dH], [Q] and [Hydraulic_power], with the
    nominals [Q_nominal * r], [Q_nominal] and [Hydraulic_power_nominal],
    which are derived from the diameter and the length; over the ideal
    carrier a positive diameter and a positive length make the three
    nominals positive numbers and the construction succeed. *)
Theorem constructed_nominals_positive :
  (forall (F : Type) (HF : PyFloat F) (c : Component F),
      constructed c ->
      Forall (fun v => (f_of_Z 0 <? var_nominal v)%py = true
                       /\ f_is_finite (var_nominal v) = true)
             (all_variables c))
  /\ (forall (F : Type) (HF : PyFloat F) (self : Component F)
             (modifiers : gmap string F) (gp : GasPipe.t F),
        GasPipe.__init__ self modifiers = Ok gp ->
        variables (GasPipe.base gp) = variables self ++ gas_variables gp
        /\ map (fun v => (var_name v, var_nominal v)) (gas_variables gp)
           = [("dH", (GasPipe.Q_nominal gp * GasPipe.r gp)%py);
              ("Q", GasPipe.Q_nominal gp);
              ("Hydraulic_power", GasPipe.Hydraulic_power_nominal gp)]
        /\ gas_constants modifiers gp)
  /\ (forall (self : Component ideal) (modifiers : gmap string ideal)
             (vmax rho d L p : R),
        param modifiers "v_max" (dec 15 0) = Fin vmax -> (0 < vmax)%R ->
        param modifiers "density" (dec 2500 0) = Fin rho -> (0 < rho)%R ->
        param modifiers "diameter" fnan = Fin d -> (0 < d)%R ->
        param modifiers "length" fnan = Fin L -> (0 < L)%R ->
        param modifiers "pressure" (dec 1600000 0) = Fin p -> (0 <= p)%R ->
        forallb (declared self) gas_port_symbols = true ->
        exists gp,
          GasPipe.__init__ self modifiers = Ok gp
          /\ Forall (fun v => exists x : R, var_nominal v = Fin x /\ (0 < x)%R)
                    (gas_variables gp)).
Proof.
  split; [|split; [|exact gas_pipe_positive_geometry]].
  - intros F HF c Hc. apply constructed_nominals_ok in Hc.
    unfold nominals_ok in Hc. apply Forall_forall. intros v Hv.
    rewrite Forall_forall in Hc. specialize (Hc v Hv).
    unfold nominal_ok in Hc. apply andb_true_iff in Hc. exact Hc.
  - intros F HF self modifiers gp Hgp.
    apply GasPipe_init_inv in Hgp as (Hc & s & _ & _ & Hv & _).
    split; [exact Hv | split; [reflexivity | exact Hc]].
Qed.

Lemma constructed_nominals_positive_witness :
  exists (self : Component float) (gp : GasPipe.t float),
    GasTwoPort "pipe" = Ok self
    /\ GasPipe.__init__ self example_modifiers = Ok gp
    /\ Forall (fun v => (f_of_Z 0 <? var_nominal v)%py = true
                        /\ f_is_finite (var_nominal v) = true)
              (all_variables (GasPipe.base gp)).
Proof.
  destruct example_gas_pipe_float as (self & gp & Hself & Hgp & Hok & _).
  exists self, gp. split; [exact Hself|]. split; [exact Hgp|].
  apply (proj1 constructed_nominals_positive float _).
  exact (constructed_gas_pipe self example_modifiers gp Hok Hgp).
Defined.

(** ** Normalization *)

(** The claim that every equation which a constructor adds is divided by a
    nominal scale fails on the shadow equation of the example gas pipe and
    on the first equation of the example QTH pipe. *)
Lemma normalization_counterexample :
  ~ (forall (self : Component float) (modifiers : gmap string float)
            (gp : GasPipe.t float) (e : expr float),
        GasPipe.__init__ self modifiers = Ok gp ->
        In e (equations (GasPipe.base gp)) -> ~ In e (equations self) ->
        normalized e = true)
  /\ ~ (forall (self : Component float) (modifiers : gmap string float)
               (p : QTHPipe.t float) (e : expr float),
          QTHPipe.__init__ self modifiers = Ok p ->
          In e (equations (QTHPipe.base p)) -> ~ In e (equations self) ->
          normalized e = true).
Proof.
  split.
  - intros Hall.
    destruct example_gas_pipe_float as (self & gp & _ & Hgp & _ & Hnil).
    specialize (Hall self example_modifiers gp eq_shadow Hgp).
    apply GasPipe_init_inv in Hgp as (_ & s & _ & Heq & _).
    rewrite Heq, Hnil in Hall.
    assert (Hn : normalized (eq_shadow (F:=float)) = true).
    { apply Hall; [|intros []]. cbn. tauto. }
    discriminate Hn.
  - intros Hall.
    destruct example_qth_pipe_float as (self & p & _ & Hp & _ & Hnil).
    specialize (Hall self ∅ p eq_qth_in Hp).
    apply QTHPipe_init_inv in Hp as (Heq & _).
    rewrite Heq, Hnil in Hall.
    assert (Hn : normalized (eq_qth_in (F:=float)) = true).
    { apply Hall; [|intros []]. cbn. tauto. }
    discriminate Hn.
Qed.

(** C3, as amended. Of the six equations of a constructed gas pipe the
    three flow equations are divided by [Q_nominal], the mass-flow equation
    by [Q_nominal * density] and the power equation by the square root of
    [pressure * Q_nominal * Hydraulic_power_nominal]; the shadow equation
    is not divided, and neither are the two equations of a QTH pipe. *)
Theorem equation_normalization (F : Type) (HF : PyFloat F) :
  (forall (self : Component F) (modifiers : gmap string F) (gp : GasPipe.t F),
      GasPipe.__init__ self modifiers = Ok gp ->
      exists s,
        equations (GasPipe.base gp) = equations self ++ gas_equations gp s
        /\ s = fsqrt (GasPipe.pressure gp * GasPipe.Q_nominal gp
                      * GasPipe.Hydraulic_power_nominal gp)%py
        /\ map normalizer (gas_equations gp s)
           = [Some (GasPipe.Q_nominal gp); Some (GasPipe.Q_nominal gp);
              Some (GasPipe.Q_nominal gp);
              Some (GasPipe.Q_nominal gp * GasPipe.density gp)%py;
              None; Some s])
  /\ (forall (self : Component F) (modifiers : gmap string F)
             (p : QTHPipe.t F),
        QTHPipe.__init__ self modifiers = Ok p ->
        equations (QTHPipe.base p) = equations self ++ qth_equations
        /\ map normalizer (qth_equations (F:=F)) = [None; None]).
Proof.
  split.
  - intros self modifiers gp Hgp.
    apply GasPipe_init_inv in Hgp as (_ & s & Hs & Heq & _).
    apply py_pow_half_float in Hs as [Hs _].
    exists s. split; [exact Heq | split; [exact Hs | reflexivity]].
  - intros self modifiers p Hp.
    apply QTHPipe_init_inv in Hp as (Heq & _).
    split; [exact Heq | reflexivity].
Qed.

Lemma equation_normalization_witness :
  exists (self : Component float) (gp : GasPipe.t float),
    GasTwoPort "pipe" = Ok self
    /\ GasPipe.__init__ self example_modifiers = Ok gp
    /\ map normalized (equations (GasPipe.base gp))
       = [true; true; true; true; false; true].
Proof.
  destruct example_gas_pipe_float as (self & gp & Hself & Hgp & _ & Hnil).
  exists self, gp. split; [exact Hself|]. split; [exact Hgp|].
  destruct (proj1 (equation_normalization float _) self example_modifiers
              gp Hgp) as (s & Heq & _ & _).
  rewrite Heq, Hnil. reflexivity.
Defined.

(** ** The QTH pipe *)

Section QTHPipeEquations.
Local Open Scope R_scope.

(** The two equations hold exactly when the flows at the two ports and
    the flow of the pipe are one number. *)
Lemma qth_equations_sound (env : sym -> ideal) :
  Forall (fun e => satisfied env e = true) qth_equations
  <-> exists q : R,
        env (PortVar "QTHIn" "Q") = Fin q
        /\ env (Own "Q") = Fin q
        /\ env (PortVar "QTHOut" "Q") = Fin q.
Proof.
  unfold qth_equations, eq_qth_in, eq_qth_out. split.
  - intros Hsat.
    inversion Hsat as [|? ? H1 Hsat1]; subst.
    inversion Hsat1 as [|? ? H2 _]; subst.
    apply satisfied_ideal, eval_difference in H1 as (q & Hin & Hown).
    apply satisfied_ideal, eval_difference in H2 as (q' & Hout & Hin').
    cbn [eval] in *. rewrite Hin in Hin'. injection Hin' as <-.
    exists q. auto.
  - intros (q & Hin & Hown & Hout).
    repeat apply List.Forall_cons; try apply List.Forall_nil;
      apply satisfied_ideal, eval_difference; exists q; cbn [eval]; auto.
Qed.
End QTHPipeEquations.

(** C9. A constructed QTH pipe has added the variable [Q] and the variable
    [dH] with upper bound [0.0], and the two equations [QTHIn.Q - Q] and
    [QTHOut.Q - QTHIn.Q], which refer to the flows only: no equation of the
    heat loss is added.  Over the ideal carrier the two equations hold
    exactly when the three flows are equal, and the construction succeeds
    whenever the two ports declare [Q]. *)
Theorem qth_pipe_equations :
  (forall (F : Type) (HF : PyFloat F) (self : Component F)
          (modifiers : gmap string F) (p : QTHPipe.t F),
      QTHPipe.__init__ self modifiers = Ok p ->
      variables (QTHPipe.base p) = variables self ++ qth_variables
      /\ map (fun v => (var_name v, var_min v, var_max v)) (qth_variables (F:=F))
         = [("Q", None, None); ("dH", None, Some (dec 0 0))]
      /\ equations (QTHPipe.base p)
         = equations self
           ++ [ (MSym (PortVar "QTHIn" "Q") - MSym (Own "Q"))%mx;
                (MSym (PortVar "QTHOut" "Q") - MSym (PortVar "QTHIn" "Q"))%mx ]
      /\ concat (map symbols (qth_equations (F:=F)))
         = [PortVar "QTHIn" "Q"; Own "Q"; PortVar "QTHOut" "Q";
            PortVar "QTHIn" "Q"])
  /\ (forall env : sym -> ideal,
        Forall (fun e => satisfied env e = true) qth_equations
        <-> exists q : R,
              env (PortVar "QTHIn" "Q") = Fin q
              /\ env (Own "Q") = Fin q
              /\ env (PortVar "QTHOut" "Q") = Fin q)
  /\ (forall (self : Component ideal) (modifiers : gmap string ideal),
        forallb (declared self) qth_port_symbols = true ->
        exists p, QTHPipe.__init__ self modifiers = Ok p).
Proof.
  split; [|split; [exact qth_equations_sound | exact QTHPipe_init_succeeds]].
  intros F HF self modifiers p Hp.
  apply QTHPipe_init_inv in Hp as (Heq & Hv & _).
  split; [exact Hv|]. split; [reflexivity|].
  split; [exact Heq | reflexivity].
Qed.

Lemma qth_pipe_equations_witness :
  exists (self : Component float) (p : QTHPipe.t float),
    QTHTwoPort "pipe" = Ok self
    /\ QTHPipe.__init__ self ∅ = Ok p
    /\ equations (QTHPipe.base p)
       = [ (MSym (PortVar "QTHIn" "Q") - MSym (Own "Q"))%mx;
           (MSym (PortVar "QTHOut" "Q") - MSym (PortVar "QTHIn" "Q"))%mx ].
Proof.
  destruct example_qth_pipe_float as (self & p & Hself & Hp & _ & Hnil).
  exists self, p. split; [exact Hself|]. split; [exact Hp|].
  destruct (proj1 qth_pipe_equations float _ self ∅ p Hp)
    as (_ & _ & Heq & _).
  rewrite Heq, Hnil. reflexivity.
Defined.

(** ** The conversion rules *)

Section DictFacts.
Context {F : Type}.

Lemma dict_kwargs_Ok (kw : MODIFIERS F) (unpacked : list (MODIFIERS F))
    (m : MODIFIERS F) :
  dict_kwargs kw unpacked = Ok m -> m = kw ++ concat unpacked.
Proof.
  revert kw. induction unpacked as [|d rest IH]; intros kw; simpl.
  - intros [= <-]. symmetry. apply app_nil_r.
  - destruct (existsb _ d); [discriminate|].
    intros Hm. apply IH in Hm. rewrite Hm, <- app_assoc. reflexivity.
Qed.

Lemma dict_kwargs_Raise (kw : MODIFIERS F) (unpacked : list (MODIFIERS F))
    (e : exn) :
  dict_kwargs kw unpacked = Raise e -> e = TypeError.
Proof.
  revert kw. induction unpacked as [|d rest IH]; intros kw; simpl.
  - discriminate.
  - destruct (existsb _ d); [intros [= <-]; reflexivity | apply IH].
Qed.
End DictFacts.

(** Reduction of one statement of a conversion rule. *)
Ltac mstep := cbn [mbind result_bind assert as_float].

Section ConverterFacts.
Context {F : Type} `{PyFloat F} {S : Type}.
Context (get : S -> Asset F -> result F).
Context (set : S -> Asset F -> F -> S).
Context (temperatures : S -> Asset F -> result (F * F)).
Context (temps : S -> Asset F -> result (MODIFIERS F)).

(** The loop of [convert_node] adds up the connections of the inbound
    and of the outbound ports. *)
Lemma fold_count_port (items : list esdl.Port) (a b : Z) :
  fold_left AssetToHeatComponent.count_port items (a, b)
  = ((a + connections esdl.InPort items)%Z,
     (b + connections esdl.OutPort items)%Z).
Proof.
  revert a b. induction items as [|x items IH]; intros a b.
  - cbn. rewrite !Z.add_0_r. reflexivity.
  - cbn [fold_left AssetToHeatComponent.count_port]. rewrite IH.
    unfold connections. rewrite !filter_cons.
    destruct (esdl.port_type x);
      repeat (case_decide; try discriminate; try contradiction);
      unfold list_sum; cbn [map fold_right]; f_equal; lia.
Qed.

Lemma convert_demand_rejects (self : AssetToHeatComponent.t F S)
    (asset : Asset F) (p : F) :
  str_in (asset_type asset) ["GenericConsumer"; "HeatingDemand"] = true ->
  attributes asset !! "power" = Some (esdl.AFloat p) ->
  py_gt p (dec 0 0) = false ->
  AssetToHeatComponent.convert_demand get temps self asset
  = Raise AssertionError.
Proof.
  intros Ht Hp Hgt. unfold AssetToHeatComponent.convert_demand, getitem.
  rewrite Ht, Hp. mstep. rewrite Hgt. reflexivity.
Qed.

Lemma convert_demand_accepts (self : AssetToHeatComponent.t F S)
    (asset : Asset F) (p q : F)
    (ts m : MODIFIERS F) :
  str_in (asset_type asset) ["GenericConsumer"; "HeatingDemand"] = true ->
  attributes asset !! "power" = Some (esdl.AFloat p) ->
  py_gt p (dec 0 0) = true ->
  get (AssetToHeatComponent.state self) asset = Ok q ->
  temps (AssetToHeatComponent.state self) asset = Ok ts ->
  dict_kwargs [("Q_nominal", MFloat q);
               ("Heat_demand", MDict [("max", MFloat p)])]
              [ts; AssetToHeatComponent._rho_cp_modifiers self] = Ok m ->
  AssetToHeatComponent.convert_demand get temps self asset = Ok (Demand, m)
  /\ dict_get2 m "Heat_demand" "max" = Some (MFloat p).
Proof.
  intros Ht Hp Hgt Hq Hts Hm.
  unfold AssetToHeatComponent.convert_demand, getitem.
  rewrite Ht, Hp. mstep. rewrite Hgt. mstep. rewrite Hq. mstep.
  rewrite Hts. mstep. rewrite Hm. mstep. split; [reflexivity|].
  apply dict_kwargs_Ok in Hm. rewrite Hm. reflexivity.
Qed.

Lemma convert_buffer_rejects (self : AssetToHeatComponent.t F S)
    (asset : Asset F) (p : F) :
  asset_type asset = "HeatStorage" ->
  attributes asset !! "capacity" = Some (esdl.AFloat p) ->
  py_gt p (dec 0 0) = false ->
  AssetToHeatComponent.convert_buffer get self asset = Raise AssertionError.
Proof.
  intros Ht Hp Hgt. unfold AssetToHeatComponent.convert_buffer, getitem.
  rewrite Ht, Hp. cbn [String.eqb Ascii.eqb Bool.eqb]. mstep.
  rewrite Hgt. reflexivity.
Qed.

Lemma convert_pipe_rejects (self : AssetToHeatComponent.t F S) (asset : Asset F)
    (st rt t d q_max q_nominal : F) :
  AssetToHeatComponent.pipe_flows temperatures self asset
  = Ok (st, rt, t, d, q_max, q_nominal) ->
  py_gt (AssetToHeatComponent.rho self * AssetToHeatComponent.cp self
         * q_max * (st - rt) * dec 2 0)%py (dec 0 0) = false ->
  AssetToHeatComponent.convert_pipe set temperatures temps self asset
  = (set (AssetToHeatComponent.state self) asset q_nominal,
     Raise AssertionError).
Proof.
  intros Hf Hgt. unfold AssetToHeatComponent.convert_pipe. rewrite Hf.
  cbn [snd]. f_equal.
  unfold AssetToHeatComponent.pipe_modifiers. rewrite Hgt. reflexivity.
Qed.

(** The rule for demands raises [ConfigurationError] only if one of the
    two helpers of the base class does. *)
Lemma convert_demand_exceptions (self : AssetToHeatComponent.t F S)
    (asset : Asset F) (e : exn) :
  AssetToHeatComponent.convert_demand get temps self asset = Raise e ->
  e = AssertionError \/ e = KeyError \/ e = TypeError
  \/ get (AssetToHeatComponent.state self) asset = Raise e
  \/ temps (AssetToHeatComponent.state self) asset = Raise e.
Proof.
  unfold AssetToHeatComponent.convert_demand, getitem.
  destruct (str_in _ _); mstep; [|intros [= <-]; auto].
  destruct (attributes asset !! "power") as [v|]; mstep;
    [|intros [= <-]; auto].
  destruct v; mstep; try (intros [= <-]; auto 6).
  destruct (py_gt f (dec 0 0)); mstep; [|intros [= <-]; auto].
  destruct (get _ asset) as [q|eq]; mstep; [|intros [= <-]; auto 6].
  destruct (temps _ asset) as [ts|et]; mstep; [|intros [= <-]; auto 6].
  destruct (dict_kwargs _ _) as [m|ed] eqn:Hd; mstep; [discriminate|].
  intros [= <-]. apply dict_kwargs_Raise in Hd. auto.
Qed.

(** [convert_pipe] hands [area * v_nominal] to [_set_q_nominal] as soon
    as the flows are computed, whatever the rest of the rule does. *)
Lemma convert_pipe_sets_q_nominal (self : AssetToHeatComponent.t F S) (asset : Asset F)
    (st rt t d q_max q_nominal : F) :
  AssetToHeatComponent.pipe_flows temperatures self asset
  = Ok (st, rt, t, d, q_max, q_nominal) ->
  fst (AssetToHeatComponent.convert_pipe set temperatures temps self asset)
  = set (AssetToHeatComponent.state self) asset q_nominal
  /\ attributes asset !! "innerDiameter" = Some (esdl.AFloat d)
  /\ q_nominal
     = (fpi * py_pow2 d / dec 4 0 * AssetToHeatComponent.v_nominal self)%py.
Proof.
  intros Hf. unfold AssetToHeatComponent.convert_pipe. rewrite Hf.
  split; [reflexivity|].
  unfold AssetToHeatComponent.pipe_flows, getitem in Hf.
  repeat inv_bind Hf. destruct a0 as [st' rt'].
  repeat inv_bind Hf.
  destruct (attributes asset !! "innerDiameter") as [v|] eqn:Hd;
    [|discriminate].
  destruct v; try discriminate. cbn in Ha2. injection Ha2 as <-.
  injection Hf as <- <- <- <- <- <-. auto.
Qed.

(** The [Q_nominal] modifier of a converted demand, buffer, pump or source
    is what [_get_connected_q_nominal] answers. *)
Lemma convert_demand_Q_nominal (self : AssetToHeatComponent.t F S)
    (asset : Asset F) (m : MODIFIERS F) :
  AssetToHeatComponent.convert_demand get temps self asset = Ok (Demand, m) ->
  exists q,
    get (AssetToHeatComponent.state self) asset = Ok q
    /\ dict_get m "Q_nominal" = Some (MFloat q).
Proof.
  unfold AssetToHeatComponent.convert_demand. intros Hc.
  repeat inv_bind Hc. injection Hc as <-.
  exists a2. split; [assumption|].
  apply dict_kwargs_Ok in Ha4. rewrite Ha4. reflexivity.
Qed.

Lemma convert_buffer_Q_nominal (self : AssetToHeatComponent.t F S)
    (asset : Asset F) (m : MODIFIERS F) :
  AssetToHeatComponent.convert_buffer get self asset = Ok (Buffer, m) ->
  exists q,
    get (AssetToHeatComponent.state self) asset = Ok q
    /\ dict_get m "Q_nominal" = Some (MFloat q).
Proof.
  unfold AssetToHeatComponent.convert_buffer. intros Hc.
  repeat inv_bind Hc. injection Hc as <-.
  exists a2. split; [assumption|].
  apply dict_kwargs_Ok in Ha3. rewrite Ha3. reflexivity.
Qed.

Lemma convert_pump_Q_nominal (self : AssetToHeatComponent.t F S)
    (asset : Asset F) (m : MODIFIERS F) :
  AssetToHeatComponent.convert_pump get temps self asset = Ok (Pump, m) ->
  exists q,
    get (AssetToHeatComponent.state self) asset = Ok q
    /\ dict_get m "Q_nominal" = Some (MFloat q).
Proof.
  unfold AssetToHeatComponent.convert_pump. intros Hc.
  repeat inv_bind Hc. injection Hc as <-.
  exists a0. split; [assumption|].
  apply dict_kwargs_Ok in Ha2. rewrite Ha2. reflexivity.
Qed.

Lemma convert_source_Q_nominal (self : AssetToHeatComponent.t F S)
    (asset : Asset F) (m : MODIFIERS F) :
  AssetToHeatComponent.convert_source get temps self asset = Ok (Source, m) ->
  exists q,
    get (AssetToHeatComponent.state self) asset = Ok q
    /\ dict_get m "Q_nominal" = Some (MFloat q).
Proof.
  unfold AssetToHeatComponent.convert_source. intros Hc.
  repeat inv_bind Hc. injection Hc as <-.
  exists a2. split; [assumption|].
  apply dict_kwargs_Ok in Ha4. rewrite Ha4. reflexivity.
Qed.
End ConverterFacts.

(** A demand whose power is [0.0] is refused with [AssertionError], which
    is not [ConfigurationError]. *)
Lemma converter_positivity_counterexample :
  AssetToHeatComponent.convert_demand
    (answer_q (dec 1 0)) (answer_temps example_temps)
    (example_converter (F:=float)) (demand_asset (dec 0 0))
  = Raise AssertionError
  /\ AssetToHeatComponent.convert_demand
       (answer_q (dec 1 0)) (answer_temps example_temps)
       (example_converter (F:=float)) (demand_asset (dec 0 0))
     <> Raise ConfigurationError.
Proof.
  assert (Hr : AssetToHeatComponent.convert_demand
                 (answer_q (dec 1 0)) (answer_temps example_temps)
                 (example_converter (F:=float)) (demand_asset (dec 0 0))
               = Raise AssertionError) by (vm_compute; reflexivity).
  split; [exact Hr | rewrite Hr; discriminate].
Qed.

(** C6, as amended. A demand whose power is not greater than [0.0] is
    refused with [AssertionError]; the rule raises [ConfigurationError]
    only if a helper of the base class does.  A demand whose power is
    greater than [0.0] (such as [100.0]) is converted, provided the two
    helpers answer and the keys of their answer do not clash, and the
    modifiers have [Heat_demand.max] equal to the power.  A storage whose
    capacity is not greater than [0.0] and a pipe whose [hfr_max] is not
    greater than [0.0] are refused with [AssertionError] too. *)
Theorem converter_positivity_checks (F : Type) (HF : PyFloat F) (S : Type)
    (get : S -> Asset F -> result F)
    (set : S -> Asset F -> F -> S)
    (temperatures : S -> Asset F -> result (F * F))
    (temps : S -> Asset F -> result (MODIFIERS F))
    (self : AssetToHeatComponent.t F S) (asset : Asset F) :
  (forall p : F,
      str_in (asset_type asset) ["GenericConsumer"; "HeatingDemand"] = true ->
      attributes asset !! "power" = Some (esdl.AFloat p) ->
      py_gt p (dec 0 0) = false ->
      AssetToHeatComponent.convert_demand get temps self asset
      = Raise AssertionError)
  /\ (get (AssetToHeatComponent.state self) asset <> Raise ConfigurationError ->
      temps (AssetToHeatComponent.state self) asset <> Raise ConfigurationError ->
      AssetToHeatComponent.convert_demand get temps self asset
      <> Raise ConfigurationError)
  /\ (forall (p q : F) (ts m : MODIFIERS F),
        str_in (asset_type asset) ["GenericConsumer"; "HeatingDemand"] = true ->
        attributes asset !! "power" = Some (esdl.AFloat p) ->
        py_gt p (dec 0 0) = true ->
        get (AssetToHeatComponent.state self) asset = Ok q ->
        temps (AssetToHeatComponent.state self) asset = Ok ts ->
        dict_kwargs [("Q_nominal", MFloat q);
                     ("Heat_demand", MDict [("max", MFloat p)])]
                    [ts; AssetToHeatComponent._rho_cp_modifiers self] = Ok m ->
        AssetToHeatComponent.convert_demand get temps self asset
        = Ok (Demand, m)
        /\ dict_get2 m "Heat_demand" "max" = Some (MFloat p))
  /\ (forall p : F,
        asset_type asset = "HeatStorage" ->
        attributes asset !! "capacity" = Some (esdl.AFloat p) ->
        py_gt p (dec 0 0) = false ->
        AssetToHeatComponent.convert_buffer get self asset
        = Raise AssertionError)
  /\ (forall st rt t d q_max q_nominal : F,
        AssetToHeatComponent.pipe_flows temperatures self asset
        = Ok (st, rt, t, d, q_max, q_nominal) ->
        py_gt (AssetToHeatComponent.rho self * AssetToHeatComponent.cp self
               * q_max * (st - rt) * dec 2 0)%py (dec 0 0) = false ->
        snd (AssetToHeatComponent.convert_pipe set temperatures temps self
               asset)
        = Raise AssertionError).
Proof.
  split; [intros p; apply convert_demand_rejects|].
  split.
  { intros Hget Htemps Hconv.
    apply convert_demand_exceptions in Hconv
      as [He|[He|[He|[He|He]]]]; try discriminate He; contradiction. }
  split; [intros p q ts m; apply convert_demand_accepts|].
  split; [intros p; apply convert_buffer_rejects|].
  intros st rt t d q_max q_nominal Hf Hgt.
  rewrite (convert_pipe_rejects set temperatures temps self asset
             st rt t d q_max q_nominal Hf Hgt).
  reflexivity.
Qed.

Lemma converter_positivity_checks_witness :
  (exists m,
     AssetToHeatComponent.convert_demand
       (answer_q (dec 1 0)) (answer_temps example_temps)
       (example_converter (F:=float)) (demand_asset (dec 100 0))
     = Ok (Demand, m)
     /\ dict_get2 m "Heat_demand" "max" = Some (MFloat (dec 100 0)))
  /\ AssetToHeatComponent.convert_demand
       (answer_q (dec 1 0)) (answer_temps example_temps)
       (example_converter (F:=float)) (demand_asset (dec 0 0))
     = Raise AssertionError
  /\ AssetToHeatComponent.convert_buffer
       (answer_q (dec 1 0)) (example_converter (F:=float))
       (buffer_asset (dec 0 0))
     = Raise AssertionError
  /\ snd (AssetToHeatComponent.convert_pipe keep_state
            (answer_temperatures (dec 70 0, dec 70 0))
            (answer_temps example_temps)
            (example_converter (F:=float)) pipe_asset)
     = Raise AssertionError.
Proof.
  split; [|split; [|split]].
  - eexists.
    apply (proj1 (proj2 (proj2
             (converter_positivity_checks float _ unit (answer_q (dec 1 0))
                keep_state (answer_temperatures (dec 70 0, dec 70 0))
                (answer_temps example_temps) example_converter
                (demand_asset (dec 100 0))))) (dec 100 0) (dec 1 0)
             example_temps);
      vm_compute; reflexivity.
  - apply (proj1
             (converter_positivity_checks float _ unit (answer_q (dec 1 0))
                keep_state (answer_temperatures (dec 70 0, dec 70 0))
                (answer_temps example_temps) example_converter
                (demand_asset (dec 0 0))) (dec 0 0));
      vm_compute; reflexivity.
  - apply (proj1 (proj2 (proj2 (proj2
             (converter_positivity_checks float _ unit (answer_q (dec 1 0))
                keep_state (answer_temperatures (dec 70 0, dec 70 0))
                (answer_temps example_temps) example_converter
                (buffer_asset (dec 0 0)))))) (dec 0 0));
      vm_compute; reflexivity.
  - eapply (proj2 (proj2 (proj2 (proj2
             (converter_positivity_checks float _ unit (answer_q (dec 1 0))
                keep_state (answer_temperatures (dec 70 0, dec 70 0))
                (answer_temps example_temps) example_converter
                pipe_asset)))));
      vm_compute; reflexivity.
Defined.

(** C8. A joint is converted to a [Node] whose modifier [n] is the number
    of connections of the inbound ports plus that of the outbound ports;
    an asset of another type is refused. *)
Theorem convert_node_arity (F : Type) (HF : PyFloat F) (S : Type)
    (self : AssetToHeatComponent.t F S) (asset : Asset F)
    (items : list esdl.Port) :
  attributes asset !! "port" = Some (esdl.APorts items) ->
  (asset_type asset = "Joint" ->
   AssetToHeatComponent.convert_node self asset
   = Ok (Node, [("n", MInt (connections esdl.InPort items
                            + connections esdl.OutPort items))]))
  /\ (asset_type asset <> "Joint" ->
      AssetToHeatComponent.convert_node self asset = Raise AssertionError).
Proof.
  intros Hport. unfold AssetToHeatComponent.convert_node, getitem. split.
  - intros ->. cbn [String.eqb Ascii.eqb Bool.eqb]. mstep.
    rewrite Hport. mstep. rewrite fold_count_port. reflexivity.
  - intros Hne. apply String.eqb_neq in Hne. rewrite Hne. reflexivity.
Qed.

Lemma convert_node_arity_witness :
  connections esdl.InPort
    [ {| esdl.port_type := esdl.InPort; esdl.connectedTo := ["a"] |};
      {| esdl.port_type := esdl.InPort; esdl.connectedTo := ["b"] |};
      {| esdl.port_type := esdl.OutPort; esdl.connectedTo := ["c"] |} ] = 2
  /\ connections esdl.OutPort
       [ {| esdl.port_type := esdl.InPort; esdl.connectedTo := ["a"] |};
         {| esdl.port_type := esdl.InPort; esdl.connectedTo := ["b"] |};
         {| esdl.port_type := esdl.OutPort; esdl.connectedTo := ["c"] |} ] = 1
  /\ AssetToHeatComponent.convert_node (example_converter (F:=float))
       joint_asset
     = Ok (Node, [("n", MInt 3)]).
Proof.
  split; [reflexivity|]. split; [reflexivity|].
  apply (proj1 (convert_node_arity float _ unit example_converter joint_asset
                  _ eq_refl)).
  reflexivity.
Defined.

(** * Further properties of the conversion rules *)

(** ** Modifier mappings *)

Section DictLookups.
Context {F : Type}.

Lemma has_key_app (d1 d2 : MODIFIERS F) (k : string) :
  has_key (d1 ++ d2) k = has_key d1 k || has_key d2 k.
Proof. unfold has_key. apply existsb_app. Qed.

Lemma dict_get_app_l (d1 d2 : MODIFIERS F) (k : string) (v : modval F) :
  dict_get d1 k = Some v -> dict_get (d1 ++ d2) k = Some v.
Proof.
  unfold dict_get. induction d1 as [|[k1 v1] d1 IH]; cbn; [discriminate|].
  destruct (String.eqb k1 k); [trivial | exact IH].
Qed.

Lemma dict_get_app_r (d1 d2 : MODIFIERS F) (k : string) :
  has_key d1 k = false -> dict_get (d1 ++ d2) k = dict_get d2 k.
Proof.
  unfold dict_get, has_key. induction d1 as [|[k1 v1] d1 IH]; cbn;
    [reflexivity|].
  destruct (String.eqb k1 k); cbn; [discriminate | exact IH].
Qed.

Lemma dict_get_has_key (d : MODIFIERS F) (k : string) (v : modval F) :
  dict_get d k = Some v -> has_key d k = true.
Proof.
  unfold dict_get, has_key. induction d as [|[k1 v1] d IH]; cbn;
    [discriminate|].
  destruct (String.eqb k1 k); cbn; [reflexivity | exact IH].
Qed.

(** A key of [d] is no key of [kw] when the two do not clash. *)
Lemma no_clash_key (kw d : MODIFIERS F) (k : string) :
  existsb (fun kv => has_key kw (fst kv)) d = false ->
  has_key d k = true -> has_key kw k = false.
Proof.
  unfold has_key at 2. induction d as [|[k1 v1] d IH]; cbn; [discriminate|].
  intros Hno. apply orb_false_iff in Hno as [Hk1 Hno].
  destruct (String.eqb k1 k) eqn:Hk; cbn.
  - apply String.eqb_eq in Hk as <-. intros _. exact Hk1.
  - apply IH. exact Hno.
Qed.

(** A key given twice makes [dict_kwargs] raise [TypeError]. *)
Lemma dict_kwargs_clash (kw : MODIFIERS F) (before after : list (MODIFIERS F))
    (d : MODIFIERS F) (k : string) :
  has_key (kw ++ concat before) k = true -> has_key d k = true ->
  dict_kwargs kw (before ++ d :: after) = Raise TypeError.
Proof.
  revert kw. induction before as [|b before IH]; intros kw Hkw Hd; cbn.
  - cbn in Hkw. rewrite app_nil_r in Hkw.
    destruct (existsb _ d) eqn:Hno; [reflexivity|].
    rewrite (no_clash_key kw d k Hno Hd) in Hkw. discriminate.
  - destruct (existsb _ b); [reflexivity|].
    apply IH; [|exact Hd]. cbn in Hkw. rewrite <- app_assoc. exact Hkw.
Qed.

(** In the mapping that [dict_kwargs] builds every keyword argument and
    every entry of every unpacked mapping is found under its key. *)
Lemma dict_kwargs_lookup (kw : MODIFIERS F) (unpacked : list (MODIFIERS F))
    (m : MODIFIERS F) (k : string) (v : modval F) :
  dict_kwargs kw unpacked = Ok m ->
  dict_get kw k = Some v \/ (exists d, In d unpacked /\ dict_get d k = Some v) ->
  dict_get m k = Some v.
Proof.
  revert kw. induction unpacked as [|d rest IH]; intros kw Hm Hin; cbn in Hm.
  - injection Hm as <-. destruct Hin as [Hk|(d & [] & _)]. exact Hk.
  - destruct (existsb _ d) eqn:Hno; [discriminate|].
    apply (IH (kw ++ d) Hm).
    destruct Hin as [Hk|(d' & [<-|Hd'] & Hk)].
    + left. apply dict_get_app_l. exact Hk.
    + left. rewrite dict_get_app_r; [exact Hk|].
      apply (no_clash_key kw d k Hno). apply (dict_get_has_key d k v Hk).
    + right. exists d'. auto.
Qed.
End DictLookups.

(** ** What a successful conversion has read *)

Section RuleInversions.
Context {F : Type} `{PyFloat F} {S : Type}.
Context (get : S -> Asset F -> result F).
Context (set : S -> Asset F -> F -> S).
Context (temperatures : S -> Asset F -> result (F * F)).
Context (temps : S -> Asset F -> result (MODIFIERS F)).

Lemma getitem_float_Ok (asset : Asset F) (k : string) (p : F) :
  getitem asset k ≫= as_float = Ok p ->
  attributes asset !! k = Some (esdl.AFloat p).
Proof.
  unfold getitem. destruct (attributes asset !! k) as [v|]; [|discriminate].
  destruct v; try discriminate. intros [= <-]. reflexivity.
Qed.

Lemma convert_buffer_inv (self : AssetToHeatComponent.t F S)
    (asset : Asset F) (T : ComponentType) (m : MODIFIERS F) :
  AssetToHeatComponent.convert_buffer get self asset = Ok (T, m) ->
  T = Buffer /\ asset_type asset = "HeatStorage"
  /\ exists p q,
       attributes asset !! "capacity" = Some (esdl.AFloat p)
       /\ py_gt p (dec 0 0) = true
       /\ get (AssetToHeatComponent.state self) asset = Ok q
       /\ dict_kwargs
            [("Q_nominal", MFloat q);
             ("Stored_heat", MDict [("min", MFloat (dec 0 0)); ("max", MFloat p)]);
             ("init_Heat", MFloat (dec 0 0))]
            [AssetToHeatComponent._rho_cp_modifiers self] = Ok m.
Proof.
  unfold AssetToHeatComponent.convert_buffer. intros Hc.
  repeat inv_bind Hc. injection Hc as <- <-.
  apply assert_Ok in Ha, Ha1. apply String.eqb_eq in Ha.
  apply getitem_float_Ok in Ha0.
  split; [reflexivity|]. split; [exact Ha|]. exists a0, a2. auto.
Qed.

Lemma convert_demand_inv (self : AssetToHeatComponent.t F S)
    (asset : Asset F) (T : ComponentType) (m : MODIFIERS F) :
  AssetToHeatComponent.convert_demand get temps self asset = Ok (T, m) ->
  T = Demand
  /\ str_in (asset_type asset) ["GenericConsumer"; "HeatingDemand"] = true
  /\ exists p q ts,
       attributes asset !! "power" = Some (esdl.AFloat p)
       /\ py_gt p (dec 0 0) = true
       /\ get (AssetToHeatComponent.state self) asset = Ok q
       /\ temps (AssetToHeatComponent.state self) asset = Ok ts
       /\ dict_kwargs
            [("Q_nominal", MFloat q);
             ("Heat_demand", MDict [("max", MFloat p)])]
            [ts; AssetToHeatComponent._rho_cp_modifiers self] = Ok m.
Proof.
  unfold AssetToHeatComponent.convert_demand. intros Hc.
  repeat inv_bind Hc. injection Hc as <- <-.
  apply assert_Ok in Ha, Ha1. apply getitem_float_Ok in Ha0.
  split; [reflexivity|]. split; [exact Ha|]. exists a0, a2, a3. auto 6.
Qed.

Lemma convert_pump_inv (self : AssetToHeatComponent.t F S)
    (asset : Asset F) (T : ComponentType) (m : MODIFIERS F) :
  AssetToHeatComponent.convert_pump get temps self asset = Ok (T, m) ->
  T = Pump /\ asset_type asset = "Pump"
  /\ exists q ts,
       get (AssetToHeatComponent.state self) asset = Ok q
       /\ temps (AssetToHeatComponent.state self) asset = Ok ts
       /\ dict_kwargs [("Q_nominal", MFloat q)]
            [ts; AssetToHeatComponent._rho_cp_modifiers self] = Ok m.
Proof.
  unfold AssetToHeatComponent.convert_pump. intros Hc.
  repeat inv_bind Hc. injection Hc as <- <-.
  apply assert_Ok in Ha. apply String.eqb_eq in Ha.
  split; [reflexivity|]. split; [exact Ha|]. exists a0, a1. auto.
Qed.

Lemma convert_source_inv (self : AssetToHeatComponent.t F S)
    (asset : Asset F) (T : ComponentType) (m : MODIFIERS F) :
  AssetToHeatComponent.convert_source get temps self asset = Ok (T, m) ->
  T = Source
  /\ str_in (asset_type asset)
       ["GasHeater"; "GenericProducer"; "GeothermalSource";
        "ResidualHeatSource"] = true
  /\ exists p q ts,
       attributes asset !! "power" = Some (esdl.AFloat p)
       /\ py_gt p (dec 0 0) = true
       /\ get (AssetToHeatComponent.state self) asset = Ok q
       /\ temps (AssetToHeatComponent.state self) asset = Ok ts
       /\ dict_kwargs
            [("Q_nominal", MFloat q);
             ("Heat_source", MDict [("min", MFloat (dec 0 0));
                                    ("max", MFloat p);
                                    ("nominal", MFloat (p / dec 2 0)%py)])]
            [ts; AssetToHeatComponent._rho_cp_modifiers self] = Ok m.
Proof.
  unfold AssetToHeatComponent.convert_source. intros Hc.
  repeat inv_bind Hc. injection Hc as <- <-.
  apply assert_Ok in Ha, Ha1. apply getitem_float_Ok in Ha0.
  split; [reflexivity|]. split; [exact Ha|]. exists a0, a2, a3. auto 6.
Qed.

(** The flows that [convert_pipe] computes before it changes the state. *)
Lemma pipe_flows_inv (self : AssetToHeatComponent.t F S) (asset : Asset F)
    (flows : F * F * F * F * F * F) :
  AssetToHeatComponent.pipe_flows temperatures self asset = Ok flows ->
  asset_type asset = "Pipe"
  /\ exists st rt nm d,
       temperatures (AssetToHeatComponent.state self) asset = Ok (st, rt)
       /\ attributes asset !! "name" = Some (esdl.AStr nm)
       /\ attributes asset !! "innerDiameter" = Some (esdl.AFloat d)
       /\ flows
          = (st, rt,
             match String.index 0 "_ret" nm with Some _ => rt | None => st end,
             d,
             (fpi * py_pow2 d / dec 4 0 * AssetToHeatComponent.v_max self)%py,
             (fpi * py_pow2 d / dec 4 0
              * AssetToHeatComponent.v_nominal self)%py).
Proof.
  unfold AssetToHeatComponent.pipe_flows, getitem. intros Hf.
  destruct (String.eqb (asset_type asset) "Pipe") eqn:Ht;
    [|discriminate]. apply String.eqb_eq in Ht. cbn in Hf.
  destruct (temperatures (AssetToHeatComponent.state self) asset)
    as [[st rt]|] eqn:Htemp; [|discriminate]. cbn in Hf.
  destruct (attributes asset !! "name") as [[| nm | | | |]|];
    try discriminate. cbn in Hf.
  destruct (attributes asset !! "innerDiameter") as [[d| | | | |]|];
    try discriminate. cbn in Hf.
  injection Hf as <-.
  split; [exact Ht|]. exists st, rt, nm, d.
  repeat split. destruct (String.index 0 "_ret" nm); reflexivity.
Qed.
End RuleInversions.

(** ** Refusals of the conversion rules *)

Section ConverterRefusals.
Context {F : Type} `{PyFloat F} {S : Type}.
Context (get : S -> Asset F -> result F).
Context (set : S -> Asset F -> F -> S).
Context (temperatures : S -> Asset F -> result (F * F)).
Context (temps : S -> Asset F -> result (MODIFIERS F)).

Lemma eqb_neq_false (a b : string) : a <> b -> String.eqb a b = false.
Proof. intros Hn. apply String.eqb_neq. exact Hn. Qed.

(** X1. Every conversion rule starts with an assertion on the type of the
    asset: an asset of another type is refused with [AssertionError]
    whatever its attributes and whatever the helpers of the base class
    would answer, and [convert_pipe] leaves the state of the converter as
    it was. *)
Theorem convert_rules_check_asset_type (self : AssetToHeatComponent.t F S)
    (asset : Asset F) :
  (asset_type asset <> "HeatStorage" ->
   AssetToHeatComponent.convert_buffer get self asset = Raise AssertionError)
  /\ (str_in (asset_type asset) ["GenericConsumer"; "HeatingDemand"] = false ->
      AssetToHeatComponent.convert_demand get temps self asset
      = Raise AssertionError)
  /\ (asset_type asset <> "Joint" ->
      AssetToHeatComponent.convert_node self asset = Raise AssertionError)
  /\ (asset_type asset <> "Pipe" ->
      AssetToHeatComponent.convert_pipe set temperatures temps self asset
      = (AssetToHeatComponent.state self, Raise AssertionError))
  /\ (asset_type asset <> "Pump" ->
      AssetToHeatComponent.convert_pump get temps self asset
      = Raise AssertionError)
  /\ (str_in (asset_type asset)
        ["GasHeater"; "GenericProducer"; "GeothermalSource";
         "ResidualHeatSource"] = false ->
      AssetToHeatComponent.convert_source get temps self asset
      = Raise AssertionError).
Proof.
  repeat split.
  - intros Ht. unfold AssetToHeatComponent.convert_buffer.
    rewrite (eqb_neq_false _ _ Ht). reflexivity.
  - intros Ht. unfold AssetToHeatComponent.convert_demand.
    rewrite Ht. reflexivity.
  - intros Ht. unfold AssetToHeatComponent.convert_node.
    rewrite (eqb_neq_false _ _ Ht). reflexivity.
  - intros Ht.
    unfold AssetToHeatComponent.convert_pipe, AssetToHeatComponent.pipe_flows.
    rewrite (eqb_neq_false _ _ Ht). reflexivity.
  - intros Ht. unfold AssetToHeatComponent.convert_pump.
    rewrite (eqb_neq_false _ _ Ht). reflexivity.
  - intros Ht. unfold AssetToHeatComponent.convert_source.
    rewrite Ht. reflexivity.
Qed.

(** X2. An asset of the right type that lacks the attribute the rule
    reads ([capacity], [power], [port]) is refused with [KeyError], and a
    buffer, demand or source whose attribute is not a number with
    [TypeError]; the helpers of the base class are not asked. *)
Theorem convert_rules_read_attribute (self : AssetToHeatComponent.t F S)
    (asset : Asset F) (e : exn) :
  let unreadable (k : string) :=
    match attributes asset !! k with
    | None => e = KeyError
    | Some (esdl.AFloat _) => False
    | Some _ => e = TypeError
    end in
  (asset_type asset = "HeatStorage" -> unreadable "capacity" ->
   AssetToHeatComponent.convert_buffer get self asset = Raise e)
  /\ (str_in (asset_type asset) ["GenericConsumer"; "HeatingDemand"] = true ->
      unreadable "power" ->
      AssetToHeatComponent.convert_demand get temps self asset = Raise e)
  /\ (str_in (asset_type asset)
        ["GasHeater"; "GenericProducer"; "GeothermalSource";
         "ResidualHeatSource"] = true ->
      unreadable "power" ->
      AssetToHeatComponent.convert_source get temps self asset = Raise e)
  /\ (asset_type asset = "Joint" ->
      attributes asset !! "port" = None ->
      AssetToHeatComponent.convert_node self asset = Raise KeyError).
Proof.
  cbv zeta. repeat split.
  - intros Ht. unfold AssetToHeatComponent.convert_buffer, getitem.
    rewrite Ht. cbn [String.eqb Ascii.eqb Bool.eqb]. mstep.
    destruct (attributes asset !! "capacity") as [[]|];
      intros He; try contradiction; subst e; reflexivity.
  - intros Ht. unfold AssetToHeatComponent.convert_demand, getitem.
    rewrite Ht. mstep.
    destruct (attributes asset !! "power") as [[]|];
      intros He; try contradiction; subst e; reflexivity.
  - intros Ht. unfold AssetToHeatComponent.convert_source, getitem.
    rewrite Ht. mstep.
    destruct (attributes asset !! "power") as [[]|];
      intros He; try contradiction; subst e; reflexivity.
  - intros Ht Hp. unfold AssetToHeatComponent.convert_node, getitem.
    rewrite Ht, Hp. reflexivity.
Qed.

End ConverterRefusals.

(** ** The rule for pipes *)

Section PipeRule.
Context {F : Type} `{PyFloat F} {S : Type}.
Context (set : S -> Asset F -> F -> S).
Context (temperatures : S -> Asset F -> result (F * F)).
Context (temps : S -> Asset F -> result (MODIFIERS F)).

Lemma pipe_flows_Ok (self : AssetToHeatComponent.t F S) (asset : Asset F)
    (st rt d : F) (nm : string) :
  asset_type asset = "Pipe" ->
  temperatures (AssetToHeatComponent.state self) asset = Ok (st, rt) ->
  attributes asset !! "name" = Some (esdl.AStr nm) ->
  attributes asset !! "innerDiameter" = Some (esdl.AFloat d) ->
  AssetToHeatComponent.pipe_flows temperatures self asset
  = Ok (st, rt,
        match String.index 0 "_ret" nm with Some _ => rt | None => st end,
        d,
        (fpi * py_pow2 d / dec 4 0 * AssetToHeatComponent.v_max self)%py,
        (fpi * py_pow2 d / dec 4 0 * AssetToHeatComponent.v_nominal self)%py).
Proof.
  intros Ht Htemp Hn Hd.
  unfold AssetToHeatComponent.pipe_flows, getitem.
  rewrite Ht, Htemp, Hn, Hd. cbn [String.eqb Ascii.eqb Bool.eqb]. mstep.
  cbn [str_contains]. mstep.
  destruct (String.index 0 "_ret" nm); reflexivity.
Qed.

(** What a successful conversion of a pipe has read and built. *)
Lemma convert_pipe_inv (self : AssetToHeatComponent.t F S) (asset : Asset F)
    (T : ComponentType) (m : MODIFIERS F) :
  snd (AssetToHeatComponent.convert_pipe set temperatures temps self asset)
  = Ok (T, m) ->
  T = Pipe
  /\ exists st rt nm d material length ts,
       asset_type asset = "Pipe"
       /\ temperatures (AssetToHeatComponent.state self) asset = Ok (st, rt)
       /\ attributes asset !! "name" = Some (esdl.AStr nm)
       /\ attributes asset !! "innerDiameter" = Some (esdl.AFloat d)
       /\ attributes asset !! "material" = Some material
       /\ attributes asset !! "length" = Some length
       /\ let area := (fpi * py_pow2 d / dec 4 0)%py in
          let q_max := (area * AssetToHeatComponent.v_max self)%py in
          let q_nominal := (area * AssetToHeatComponent.v_nominal self)%py in
          let hfr_nominal :=
            (AssetToHeatComponent.rho self * AssetToHeatComponent.cp self
             * q_nominal * (st - rt))%py in
          let hfr_max :=
            (AssetToHeatComponent.rho self * AssetToHeatComponent.cp self
             * q_max * (st - rt) * dec 2 0)%py in
          let heat_q :=
            MDict [("Heat", MDict [("min", MFloat (- hfr_max)%py);
                                   ("max", MFloat hfr_max);
                                   ("nominal", MFloat hfr_nominal)]);
                   ("Q", MDict [("min", MFloat (- q_max)%py);
                                ("max", MFloat q_max)])] in
          py_gt hfr_max (dec 0 0) = true
          /\ temps (set (AssetToHeatComponent.state self) asset q_nominal)
                   asset = Ok ts
          /\ exists thickness conductivity,
               match material with
               | esdl.ANone | esdl.ACompoundMatter [] =>
                   thickness = MFloat fnan /\ conductivity = MFloat fnan
               | esdl.ACompoundMatter components =>
                   thickness = MList (map esdl.layerWidth components)
                   /\ conductivity
                      = MList (map esdl.thermalConductivity components)
               | _ => False
               end
               /\ dict_kwargs
                    [("Q_nominal", MFloat q_nominal);
                     ("length", MAttr length);
                     ("diameter", MFloat d);
                     ("temperature",
                      MFloat match String.index 0 "_ret" nm with
                             | Some _ => rt
                             | None => st
                             end);
                     ("HeatIn", heat_q);
                     ("HeatOut", heat_q);
                     ("insulation_thickness", thickness);
                     ("conductivity_insulation", conductivity)]
                    [ts; AssetToHeatComponent._rho_cp_modifiers self] = Ok m.
Proof.
  unfold AssetToHeatComponent.convert_pipe.
  destruct (AssetToHeatComponent.pipe_flows _ _ _) as [flows|e] eqn:Hf;
    [|discriminate].
  apply pipe_flows_inv in Hf as (Ht & st & rt & nm & d & Htemp & Hn & Hd & ->).
  cbn [fst snd]. unfold AssetToHeatComponent.pipe_modifiers, getitem.
  destruct (py_gt _ (dec 0 0)) eqn:Hgt; mstep; [|discriminate].
  destruct (attributes asset !! "material") as [material|] eqn:Hmat; mstep;
    [|discriminate].
  destruct (attributes asset !! "length") as [length|] eqn:Hl.
  2: { destruct material as [| | |? |[|c cs] |]; discriminate. }
  destruct (temps _ asset) as [ts|] eqn:Hts.
  2: { destruct material as [| | |? |[|c cs] |]; discriminate. }
  intros Hm.
  destruct material as [| | |? |[|c cs] |]; try discriminate;
    cbn [mbind result_bind] in Hm;
    inv_bind Hm; injection Hm as <- <-;
    (split; [reflexivity|]);
    exists st, rt, nm, d; eexists; exists length, ts;
    cbv zeta; repeat (split; [first [assumption | reflexivity]|]);
    (eexists _, _; split; [split; reflexivity|]);
    exact Ha.
Qed.


(** X5. If the asset is not a pipe, if its temperatures cannot be
    resolved, if it has no name or if its inner diameter is not a number,
    [convert_pipe] raises and leaves the state of the converter
    untouched: [_set_q_nominal] has not been called. *)
Theorem convert_pipe_refused_keeps_state (self : AssetToHeatComponent.t F S)
    (asset : Asset F) :
  asset_type asset <> "Pipe"
  \/ (exists e, temperatures (AssetToHeatComponent.state self) asset = Raise e)
  \/ attributes asset !! "name" = None
  \/ (forall d, attributes asset !! "innerDiameter" <> Some (esdl.AFloat d)) ->
  exists e,
    AssetToHeatComponent.convert_pipe set temperatures temps self asset
    = (AssetToHeatComponent.state self, Raise e).
Proof.
  intros Hbad. unfold AssetToHeatComponent.convert_pipe.
  destruct (AssetToHeatComponent.pipe_flows _ _ _) as [flows|e] eqn:Hf;
    [|exists e; reflexivity].
  apply pipe_flows_inv in Hf as (Ht & st & rt & nm & d & Htemp & Hn & Hd & _).
  destruct Hbad as [Hb|[[e Hb]|[Hb|Hb]]].
  - contradiction.
  - rewrite Htemp in Hb. discriminate.
  - rewrite Hn in Hb. discriminate.
  - destruct (Hb d Hd).
Qed.

(** X6. A converted pipe: both ports get the same bounds, the bounds on
    the heat and on the flow are symmetric around zero, the bound on the
    heat is [rho * cp * q_max * (T_supply - T_return) * 2] and is
    positive, and the nominal flow is the area times [v_nominal]. *)
Theorem convert_pipe_bounds (self : AssetToHeatComponent.t F S)
    (asset : Asset F) (T : ComponentType) (m : MODIFIERS F) :
  snd (AssetToHeatComponent.convert_pipe set temperatures temps self asset)
  = Ok (T, m) ->
  T = Pipe
  /\ exists st rt d,
       temperatures (AssetToHeatComponent.state self) asset = Ok (st, rt)
       /\ attributes asset !! "innerDiameter" = Some (esdl.AFloat d)
       /\ let area := (fpi * py_pow2 d / dec 4 0)%py in
          let q_max := (area * AssetToHeatComponent.v_max self)%py in
          let q_nominal := (area * AssetToHeatComponent.v_nominal self)%py in
          let hfr_max :=
            (AssetToHeatComponent.rho self * AssetToHeatComponent.cp self
             * q_max * (st - rt) * dec 2 0)%py in
          py_gt hfr_max (dec 0 0) = true
          /\ dict_get m "Q_nominal" = Some (MFloat q_nominal)
          /\ dict_get m "diameter" = Some (MFloat d)
          /\ dict_get3 m "HeatIn" "Heat" "max" = Some (MFloat hfr_max)
          /\ dict_get3 m "HeatIn" "Heat" "min" = Some (MFloat (- hfr_max)%py)
          /\ dict_get3 m "HeatIn" "Heat" "nominal"
             = Some (MFloat (AssetToHeatComponent.rho self
                             * AssetToHeatComponent.cp self
                             * q_nominal * (st - rt))%py)
          /\ dict_get3 m "HeatIn" "Q" "max" = Some (MFloat q_max)
          /\ dict_get3 m "HeatIn" "Q" "min" = Some (MFloat (- q_max)%py)
          /\ dict_get m "HeatOut" = dict_get m "HeatIn".
Proof.
  intros Hc.
  apply convert_pipe_inv in Hc
    as (-> & st & rt & nm & d & material & length & ts & _ & Htemp & _ & Hd
        & _ & _ & Hrest).
  cbv zeta in Hrest.
  destruct Hrest as (Hgt & _ & thickness & conductivity & _ & Hm).
  apply dict_kwargs_Ok in Hm. subst m.
  split; [reflexivity|]. exists st, rt, d.
  split; [exact Htemp|]. split; [exact Hd|]. cbv zeta.
  split; [exact Hgt|]. repeat split.
Qed.

(** X7. The insulation of a converted pipe: without a material, or with a
    compound material without layers, both insulation modifiers are
    not-a-number (the defaults are used downstream); otherwise they list
    the width and the conductivity of every layer, in the order of the
    layers.  A material that is not a compound never converts. *)
Theorem convert_pipe_insulation (self : AssetToHeatComponent.t F S)
    (asset : Asset F) (T : ComponentType) (m : MODIFIERS F) :
  snd (AssetToHeatComponent.convert_pipe set temperatures temps self asset)
  = Ok (T, m) ->
  exists material,
    attributes asset !! "material" = Some material
    /\ match material with
       | esdl.ANone | esdl.ACompoundMatter [] =>
           dict_get m "insulation_thickness" = Some (MFloat fnan)
           /\ dict_get m "conductivity_insulation" = Some (MFloat fnan)
       | esdl.ACompoundMatter components =>
           dict_get m "insulation_thickness"
           = Some (MList (map esdl.layerWidth components))
           /\ dict_get m "conductivity_insulation"
              = Some (MList (map esdl.thermalConductivity components))
       | _ => False
       end.
Proof.
  intros Hc.
  apply convert_pipe_inv in Hc
    as (_ & st & rt & nm & d & material & length & ts & _ & _ & _ & _
        & Hm & _ & Hrest).
  cbv zeta in Hrest.
  destruct Hrest as (_ & _ & thickness & conductivity & Hins & Hk).
  apply dict_kwargs_Ok in Hk. subst m.
  exists material. split; [exact Hm|].
  destruct material as [| | |? |[|c cs] |]; try contradiction;
    destruct Hins as [-> ->]; split; reflexivity.
Qed.
End PipeRule.

(** ** Occurrences of a string in another *)

Section Substrings.

Lemma substring_prefix (t b : string) :
  substring 0 (String.length t) (String.append t b) = t.
Proof.
  induction t as [|c t IH]; simpl.
  - destruct b; reflexivity.
  - rewrite IH. reflexivity.
Qed.

Lemma substring_occurrence (a t b : string) :
  substring (String.length a) (String.length t)
            (String.append a (String.append t b)) = t.
Proof.
  induction a as [|c a IH].
  - exact (substring_prefix t b).
  - exact IH.
Qed.

Lemma substring_0_split (n : nat) (s t : string) :
  substring 0 n s = t -> String.length t = n ->
  exists b, s = String.append t b.
Proof.
  revert s t. induction n as [|n IH]; intros s t Hs Hl.
  - destruct t; [|discriminate]. exists s. reflexivity.
  - destruct s as [|c s]; simpl in Hs.
    + subst t. discriminate.
    + destruct t as [|c' t]; [discriminate|].
      injection Hs as <- Hs. injection Hl as Hl.
      destruct (IH s t Hs Hl) as [b ->]. exists b. reflexivity.
Qed.

Lemma substring_split (m n : nat) (s t : string) :
  substring m n s = t -> String.length t = n -> occurs_in t s.
Proof.
  revert s. induction m as [|m IH]; intros s Hs Hl.
  - destruct (substring_0_split n s t Hs Hl) as [b ->].
    exists EmptyString, b. reflexivity.
  - destruct s as [|c s]; simpl in Hs.
    + subst t. destruct n; [|discriminate].
      exists EmptyString, EmptyString. reflexivity.
    + destruct (IH s Hs Hl) as (a & b & ->).
      exists (String c a), b. reflexivity.
Qed.

(** [String.index] finds a string exactly when it occurs. *)
Lemma index_occurs_in (needle s : string) :
  needle <> EmptyString ->
  (exists n, String.index 0 needle s = Some n) <-> occurs_in needle s.
Proof.
  intros Hne. split.
  - intros [n Hn]. apply index_correct1 in Hn.
    exact (substring_split _ _ _ _ Hn eq_refl).
  - intros (a & b & ->).
    destruct (String.index 0 needle (String.append a (String.append needle b)))
      as [n|] eqn:Hi; [exists n; reflexivity|].
    exfalso.
    apply (index_correct3 0 (String.length a) _ _ Hi Hne (Nat.le_0_l _)).
    apply substring_occurrence.
Qed.
End Substrings.

Section PipeTemperature.
Context {F : Type} `{PyFloat F} {S : Type}.
Context (set : S -> Asset F -> F -> S).
Context (temperatures : S -> Asset F -> result (F * F)).
Context (temps : S -> Asset F -> result (MODIFIERS F)).

(** X8. The temperature of a converted pipe is the return temperature of
    its carrier if [_ret] occurs in the name of the pipe, and the supply
    temperature otherwise. *)
Theorem convert_pipe_temperature (self : AssetToHeatComponent.t F S)
    (asset : Asset F) (T : ComponentType) (m : MODIFIERS F) :
  snd (AssetToHeatComponent.convert_pipe set temperatures temps self asset)
  = Ok (T, m) ->
  exists (st rt : F) (nm : string),
    temperatures (AssetToHeatComponent.state self) asset = Ok (st, rt)
    /\ attributes asset !! "name" = Some (esdl.AStr nm)
    /\ (occurs_in "_ret" nm ->
        dict_get m "temperature" = Some (MFloat rt))
    /\ (~ occurs_in "_ret" nm ->
        dict_get m "temperature" = Some (MFloat st)).
Proof.
  intros Hc.
  apply convert_pipe_inv in Hc
    as (_ & st & rt & nm & d & material & length & ts & _ & Htemp & Hn & _
        & _ & _ & Hrest).
  cbv zeta in Hrest.
  destruct Hrest as (_ & _ & thickness & conductivity & _ & Hm).
  apply dict_kwargs_Ok in Hm. subst m.
  exists st, rt, nm. split; [exact Htemp|]. split; [exact Hn|].
  assert (Hne : "_ret" <> EmptyString) by discriminate.
  pose proof (index_occurs_in "_ret" nm Hne) as Hi.
  unfold dict_get. cbn [List.find fst snd String.eqb Ascii.eqb Bool.eqb app fmap
                        option_fmap option_map].
  destruct (String.index 0 "_ret" nm) as [n|].
  - split; [reflexivity|]. intros Hno. exfalso. apply Hno, Hi.
    exists n. reflexivity.
  - split; [|reflexivity]. intros Hocc. apply Hi in Hocc as [n Hn'].
    discriminate.
Qed.
End PipeTemperature.

(** ** The rule for pipes over the ideal carrier *)

Section PipeRuleIdeal.
Local Open Scope R_scope.
Context {S : Type}.
Context (set : S -> Asset ideal -> ideal -> S).
Context (temperatures : S -> Asset ideal -> result (ideal * ideal)).
Context (temps : S -> Asset ideal -> result (MODIFIERS ideal)).

Lemma py_gt_ideal_pos (x : R) : 0 < x -> py_gt (Fin x) (dec 0 0) = true.
Proof.
  intros Hx. unfold py_gt. simpl.
  destruct (Rlt_dec 0 x); [reflexivity | contradiction].
Qed.

Lemma py_gt_ideal_nonpos (x : R) : x <= 0 -> py_gt (Fin x) (dec 0 0) = false.
Proof.
  intros Hx. unfold py_gt. simpl.
  destruct (Rlt_dec 0 x); [lra | reflexivity].
Qed.

Lemma py_gt_ideal_inv (a : ideal) :
  py_gt a (dec 0 0) = true -> exists x, a = Fin x /\ 0 < x.
Proof.
  unfold py_gt. destruct a as [x|]; simpl; [|discriminate].
  destruct (Rlt_dec 0 x); [|discriminate]. intros _. exists x. auto.
Qed.

Lemma fmul_Fin_inv (a b : ideal) (z : R) :
  (a * b)%py = Fin z -> exists x y, a = Fin x /\ b = Fin y /\ z = x * y.
Proof.
  destruct a as [x|], b as [y|]; simpl; try discriminate.
  intros [= <-]. exists x, y. auto.
Qed.

Lemma dec_4_0 : dec (F:=ideal) 4 0 = Fin 4.
Proof. reflexivity. Qed.

Lemma pipe_area_ideal (d : R) :
  (fpi * py_pow2 (Fin d) / dec 4 0)%py = Fin (PI * (d * d) / 4).
Proof.
  unfold py_pow2. rewrite fpi_ideal, dec_4_0, !fmul_Fin.
  apply fdiv_Fin. lra.
Qed.

Lemma pipe_area_ideal_inv (a : ideal) (z : R) :
  (fpi * py_pow2 a / dec 4 0)%py = Fin z ->
  exists d, a = Fin d /\ z = PI * (d * d) / 4.
Proof.
  destruct a as [d|]; [|discriminate].
  rewrite pipe_area_ideal. intros [= <-]. exists d. auto.
Qed.

Lemma square_pos (d : R) : d <> 0 -> 0 < d * d.
Proof. intros Hd. apply Rsqr_pos_lt in Hd. exact Hd. Qed.

(** X9. With parameters that are not negative, a pipe whose supply
    temperature is not above its return temperature, or whose inner
    diameter is zero, is refused with [AssertionError]: the bound
    [hfr_max] is not positive. *)
Theorem convert_pipe_needs_temperature_drop
    (self : AssetToHeatComponent.t ideal S) (asset : Asset ideal)
    (rho cp vmax st rt d : R) (nm : string) :
  AssetToHeatComponent.rho self = Fin rho -> 0 <= rho ->
  AssetToHeatComponent.cp self = Fin cp -> 0 <= cp ->
  AssetToHeatComponent.v_max self = Fin vmax -> 0 <= vmax ->
  asset_type asset = "Pipe" ->
  temperatures (AssetToHeatComponent.state self) asset = Ok (Fin st, Fin rt) ->
  attributes asset !! "name" = Some (esdl.AStr nm) ->
  attributes asset !! "innerDiameter" = Some (esdl.AFloat (Fin d)) ->
  st <= rt \/ d = 0 ->
  snd (AssetToHeatComponent.convert_pipe set temperatures temps self asset)
  = Raise AssertionError.
Proof.
  intros Hrho Hrho0 Hcp Hcp0 Hv Hv0 Ht Htemp Hn Hd Hbad.
  unfold AssetToHeatComponent.convert_pipe.
  rewrite (pipe_flows_Ok temperatures self asset _ _ _ nm Ht Htemp Hn Hd).
  cbn [fst snd]. unfold AssetToHeatComponent.pipe_modifiers.
  rewrite Hrho, Hcp, Hv, pipe_area_ideal, dec_ideal_0, fsub_Fin, !fmul_Fin.
  rewrite py_gt_ideal_nonpos; [reflexivity|].
  assert (Hsq : 0 <= d * d) by apply Rle_0_sqr.
  assert (Hpi : 0 < PI) by exact PI_RGT_0.
  destruct Hbad as [Hle| ->].
  - assert (Ha : 0 <= PI * (d * d) / 4 * vmax).
    { apply Rmult_le_pos; [|exact Hv0].
      apply Rmult_le_pos; [|lra]. apply Rmult_le_pos; lra. }
    assert (Hb : 0 <= rho * cp * (PI * (d * d) / 4 * vmax)).
    { apply Rmult_le_pos; [|exact Ha]. apply Rmult_le_pos; assumption. }
    assert (Hc : rho * cp * (PI * (d * d) / 4 * vmax) * (st - rt) <= 0).
    { rewrite <- (Rmult_0_r (rho * cp * (PI * (d * d) / 4 * vmax))).
      apply Rmult_le_compat_l; [exact Hb | lra]. }
    simpl. lra.
  - apply Req_le. simpl. unfold Rdiv. ring.
Qed.

(** X10. A pipe converted with positive parameters has a supply
    temperature strictly above its return temperature and a non-zero
    diameter; its nominal flow and nominal heat are positive, and they
    are related to the bounds by [Q.max * v_nominal = v_max * Q_nominal]
    and [Heat.max * v_nominal = 2 * v_max * Heat.nominal]. *)
Theorem convert_pipe_nominal_ratios
    (self : AssetToHeatComponent.t ideal S) (asset : Asset ideal)
    (rho cp vmax vnom : R) (T : ComponentType) (m : MODIFIERS ideal) :
  AssetToHeatComponent.rho self = Fin rho -> 0 < rho ->
  AssetToHeatComponent.cp self = Fin cp -> 0 < cp ->
  AssetToHeatComponent.v_max self = Fin vmax -> 0 < vmax ->
  AssetToHeatComponent.v_nominal self = Fin vnom -> 0 < vnom ->
  snd (AssetToHeatComponent.convert_pipe set temperatures temps self asset)
  = Ok (T, m) ->
  exists st rt d qn qmax hn hmax : R,
    temperatures (AssetToHeatComponent.state self) asset = Ok (Fin st, Fin rt)
    /\ attributes asset !! "innerDiameter" = Some (esdl.AFloat (Fin d))
    /\ rt < st /\ d <> 0
    /\ dict_get m "Q_nominal" = Some (MFloat (Fin qn))
    /\ dict_get3 m "HeatIn" "Q" "max" = Some (MFloat (Fin qmax))
    /\ dict_get3 m "HeatIn" "Heat" "nominal" = Some (MFloat (Fin hn))
    /\ dict_get3 m "HeatIn" "Heat" "max" = Some (MFloat (Fin hmax))
    /\ qn = PI * (d * d) / 4 * vnom
    /\ 0 < qn /\ 0 < hn
    /\ qmax * vnom = vmax * qn
    /\ hmax * vnom = 2 * vmax * hn.
Proof.
  intros Hrho Hrho0 Hcp Hcp0 Hv Hv0 Hn Hn0 Hc.
  apply convert_pipe_inv in Hc
    as (_ & a & b & nm & dd & material & length & ts & _ & Htemp & _ & Hd
        & _ & _ & Hrest).
  cbv zeta in Hrest.
  destruct Hrest as (Hgt & _ & thickness & conductivity & _ & Hm).
  apply dict_kwargs_Ok in Hm. subst m.
  rewrite Hrho, Hcp, Hv, Hn. rewrite Hrho, Hcp, Hv in Hgt.
  apply py_gt_ideal_inv in Hgt as (h & Hh & Hh0).
  rewrite dec_ideal_0 in Hh.
  apply fmul_Fin_inv in Hh as (h1 & two & Hh1 & [= <-] & ->).
  apply fmul_Fin_inv in Hh1 as (h2 & dt & Hh2 & Hdt & ->).
  apply ideal_sub_Fin_inv in Hdt as (st & rt & -> & -> & ->).
  rewrite fmul_Fin in Hh2.
  apply fmul_Fin_inv in Hh2 as (rc & q & [= <-] & Hq & ->).
  apply fmul_Fin_inv in Hq as (ar & v & Har & [= <-] & ->).
  apply pipe_area_ideal_inv in Har as (d & -> & ->).
  assert (Hpi : 0 < PI) by exact PI_RGT_0.
  assert (Hd0 : d <> 0).
  { intros ->. replace (rho * cp * (PI * (0 * 0) / 4 * vmax) * (st - rt) * 2)
      with 0 in Hh0 by (unfold Rdiv; ring). lra. }
  pose proof (square_pos d Hd0) as Hsq.
  assert (Harea : 0 < PI * (d * d) / 4) by pos.
  assert (Hfac : 0 < rho * cp * (PI * (d * d) / 4 * vmax) * 2) by pos.
  assert (Hdrop : rt < st).
  { destruct (Rlt_dec rt st) as [|Hge]; [assumption|]. exfalso.
    assert (Hle : (rho * cp * (PI * (d * d) / 4 * vmax) * 2) * (st - rt)
                  <= (rho * cp * (PI * (d * d) / 4 * vmax) * 2) * 0)
      by (apply Rmult_le_compat_l; lra).
    lra. }
  exists st, rt, d, (PI * (d * d) / 4 * vnom), (PI * (d * d) / 4 * vmax),
    (rho * cp * (PI * (d * d) / 4 * vnom) * (st - rt)),
    (rho * cp * (PI * (d * d) / 4 * vmax) * (st - rt) * 2).
  rewrite pipe_area_ideal, fsub_Fin, !fmul_Fin, dec_ideal_0, !fmul_Fin.
  split; [exact Htemp|]. split; [exact Hd|].
  split; [exact Hdrop|]. split; [exact Hd0|].
  do 4 (split; [reflexivity|]).
  split; [reflexivity|]. split; [pos|].
  split; [assert (0 < st - rt) by lra; pos|].
  split; ring.
Qed.
End PipeRuleIdeal.

(** ** The rule for joints *)

Section NodeRule.
Context {F : Type} `{PyFloat F} {S S' : Type}.

Lemma list_sum_Permutation (l l' : list nat) :
  Permutation l l' -> list_sum l = list_sum l'.
Proof.
  unfold list_sum.
  induction 1 as [|x l l' _ IH|x y l|l l' l'' _ IH1 _ IH2]; cbn [fold_right].
  - reflexivity.
  - rewrite IH. reflexivity.
  - lia.
  - rewrite IH1. exact IH2.
Qed.

Lemma connections_Permutation (cls : esdl.port_class)
    (items items' : list esdl.Port) :
  Permutation items items' -> connections cls items = connections cls items'.
Proof.
  intros Hp. unfold connections. f_equal. apply list_sum_Permutation.
  apply Permutation_map. rewrite Hp. reflexivity.
Qed.

(** X11. The rule for joints depends on the type of the asset and on the
    collection of its ports only: two joints whose port lists are
    rearrangements of each other convert to the same result, whatever
    the converter, its state and the other attributes of the joints. *)
Theorem convert_node_order_irrelevant (self : AssetToHeatComponent.t F S)
    (self' : AssetToHeatComponent.t F S') (asset asset' : Asset F)
    (items items' : list esdl.Port) :
  asset_type asset = asset_type asset' ->
  attributes asset !! "port" = Some (esdl.APorts items) ->
  attributes asset' !! "port" = Some (esdl.APorts items') ->
  Permutation items items' ->
  AssetToHeatComponent.convert_node self asset
  = AssetToHeatComponent.convert_node self' asset'.
Proof.
  intros Ht Hp Hp' Hperm. unfold AssetToHeatComponent.convert_node, getitem.
  rewrite Ht, Hp, Hp'.
  destruct (String.eqb (asset_type asset') "Joint"); mstep; [|reflexivity].
  rewrite !fold_count_port.
  rewrite (connections_Permutation esdl.InPort items items' Hperm).
  rewrite (connections_Permutation esdl.OutPort items items' Hperm).
  reflexivity.
Qed.
End NodeRule.

(** ** The rules for buffers, demands, pumps and sources *)

Section TerminalRules.
Context {F : Type} `{PyFloat F} {S : Type}.
Context (get : S -> Asset F -> result F).
Context (set : S -> Asset F -> F -> S).
Context (temperatures : S -> Asset F -> result (F * F)).
Context (temps : S -> Asset F -> result (MODIFIERS F)).

(** X12. The rule for buffers succeeds exactly on a [HeatStorage] with a
    positive capacity whose connected nominal flow resolves, and then
    yields exactly five modifiers: the nominal flow, the stored heat
    between zero and the capacity, an initial heat of zero, and [rho] and
    [cp].  It carries no temperature modifiers and cannot fail on a
    repeated key. *)
Theorem convert_buffer_characterised (self : AssetToHeatComponent.t F S)
    (asset : Asset F) (T : ComponentType) (m : MODIFIERS F) :
  AssetToHeatComponent.convert_buffer get self asset = Ok (T, m)
  <-> T = Buffer
      /\ asset_type asset = "HeatStorage"
      /\ exists c q,
           attributes asset !! "capacity" = Some (esdl.AFloat c)
           /\ py_gt c (dec 0 0) = true
           /\ get (AssetToHeatComponent.state self) asset = Ok q
           /\ m = [("Q_nominal", MFloat q);
                   ("Stored_heat",
                    MDict [("min", MFloat (dec 0 0)); ("max", MFloat c)]);
                   ("init_Heat", MFloat (dec 0 0));
                   ("rho", MFloat (AssetToHeatComponent.rho self));
                   ("cp", MFloat (AssetToHeatComponent.cp self))].
Proof.
  split.
  - intros Hc.
    apply convert_buffer_inv in Hc as (-> & Ht & c & q & Hcap & Hgt & Hq & Hm).
    apply dict_kwargs_Ok in Hm. subst m.
    split; [reflexivity|]. split; [exact Ht|]. exists c, q. auto.
  - intros (-> & Ht & c & q & Hcap & Hgt & Hq & ->).
    unfold AssetToHeatComponent.convert_buffer, getitem.
    rewrite Ht, Hcap. cbn [String.eqb Ascii.eqb Bool.eqb]. mstep.
    rewrite Hgt. mstep. rewrite Hq. reflexivity.
Qed.

(** X13. Every converted buffer, demand, pump, source and pipe carries
    the density and the heat capacity of the converter as the modifiers
    [rho] and [cp]. *)
Theorem converted_modifiers_carry_rho_cp (self : AssetToHeatComponent.t F S)
    (asset : Asset F) (T : ComponentType) (m : MODIFIERS F) :
  AssetToHeatComponent.convert_buffer get self asset = Ok (T, m)
  \/ AssetToHeatComponent.convert_demand get temps self asset = Ok (T, m)
  \/ AssetToHeatComponent.convert_pump get temps self asset = Ok (T, m)
  \/ AssetToHeatComponent.convert_source get temps self asset = Ok (T, m)
  \/ snd (AssetToHeatComponent.convert_pipe set temperatures temps self asset)
     = Ok (T, m) ->
  dict_get m "rho" = Some (MFloat (AssetToHeatComponent.rho self))
  /\ dict_get m "cp" = Some (MFloat (AssetToHeatComponent.cp self)).
Proof.
  assert (Hkw : forall kw unpacked,
            In (AssetToHeatComponent._rho_cp_modifiers self) unpacked ->
            dict_kwargs kw unpacked = Ok m ->
            dict_get m "rho" = Some (MFloat (AssetToHeatComponent.rho self))
            /\ dict_get m "cp" = Some (MFloat (AssetToHeatComponent.cp self))).
  { intros kw unpacked Hin Hm.
    split; apply (dict_kwargs_lookup kw unpacked m _ _ Hm); right;
      exists (AssetToHeatComponent._rho_cp_modifiers self);
      (split; [exact Hin | reflexivity]). }
  intros [Hc|[Hc|[Hc|[Hc|Hc]]]].
  - apply convert_buffer_inv in Hc as (_ & _ & c & q & _ & _ & _ & Hm).
    refine (Hkw _ _ _ Hm); cbn [In]; auto.
  - apply convert_demand_inv in Hc as (_ & _ & p & q & ts & _ & _ & _ & _ & Hm).
    refine (Hkw _ _ _ Hm); cbn [In]; auto.
  - apply convert_pump_inv in Hc as (_ & _ & q & ts & _ & _ & Hm).
    refine (Hkw _ _ _ Hm); cbn [In]; auto.
  - apply convert_source_inv in Hc as (_ & _ & p & q & ts & _ & _ & _ & _ & Hm).
    refine (Hkw _ _ _ Hm); cbn [In]; auto.
  - apply convert_pipe_inv in Hc
      as (_ & st & rt & nm & d & material & length & ts & _ & _ & _ & _
          & _ & _ & Hrest).
    cbv zeta in Hrest.
    destruct Hrest as (_ & _ & thickness & conductivity & _ & Hm).
    refine (Hkw _ _ _ Hm); cbn [In]; auto.
Qed.

(** X14. The temperature modifiers that the base class answers for a
    demand, a pump or a source are handed on unchanged: every entry of
    them is an entry of the result. *)
Theorem converted_modifiers_carry_temperatures
    (self : AssetToHeatComponent.t F S) (asset : Asset F)
    (T : ComponentType) (m : MODIFIERS F) :
  AssetToHeatComponent.convert_demand get temps self asset = Ok (T, m)
  \/ AssetToHeatComponent.convert_pump get temps self asset = Ok (T, m)
  \/ AssetToHeatComponent.convert_source get temps self asset = Ok (T, m) ->
  exists ts,
    temps (AssetToHeatComponent.state self) asset = Ok ts
    /\ forall k v, dict_get ts k = Some v -> dict_get m k = Some v.
Proof.
  intros [Hc|[Hc|Hc]].
  - apply convert_demand_inv in Hc as (_ & _ & p & q & ts & _ & _ & _ & Hts & Hm).
    exists ts. split; [exact Hts|]. intros k v Hk.
    apply (dict_kwargs_lookup _ _ m k v Hm). right. exists ts.
    split; [left; reflexivity | exact Hk].
  - apply convert_pump_inv in Hc as (_ & _ & q & ts & _ & Hts & Hm).
    exists ts. split; [exact Hts|]. intros k v Hk.
    apply (dict_kwargs_lookup _ _ m k v Hm). right. exists ts.
    split; [left; reflexivity | exact Hk].
  - apply convert_source_inv in Hc as (_ & _ & p & q & ts & _ & _ & _ & Hts & Hm).
    exists ts. split; [exact Hts|]. intros k v Hk.
    apply (dict_kwargs_lookup _ _ m k v Hm). right. exists ts.
    split; [left; reflexivity | exact Hk].
Qed.

(** X15. The rule for pipes asks the base class for the temperature
    modifiers after it has recorded the nominal flow, that is in the
    state that [_set_q_nominal] has left; every entry of the answer is an
    entry of the result. *)
Theorem convert_pipe_carries_temperatures
    (self : AssetToHeatComponent.t F S) (asset : Asset F)
    (T : ComponentType) (m : MODIFIERS F) :
  snd (AssetToHeatComponent.convert_pipe set temperatures temps self asset)
  = Ok (T, m) ->
  exists ts,
    temps (fst (AssetToHeatComponent.convert_pipe
                  set temperatures temps self asset)) asset = Ok ts
    /\ forall k v, dict_get ts k = Some v -> dict_get m k = Some v.
Proof.
  intros Hc.
  pose proof Hc as Hinv.
  apply convert_pipe_inv in Hinv
    as (_ & st & rt & nm & d & material & length & ts & Ht & Htemp & Hn & Hd
        & _ & _ & Hrest).
  cbv zeta in Hrest.
  destruct Hrest as (_ & Hts & thickness & conductivity & _ & Hm).
  exists ts. split.
  - unfold AssetToHeatComponent.convert_pipe.
    rewrite (pipe_flows_Ok temperatures self asset st rt d nm
               Ht Htemp Hn Hd).
    exact Hts.
  - intros k v Hk.
    apply (dict_kwargs_lookup _ _ m k v Hm). right. exists ts.
    split; [left; reflexivity | exact Hk].
Qed.

(** X16. A key that the base class answers among the temperature
    modifiers and that the rule sets itself ([Q_nominal], [rho], [cp]) is
    a repeated keyword argument: the rule raises [TypeError] once its own
    checks and the helpers have passed. *)
Theorem repeated_modifier_refused (self : AssetToHeatComponent.t F S)
    (asset : Asset F) (ts : MODIFIERS F) (k : string) :
  temps (AssetToHeatComponent.state self) asset = Ok ts ->
  has_key ts k = true ->
  str_in k ["Q_nominal"; "rho"; "cp"] = true ->
  (forall q,
     asset_type asset = "Pump" ->
     get (AssetToHeatComponent.state self) asset = Ok q ->
     AssetToHeatComponent.convert_pump get temps self asset = Raise TypeError)
  /\ (forall p q,
        str_in (asset_type asset) ["GenericConsumer"; "HeatingDemand"] = true ->
        attributes asset !! "power" = Some (esdl.AFloat p) ->
        py_gt p (dec 0 0) = true ->
        get (AssetToHeatComponent.state self) asset = Ok q ->
        AssetToHeatComponent.convert_demand get temps self asset
        = Raise TypeError)
  /\ (forall p q,
        str_in (asset_type asset)
          ["GasHeater"; "GenericProducer"; "GeothermalSource";
           "ResidualHeatSource"] = true ->
        attributes asset !! "power" = Some (esdl.AFloat p) ->
        py_gt p (dec 0 0) = true ->
        get (AssetToHeatComponent.state self) asset = Ok q ->
        AssetToHeatComponent.convert_source get temps self asset
        = Raise TypeError).
Proof.
  intros Hts Hk Hin.
  assert (Hclash : forall kw,
            has_key kw "Q_nominal" = true ->
            dict_kwargs kw [ts; AssetToHeatComponent._rho_cp_modifiers self]
            = Raise TypeError).
  { intros kw Hq.
    unfold str_in in Hin. cbn [existsb] in Hin.
    rewrite orb_false_r in Hin.
    apply orb_true_iff in Hin as [Hin|Hin];
      [|apply orb_true_iff in Hin as [Hin|Hin]];
      apply String.eqb_eq in Hin; subst k.
    - apply (dict_kwargs_clash kw [] [_] ts "Q_nominal").
      + cbn [concat]. rewrite app_nil_r. exact Hq.
      + exact Hk.
    - apply (dict_kwargs_clash kw [ts] [] _ "rho").
      + cbn [concat]. rewrite app_nil_r, has_key_app, Hk.
        apply orb_true_r.
      + reflexivity.
    - apply (dict_kwargs_clash kw [ts] [] _ "cp").
      + cbn [concat]. rewrite app_nil_r, has_key_app, Hk.
        apply orb_true_r.
      + reflexivity. }
  repeat split.
  - intros q Ht Hq. unfold AssetToHeatComponent.convert_pump.
    rewrite Ht, Hq, Hts. cbn [String.eqb Ascii.eqb Bool.eqb]. mstep.
    rewrite Hclash by reflexivity. reflexivity.
  - intros p q Ht Hp Hgt Hq.
    unfold AssetToHeatComponent.convert_demand, getitem.
    rewrite Ht, Hp. mstep. rewrite Hgt. mstep. rewrite Hq, Hts. mstep.
    rewrite Hclash by reflexivity. reflexivity.
  - intros p q Ht Hp Hgt Hq.
    unfold AssetToHeatComponent.convert_source, getitem.
    rewrite Ht, Hp. mstep. rewrite Hgt. mstep. rewrite Hq, Hts. mstep.
    rewrite Hclash by reflexivity. reflexivity.
Qed.
End TerminalRules.

(** ** The rule for sources over the ideal carrier *)

Section SourceRuleIdeal.
Local Open Scope R_scope.
Context {S : Type}.
Context (get : S -> Asset ideal -> result ideal).
Context (temps : S -> Asset ideal -> result (MODIFIERS ideal)).

(** X17. A converted source produces between zero and its power, and the
    nominal of its heat is half the power: a number strictly between the
    two bounds. *)
Theorem convert_source_nominal_inside_bounds
    (self : AssetToHeatComponent.t ideal S) (asset : Asset ideal)
    (T : ComponentType) (m : MODIFIERS ideal) :
  AssetToHeatComponent.convert_source get temps self asset = Ok (T, m) ->
  T = Source
  /\ exists p : R,
       attributes asset !! "power" = Some (esdl.AFloat (Fin p))
       /\ 0 < p / 2 < p
       /\ dict_get2 m "Heat_source" "min" = Some (MFloat (Fin 0))
       /\ dict_get2 m "Heat_source" "max" = Some (MFloat (Fin p))
       /\ dict_get2 m "Heat_source" "nominal" = Some (MFloat (Fin (p / 2))).
Proof.
  intros Hc.
  apply convert_source_inv in Hc
    as (-> & _ & a & q & ts & Hp & Hgt & _ & _ & Hm).
  apply dict_kwargs_Ok in Hm. subst m.
  apply py_gt_ideal_inv in Hgt as (p & -> & Hp0).
  split; [reflexivity|]. exists p. split; [exact Hp|].
  split; [lra|]. rewrite !dec_ideal_0.
  rewrite (fdiv_Fin p 2) by lra.
  repeat split.
Qed.
End SourceRuleIdeal.

(** ** The gas pipe over the ideal carrier *)

Section GasPipeIdeal.
Local Open Scope R_scope.

Lemma feqb_ideal_false (x : R) : (Fin x =? f_of_Z 0)%py = false -> x <> 0.
Proof.
  simpl. destruct (Req_dec_T x 0); [discriminate | trivial].
Qed.

(** X18. The nominal hydraulic power of a constructed gas pipe, in terms
    of its parameters: the nominal velocity [Q_nominal / area] is
    [v_max / 2] whatever the diameter, and the nominal power is
    [rho * 0.02 * max(length, 1) * pi**2 * diameter / 8 * (v_max / 2)**3].
    It is proportional to the diameter, a pipe shorter than one metre
    gets the nominal of a pipe of one metre, and the value is [pi] times
    [rho * ff * length * area / 2 / diameter * velocity**3]. *)
Theorem gas_pipe_power_nominal_closed_form (self : Component ideal)
    (modifiers : gmap string ideal) (gp : GasPipe.t ideal)
    (vmax rho d L : R) :
  GasPipe.__init__ self modifiers = Ok gp ->
  GasPipe.v_max gp = Fin vmax ->
  GasPipe.density gp = Fin rho ->
  GasPipe.diameter gp = Fin d ->
  GasPipe.length gp = Fin L ->
  d <> 0
  /\ (GasPipe.Q_nominal gp / GasPipe.area gp)%py = Fin (vmax / 2)
  /\ GasPipe.Hydraulic_power_nominal gp
     = Fin (rho * (2 / 100) * Rmax L 1 * (PI * PI) * d / 8
            * (vmax / 2 * (vmax / 2) * (vmax / 2)))
  /\ GasPipe.Hydraulic_power_nominal gp
     = Fin (PI * (rho * (2 / 100) * Rmax L 1 * (PI / 4 * (d * d)) / 2 / d
                  * (vmax / 2 * (vmax / 2) * (vmax / 2)))).
Proof.
  intros Hgp Hv Hrho Hd HL.
  apply GasPipe_init_inv in Hgp as (Hc & _).
  pose proof (gc_diameter_nonzero _ _ Hc) as Hd0.
  rewrite Hd in Hd0. apply feqb_ideal_false in Hd0.
  assert (Hpi : 0 < PI) by exact PI_RGT_0.
  assert (Harea : GasPipe.area gp = Fin (25 / 100 * PI * (d * d))).
  { rewrite (gc_area _ _ Hc), Hd. unfold py_pow2.
    rewrite dec_25_2, fpi_ideal, !fmul_Fin. reflexivity. }
  assert (Ha0 : 25 / 100 * PI * (d * d) <> 0).
  { pose proof (square_pos d Hd0). apply Rgt_not_eq. pos. }
  assert (HQ : GasPipe.Q_nominal gp
               = Fin (vmax / 2 * (25 / 100 * PI * (d * d)))).
  { rewrite (gc_Q_nominal _ _ Hc), Hv, Harea, !dec_ideal_0.
    rewrite (fdiv_Fin vmax 2) by lra. rewrite fmul_Fin. reflexivity. }
  assert (Hvelo : (GasPipe.Q_nominal gp / GasPipe.area gp)%py
                  = Fin (vmax / 2)).
  { rewrite HQ, Harea, (fdiv_Fin _ _ Ha0). f_equal. field.
    split; [exact Hd0 | apply Rgt_not_eq; exact Hpi]. }
  split; [exact Hd0|]. split; [exact Hvelo|].
  assert (HP : GasPipe.Hydraulic_power_nominal gp
               = Fin (rho * (2 / 100) * Rmax L 1 * PI
                      * (25 / 100 * PI * (d * d)) / d / 2
                      * (vmax / 2 * (vmax / 2) * (vmax / 2)))).
  { rewrite (gc_Hydraulic_power_nominal _ _ Hc). unfold py_pow3.
    rewrite Hvelo, (gc_rho _ _ Hc), Hrho, HL, Harea, Hd.
    rewrite dec_2_2, !dec_ideal_0, py_max_ideal, fpi_ideal, !fmul_Fin.
    rewrite (fdiv_Fin _ d Hd0). rewrite (fdiv_Fin _ 2) by lra.
    rewrite !fmul_Fin. reflexivity. }
  split; rewrite HP; f_equal; field; exact Hd0.
Qed.

(** X19. The equations of a gas pipe constructed with pressure zero
    cannot be satisfied: the divisor of the power equation, the square
    root of [pressure * Q_nominal * Hydraulic_power_nominal], is zero. *)
Theorem gas_pipe_zero_pressure_unsatisfiable (self : Component ideal)
    (modifiers : gmap string ideal) (gp : GasPipe.t ideal)
    (env : sym -> ideal) :
  GasPipe.__init__ self modifiers = Ok gp ->
  GasPipe.pressure gp = Fin 0 ->
  ~ Forall (fun e => satisfied env e = true) (equations (GasPipe.base gp)).
Proof.
  intros Hgp Hp Hsat.
  apply GasPipe_init_inv in Hgp as (_ & s & Hs & Heq & _).
  rewrite Heq in Hsat. apply Forall_app in Hsat as [_ Hsat].
  unfold gas_equations in Hsat.
  do 5 (apply Forall_cons in Hsat as [_ Hsat]).
  apply Forall_cons in Hsat as [Hpow _].
  apply power_equation_sound in Hpow as ((n & -> & Hn) & _).
  rewrite Hp in Hs. apply py_pow_half_float in Hs as [Hs _].
  destruct (GasPipe.Q_nominal gp) as [qn|]; [|discriminate].
  destruct (GasPipe.Hydraulic_power_nominal gp) as [h|]; [|discriminate].
  rewrite !fmul_Fin in Hs. simpl in Hs.
  destruct (Rlt_dec (0 * qn * h) 0) as [Hlt|_]; [discriminate|].
  injection Hs as Hs. apply Hn. rewrite Hs.
  replace (0 * qn * h) with 0 by ring. apply sqrt_0.
Qed.

Lemma hydraulic_power_density (gp : GasPipe.t ideal) (h : R) :
  (GasPipe.rho gp * dec 2 2 * py_max (GasPipe.length gp) (dec 1 0) * fpi
   * GasPipe.area gp / GasPipe.diameter gp / dec 2 0
   * py_pow3 (GasPipe.Q_nominal gp / GasPipe.area gp))%py = Fin h ->
  h <> 0 ->
  exists rho, GasPipe.rho gp = Fin rho /\ rho <> 0.
Proof.
  intros Hh Hh0.
  apply fmul_Fin_inv in Hh as (x1 & x2 & H1 & _ & ->).
  apply ideal_div_Fin_inv in H1 as (x3 & two & H3 & _ & _ & ->).
  apply ideal_div_Fin_inv in H3 as (x4 & d & H4 & _ & _ & ->).
  apply fmul_Fin_inv in H4 as (x5 & ar & H5 & _ & ->).
  apply fmul_Fin_inv in H5 as (x6 & pi & H6 & _ & ->).
  apply fmul_Fin_inv in H6 as (x7 & mx & H7 & _ & ->).
  apply fmul_Fin_inv in H7 as (rho & ff & Hrho & _ & ->).
  exists rho. split; [exact Hrho|]. intros ->. apply Hh0.
  unfold Rdiv. ring.
Qed.

(** X20. What the equations of a gas pipe with a positive pressure say,
    and nothing more: a valuation satisfies the six equations exactly
    when the flows at the two ports and the flow of the pipe are one
    number, the mass flows at the two ports are one number, the flow is
    the mass flow divided by the density, the outlet shadow flow is the
    inlet one minus [1/1000], and the power of the pipe is the inlet
    power minus the outlet power. *)
Theorem gas_pipe_equations_characterised (self : Component ideal)
    (modifiers : gmap string ideal) (gp : GasPipe.t ideal)
    (env : sym -> ideal) (p : R) :
  GasPipe.__init__ self modifiers = Ok gp ->
  equations self = [] ->
  GasPipe.pressure gp = Fin p -> 0 < p ->
  Forall (fun e => satisfied env e = true) (equations (GasPipe.base gp))
  <-> exists q mf rho x a b : R,
        GasPipe.density gp = Fin rho
        /\ env (PortVar "GasIn" "Q") = Fin q
        /\ env (PortVar "GasOut" "Q") = Fin q
        /\ env (Own "Q") = Fin q
        /\ env (PortVar "GasIn" "mass_flow") = Fin mf
        /\ env (PortVar "GasOut" "mass_flow") = Fin mf
        /\ q = mf / rho
        /\ env (PortVar "GasIn" "Q_shadow") = Fin x
        /\ env (PortVar "GasOut" "Q_shadow") = Fin (x - 1 / 1000)
        /\ env (PortVar "GasIn" "Hydraulic_power") = Fin a
        /\ env (PortVar "GasOut" "Hydraulic_power") = Fin b
        /\ env (Own "Hydraulic_power") = Fin (a - b).
Proof.
  intros Hgp Heqs Hp Hp0.
  destruct (gas_pipe_scales _ _ _ Hgp) as (qn & h & HQ & Hqn & HP & Hh).
  apply GasPipe_init_inv in Hgp as (Hc & s & Hs & Heq & _).
  rewrite Heq, Heqs. cbn [app]. unfold gas_equations.
  destruct (hydraulic_power_density gp h) as (rho & Hrho & Hrho0).
  { rewrite <- (gc_Hydraulic_power_nominal _ _ Hc). exact HP. }
  { apply Rgt_not_eq. exact Hh. }
  rewrite (gc_rho _ _ Hc) in Hrho.
  assert (Hs' : s = Fin (sqrt (p * qn * h))).
  { rewrite Hp, HQ, HP, !fmul_Fin in Hs.
    rewrite py_pow_half_ideal in Hs by (apply Rlt_le; pos).
    injection Hs as <-. reflexivity. }
  assert (Hs0 : sqrt (p * qn * h) <> 0).
  { apply Rgt_not_eq. apply sqrt_lt_R0. pos. }
  split.
  - intros Hsat.
    apply Forall_cons in Hsat as [H1 Hsat].
    apply Forall_cons in Hsat as [H2 Hsat].
    apply Forall_cons in Hsat as [H3 Hsat].
    apply Forall_cons in Hsat as [H4 Hsat].
    apply Forall_cons in Hsat as [H5 Hsat].
    apply Forall_cons in Hsat as [H6 _].
    destruct (gas_flow_equations_sound gp env H1 H2 H3 H4)
      as (q & mf & r & Hr & Hr0 & Hin & Hout & Hown & Hmin & Hmout & Hq).
    apply shadow_equation_sound in H5 as (x & Hsin & Hsout).
    apply power_equation_sound in H6 as (_ & a & b & Ha & Hb & Hab).
    rewrite Hrho in Hr. injection Hr as <-.
    exists q, mf, rho, x, a, b. auto 15.
  - intros (q & mf & r & x & a & b & Hr & Hin & Hout & Hown & Hmin & Hmout
            & Hq & Hsin & Hsout & Ha & Hb & Hab).
    rewrite Hrho in Hr. injection Hr as <-.
    assert (Hqn0 : qn <> 0) by (apply Rgt_not_eq; exact Hqn).
    repeat apply List.Forall_cons; try apply List.Forall_nil.
    + unfold eq_flow. apply satisfied_normalized. split.
      * apply eval_difference. exists q. cbn [eval]. auto.
      * exists qn. auto.
    + unfold eq_alias. apply satisfied_normalized. split.
      * apply eval_difference. exists q. cbn [eval]. auto.
      * exists qn. auto.
    + unfold eq_density. apply satisfied_normalized. split.
      * apply eval_difference. exists q. cbn [eval].
        rewrite Hin, Hmin, Hrho, (fdiv_Fin mf rho Hrho0), Hq. auto.
      * exists qn. auto.
    + unfold eq_mass_flow. apply satisfied_normalized. split.
      * apply eval_difference. exists mf. cbn [eval]. auto.
      * exists (qn * rho). rewrite HQ, Hrho, fmul_Fin.
        split; [reflexivity|]. apply Rmult_integral_contrapositive. auto.
    + apply shadow_equation_sound. exists x. auto.
    + apply power_equation_sound. split.
      * exists (sqrt (p * qn * h)). auto.
      * exists a, b. auto.
Qed.
End GasPipeIdeal.

(** ** The conversion rules on the example assets *)

Section FloatExamples.

Lemma example_ret_pipe_float :
  exists m,
    snd (AssetToHeatComponent.convert_pipe keep_state
           (answer_temperatures (dec 80 0, dec 40 0))
           (answer_temps example_temps)
           (example_converter (F:=float)) ret_pipe_asset)
    = Ok (Pipe, m).
Proof. eexists. vm_compute. reflexivity. Qed.

Lemma example_recording_pipe_float :
  exists m,
    snd (AssetToHeatComponent.convert_pipe record_q
           (always (Ok (dec 80 0, dec 40 0))) count_recorded
           (example_list_converter (F:=float)) ret_pipe_asset)
    = Ok (Pipe, m).
Proof. eexists. vm_compute. reflexivity. Qed.

Lemma example_demand_float :
  exists m,
    AssetToHeatComponent.convert_demand
      (answer_q (dec 1 0)) (answer_temps example_temps)
      (example_converter (F:=float)) (demand_asset (dec 100 0))
    = Ok (Demand, m).
Proof. eexists. vm_compute. reflexivity. Qed.
End FloatExamples.

Lemma convert_rules_check_asset_type_witness :
  AssetToHeatComponent.convert_buffer (answer_q (dec 1 0))
    (example_converter (F:=float)) (demand_asset (dec 100 0))
  = Raise AssertionError
  /\ AssetToHeatComponent.convert_pipe record_q
       (always (Ok (dec 80 0, dec 40 0))) count_recorded
       (example_list_converter (F:=float)) (demand_asset (dec 100 0))
     = ([], Raise AssertionError).
Proof.
  split.
  - apply (proj1 (convert_rules_check_asset_type (answer_q (dec 1 0))
                    keep_state (answer_temperatures (dec 80 0, dec 40 0))
                    (answer_temps example_temps) example_converter
                    (demand_asset (dec 100 0)))).
    discriminate.
  - apply (proj1 (proj2 (proj2 (proj2
             (convert_rules_check_asset_type (always (Ok (dec 1 0)))
                record_q (always (Ok (dec 80 0, dec 40 0))) count_recorded
                example_list_converter (demand_asset (dec 100 0))))))).
    discriminate.
Defined.

Lemma convert_rules_read_attribute_witness :
  AssetToHeatComponent.convert_demand
    (answer_q (dec 1 0)) (answer_temps example_temps)
    (example_converter (F:=float)) (bare_asset "HeatingDemand")
  = Raise KeyError
  /\ AssetToHeatComponent.convert_node (example_converter (F:=float))
       (bare_asset "Joint")
     = Raise KeyError.
Proof.
  split.
  - apply (proj1 (proj2
             (convert_rules_read_attribute (answer_q (dec 1 0))
                (answer_temps example_temps) example_converter
                (bare_asset "HeatingDemand") KeyError)));
      reflexivity.
  - apply (proj2 (proj2 (proj2
             (convert_rules_read_attribute (answer_q (dec 1 0))
                (answer_temps example_temps) example_converter
                (bare_asset "Joint") KeyError))));
      reflexivity.
Defined.



Lemma convert_pipe_refused_keeps_state_witness :
  exists e,
    AssetToHeatComponent.convert_pipe record_q
      (always (Ok (dec 80 0, dec 40 0))) count_recorded
      (example_list_converter (F:=float))
      {| asset_type := "Pipe";
         attributes := <["name" := esdl.AStr "Pipe1"]> ∅ |}
    = ([], Raise e).
Proof.
  apply (convert_pipe_refused_keeps_state record_q
           (always (Ok (dec 80 0, dec 40 0))) count_recorded
           example_list_converter).
  right. right. right. intros d. discriminate.
Defined.

Lemma convert_pipe_bounds_witness :
  exists m,
    snd (AssetToHeatComponent.convert_pipe keep_state
           (answer_temperatures (dec 80 0, dec 40 0))
           (answer_temps example_temps)
           (example_converter (F:=float)) ret_pipe_asset)
    = Ok (Pipe, m)
    /\ dict_get m "HeatOut" = dict_get m "HeatIn".
Proof.
  destruct example_ret_pipe_float as [m Hm]. exists m.
  split; [exact Hm|].
  destruct (convert_pipe_bounds _ _ _ _ _ _ _ Hm)
    as (_ & st & rt & d & _ & _ & Hb).
  apply Hb.
Defined.

Lemma convert_pipe_insulation_witness :
  exists m,
    snd (AssetToHeatComponent.convert_pipe keep_state
           (answer_temperatures (dec 80 0, dec 40 0))
           (answer_temps example_temps)
           (example_converter (F:=float)) ret_pipe_asset)
    = Ok (Pipe, m)
    /\ dict_get m "insulation_thickness"
       = Some (MList [dec 5 3; dec 3 2])
    /\ dict_get m "conductivity_insulation"
       = Some (MList [dec 52 0; dec 27 3]).
Proof.
  destruct example_ret_pipe_float as [m Hm]. exists m.
  split; [exact Hm|].
  destruct (convert_pipe_insulation _ _ _ _ _ _ _ Hm)
    as (material & Hmat & Hins).
  assert (Hmat' : material = two_layers (F:=float))
    by (injection Hmat as <-; reflexivity).
  subst material. exact Hins.
Defined.

Lemma convert_pipe_temperature_witness :
  exists m,
    snd (AssetToHeatComponent.convert_pipe keep_state
           (answer_temperatures (dec 80 0, dec 40 0))
           (answer_temps example_temps)
           (example_converter (F:=float)) ret_pipe_asset)
    = Ok (Pipe, m)
    /\ occurs_in "_ret" "Pipe1_ret"
    /\ dict_get m "temperature" = Some (MFloat (dec 40 0)).
Proof.
  destruct example_ret_pipe_float as [m Hm]. exists m.
  split; [exact Hm|].
  assert (Hocc : occurs_in "_ret" "Pipe1_ret")
    by (exists "Pipe1", EmptyString; reflexivity).
  split; [exact Hocc|].
  destruct (convert_pipe_temperature _ _ _ _ _ _ _ Hm)
    as (st & rt & nm & Htemp & Hn & Hret & _).
  injection Htemp as <- <-. injection Hn as <-.
  exact (Hret Hocc).
Defined.

Lemma convert_node_order_irrelevant_witness :
  AssetToHeatComponent.convert_node (example_converter (F:=float)) joint_asset
  = AssetToHeatComponent.convert_node (example_list_converter (F:=float))
      rearranged_joint_asset.
Proof.
  apply (convert_node_order_irrelevant example_converter
           example_list_converter joint_asset rearranged_joint_asset
           _ _ eq_refl eq_refl eq_refl).
  exact (Permutation_app_comm
           [ {| esdl.port_type := esdl.InPort; esdl.connectedTo := ["a"] |};
             {| esdl.port_type := esdl.InPort; esdl.connectedTo := ["b"] |} ]
           [ {| esdl.port_type := esdl.OutPort; esdl.connectedTo := ["c"] |} ]).
Defined.

Lemma convert_buffer_characterised_witness :
  AssetToHeatComponent.convert_buffer (answer_q (dec 1 0))
    (example_converter (F:=float)) (buffer_asset (dec 100 0))
  = Ok (Buffer,
        [("Q_nominal", MFloat (dec 1 0));
         ("Stored_heat",
          MDict [("min", MFloat (dec 0 0)); ("max", MFloat (dec 100 0))]);
         ("init_Heat", MFloat (dec 0 0));
         ("rho", MFloat (dec 988 0));
         ("cp", MFloat (dec 4200 0))]).
Proof.
  apply (proj2 (convert_buffer_characterised (answer_q (dec 1 0))
                  example_converter (buffer_asset (dec 100 0)) _ _)).
  split; [reflexivity|]. split; [reflexivity|].
  exists (dec 100 0), (dec 1 0). repeat split.
Defined.

Lemma converted_modifiers_carry_rho_cp_witness :
  exists m,
    snd (AssetToHeatComponent.convert_pipe keep_state
           (answer_temperatures (dec 80 0, dec 40 0))
           (answer_temps example_temps)
           (example_converter (F:=float)) ret_pipe_asset)
    = Ok (Pipe, m)
    /\ dict_get m "rho" = Some (MFloat (dec 988 0))
    /\ dict_get m "cp" = Some (MFloat (dec 4200 0)).
Proof.
  destruct example_ret_pipe_float as [m Hm]. exists m.
  split; [exact Hm|].
  apply (converted_modifiers_carry_rho_cp (answer_q (dec 1 0)) keep_state
           (answer_temperatures (dec 80 0, dec 40 0))
           (answer_temps example_temps) example_converter ret_pipe_asset
           Pipe m).
  right. right. right. right. exact Hm.
Defined.

Lemma converted_modifiers_carry_temperatures_witness :
  exists m,
    AssetToHeatComponent.convert_demand
      (answer_q (dec 1 0)) (answer_temps example_temps)
      (example_converter (F:=float)) (demand_asset (dec 100 0))
    = Ok (Demand, m)
    /\ dict_get m "T_supply" = Some (MFloat (dec 80 0))
    /\ dict_get m "T_return" = Some (MFloat (dec 40 0)).
Proof.
  destruct example_demand_float as [m Hm]. exists m.
  split; [exact Hm|].
  destruct (converted_modifiers_carry_temperatures (answer_q (dec 1 0))
              (answer_temps example_temps) example_converter
              (demand_asset (dec 100 0)) Demand m (or_introl Hm))
    as (ts & Hts & Hcarry).
  injection Hts as <-.
  split; apply Hcarry; reflexivity.
Defined.

Lemma convert_pipe_carries_temperatures_witness :
  exists m,
    snd (AssetToHeatComponent.convert_pipe record_q
           (always (Ok (dec 80 0, dec 40 0))) count_recorded
           (example_list_converter (F:=float)) ret_pipe_asset)
    = Ok (Pipe, m)
    /\ dict_get m "recorded" = Some (MInt 1).
Proof.
  destruct example_recording_pipe_float as [m Hm]. exists m.
  split; [exact Hm|].
  destruct (convert_pipe_carries_temperatures _ _ _ _ _ _ _ Hm)
    as (ts & Hts & Hcarry).
  apply Hcarry. injection Hts as <-. reflexivity.
Defined.

Lemma repeated_modifier_refused_witness :
  AssetToHeatComponent.convert_pump
    (answer_q (dec 1 0)) (answer_temps clashing_temps)
    (example_converter (F:=float)) (bare_asset "Pump")
  = Raise TypeError.
Proof.
  apply (proj1 (repeated_modifier_refused (answer_q (dec 1 0))
                  (answer_temps clashing_temps) example_converter
                  (bare_asset "Pump") clashing_temps "rho"
                  eq_refl eq_refl eq_refl) (dec 1 0));
    reflexivity.
Defined.

(** ** The example assets over the ideal carrier *)

Section IdealAssets.
Local Open Scope R_scope.

Lemma pipe_asset_ideal :
  attributes (pipe_asset (F:=ideal)) !! "name" = Some (esdl.AStr "Pipe1")
  /\ attributes (pipe_asset (F:=ideal)) !! "innerDiameter"
     = Some (esdl.AFloat (Fin (1 / 10)))
  /\ attributes (pipe_asset (F:=ideal)) !! "material" = Some esdl.ANone
  /\ attributes (pipe_asset (F:=ideal)) !! "length"
     = Some (esdl.AFloat (Fin 10)).
Proof.
  unfold pipe_asset. cbn [attributes].
  repeat split;
    rewrite ?lookup_insert_eq, ?lookup_insert_ne, ?lookup_insert_eq,
      ?lookup_empty by done;
    rewrite ?dec_1_1; reflexivity.
Qed.

Lemma example_converter_ideal :
  AssetToHeatComponent.rho (example_converter (F:=ideal)) = Fin 988
  /\ AssetToHeatComponent.cp (example_converter (F:=ideal)) = Fin 4200
  /\ AssetToHeatComponent.v_max (example_converter (F:=ideal)) = Fin 5
  /\ AssetToHeatComponent.v_nominal (example_converter (F:=ideal)) = Fin 1.
Proof. repeat split. Qed.

Lemma example_pipe_ideal :
  exists m,
    snd (AssetToHeatComponent.convert_pipe keep_state
           (answer_temperatures (Fin 80, Fin 40))
           (answer_temps example_temps)
           (example_converter (F:=ideal)) pipe_asset)
    = Ok (Pipe, m).
Proof.
  destruct pipe_asset_ideal as (Hn & Hd & Hm & Hl).
  destruct example_converter_ideal as (Hrho & Hcp & Hv & Hvn).
  unfold AssetToHeatComponent.convert_pipe.
  rewrite (pipe_flows_Ok (answer_temperatures (Fin 80, Fin 40))
             example_converter pipe_asset (Fin 80) (Fin 40) (Fin (1 / 10))
             "Pipe1" eq_refl eq_refl Hn Hd).
  cbn [fst snd]. unfold AssetToHeatComponent.pipe_modifiers, getitem.
  rewrite Hrho, Hcp, Hv, Hvn, Hm, Hl.
  rewrite !pipe_area_ideal, !dec_ideal_0, !fsub_Fin, !fmul_Fin.
  rewrite py_gt_ideal_pos.
  - mstep. eexists. reflexivity.
  - assert (Hpi : 0 < PI) by exact PI_RGT_0. pos.
Qed.

Lemma example_source_ideal :
  exists m,
    AssetToHeatComponent.convert_source
      (answer_q (Fin 1)) (answer_temps example_temps)
      (example_converter (F:=ideal)) (source_asset (Fin 100))
    = Ok (Source, m).
Proof.
  unfold AssetToHeatComponent.convert_source, getitem, source_asset.
  cbn [asset_type attributes str_in existsb String.eqb Ascii.eqb Bool.eqb
       orb].
  rewrite lookup_insert_eq. mstep.
  rewrite dec_ideal_0, py_gt_ideal_pos by lra.
  eexists. reflexivity.
Qed.

Lemma zero_pressure_params_ideal :
  param (zero_pressure_modifiers (F:=ideal)) "v_max" (dec 15 0) = Fin 15
  /\ param (zero_pressure_modifiers (F:=ideal)) "density" (dec 2500 0)
     = Fin 2500
  /\ param (zero_pressure_modifiers (F:=ideal)) "diameter" fnan
     = Fin (1 / 10)
  /\ param (zero_pressure_modifiers (F:=ideal)) "length" fnan = Fin 10
  /\ param (zero_pressure_modifiers (F:=ideal)) "pressure" (dec 1600000 0)
     = Fin 0.
Proof.
  unfold param, zero_pressure_modifiers, example_modifiers.
  repeat split;
    rewrite ?lookup_insert_eq, ?lookup_insert_ne, ?lookup_insert_eq,
      ?lookup_insert_ne, ?lookup_insert_eq, ?lookup_empty by done;
    cbn [from_option id]; rewrite ?dec_1_1; reflexivity.
Qed.

Lemma zero_pressure_pipe_ideal :
  exists (self : Component ideal) (gp : GasPipe.t ideal),
    GasTwoPort "pipe" = Ok self
    /\ GasPipe.__init__ self zero_pressure_modifiers = Ok gp
    /\ GasPipe.pressure gp = Fin 0.
Proof.
  destruct (GasTwoPort_ideal "pipe") as (self & Hself & He & Hv & Hd & Hok).
  destruct zero_pressure_params_ideal as (Pv & Pr & Pd & PL & Pp).
  destruct (GasPipe_init_succeeds self zero_pressure_modifiers 15 2500
              (1 / 10) 10 0) as [gp Hgp]; try assumption; try lra.
  exists self, gp. split; [exact Hself|]. split; [exact Hgp|].
  apply GasPipe_init_inv in Hgp as (Hc & _).
  rewrite (gc_pressure _ _ Hc). exact Pp.
Qed.

Lemma example_gas_pipe_parameters :
  exists (self : Component ideal) (gp : GasPipe.t ideal),
    GasTwoPort "pipe" = Ok self
    /\ GasPipe.__init__ self example_modifiers = Ok gp
    /\ equations self = []
    /\ GasPipe.v_max gp = Fin 15
    /\ GasPipe.density gp = Fin 2500
    /\ GasPipe.diameter gp = Fin (1 / 10)
    /\ GasPipe.length gp = Fin 10
    /\ GasPipe.pressure gp = Fin 1600000.
Proof.
  destruct (GasTwoPort_ideal "pipe") as (self & Hself & He & Hv & Hd & Hok).
  destruct example_params_ideal as (Pv & Pr & Pd & PL & Pp).
  destruct (GasPipe_init_succeeds self example_modifiers 15 2500 (1 / 10)
              10 1600000) as [gp Hgp]; try assumption; try lra.
  exists self, gp. split; [exact Hself|]. split; [exact Hgp|].
  split; [exact He|].
  apply GasPipe_init_inv in Hgp as (Hc & _).
  rewrite (gc_v_max _ _ Hc), (gc_density _ _ Hc), (gc_diameter _ _ Hc),
    (gc_length _ _ Hc), (gc_pressure _ _ Hc).
  auto.
Qed.
End IdealAssets.

Lemma convert_pipe_needs_temperature_drop_witness :
  snd (AssetToHeatComponent.convert_pipe keep_state
         (answer_temperatures (Fin 70, Fin 70))
         (answer_temps example_temps)
         (example_converter (F:=ideal)) pipe_asset)
  = Raise AssertionError.
Proof.
  destruct pipe_asset_ideal as (Hn & Hd & _).
  apply (convert_pipe_needs_temperature_drop keep_state
           (answer_temperatures (Fin 70, Fin 70))
           (answer_temps example_temps) example_converter pipe_asset
           988 4200 5 70 70 (1 / 10) "Pipe1");
    try reflexivity; try exact Hn; try exact Hd; lra.
Defined.

Lemma convert_pipe_nominal_ratios_witness :
  exists (m : MODIFIERS ideal) (qn hn : R),
    snd (AssetToHeatComponent.convert_pipe keep_state
           (answer_temperatures (Fin 80, Fin 40))
           (answer_temps example_temps)
           (example_converter (F:=ideal)) pipe_asset)
    = Ok (Pipe, m)
    /\ dict_get m "Q_nominal" = Some (MFloat (Fin qn))
    /\ dict_get3 m "HeatIn" "Q" "max" = Some (MFloat (Fin (5 * qn)%R))
    /\ dict_get3 m "HeatIn" "Heat" "nominal" = Some (MFloat (Fin hn))
    /\ dict_get3 m "HeatIn" "Heat" "max" = Some (MFloat (Fin (10 * hn)%R)).
Proof.
  destruct example_pipe_ideal as [m Hm].
  destruct (convert_pipe_nominal_ratios keep_state
              (answer_temperatures (Fin 80, Fin 40))
              (answer_temps example_temps) example_converter pipe_asset
              988 4200 5 1 Pipe m)
    as (st & rt & d & qn & qmax & hn & hmax & _ & _ & _ & _ & HQ & HQmax
        & Hhn & Hhmax & _ & _ & _ & Hq & Hh);
    try reflexivity; try lra; try exact Hm.
  exists m, qn, hn. split; [exact Hm|]. split; [exact HQ|].
  assert (Eq : qmax = (5 * qn)%R) by lra.
  assert (Eh : hmax = (10 * hn)%R) by lra.
  rewrite <- Eq, <- Eh. auto.
Defined.

Lemma convert_source_nominal_inside_bounds_witness :
  exists m,
    AssetToHeatComponent.convert_source
      (answer_q (Fin 1)) (answer_temps example_temps)
      (example_converter (F:=ideal)) (source_asset (Fin 100))
    = Ok (Source, m)
    /\ dict_get2 m "Heat_source" "nominal" = Some (MFloat (Fin (100 / 2)%R)).
Proof.
  destruct example_source_ideal as [m Hm]. exists m.
  split; [exact Hm|].
  destruct (convert_source_nominal_inside_bounds _ _ _ _ _ _ Hm)
    as (_ & p & Hp & _ & _ & _ & Hn).
  assert (E : p = 100%R).
  { unfold source_asset in Hp. cbn [attributes] in Hp.
    rewrite lookup_insert_eq in Hp. injection Hp as <-. reflexivity. }
  rewrite <- E. exact Hn.
Defined.

Lemma gas_pipe_power_nominal_closed_form_witness :
  exists (self : Component ideal) (gp : GasPipe.t ideal),
    GasTwoPort "pipe" = Ok self
    /\ GasPipe.__init__ self example_modifiers = Ok gp
    /\ (GasPipe.Q_nominal gp / GasPipe.area gp)%py = Fin (15 / 2)%R
    /\ GasPipe.Hydraulic_power_nominal gp
       = Fin (2500 * (2 / 100) * Rmax 10 1 * (PI * PI) * (1 / 10) / 8
              * (15 / 2 * (15 / 2) * (15 / 2)))%R.
Proof.
  destruct example_gas_pipe_parameters
    as (self & gp & Hself & Hgp & _ & Hv & Hrho & Hd & HL & _).
  exists self, gp. split; [exact Hself|]. split; [exact Hgp|].
  destruct (gas_pipe_power_nominal_closed_form self example_modifiers gp
              15 2500 (1 / 10) 10 Hgp Hv Hrho Hd HL)
    as (_ & Hvelo & HP & _).
  split; [exact Hvelo | exact HP].
Defined.

Lemma gas_pipe_zero_pressure_unsatisfiable_witness :
  exists (self : Component ideal) (gp : GasPipe.t ideal),
    GasTwoPort "pipe" = Ok self
    /\ GasPipe.__init__ self zero_pressure_modifiers = Ok gp
    /\ ~ Forall (fun e => satisfied example_env e = true)
                (equations (GasPipe.base gp)).
Proof.
  destruct zero_pressure_pipe_ideal as (self & gp & Hself & Hgp & Hp).
  exists self, gp. split; [exact Hself|]. split; [exact Hgp|].
  exact (gas_pipe_zero_pressure_unsatisfiable self zero_pressure_modifiers gp
           example_env Hgp Hp).
Defined.

Lemma gas_pipe_equations_characterised_witness :
  exists (self : Component ideal) (gp : GasPipe.t ideal),
    GasTwoPort "pipe" = Ok self
    /\ GasPipe.__init__ self example_modifiers = Ok gp
    /\ Forall (fun e => satisfied example_env e = true)
              (equations (GasPipe.base gp)).
Proof.
  destruct example_gas_pipe_parameters
    as (self & gp & Hself & Hgp & He & _ & Hrho & _ & _ & Hp).
  exists self, gp. split; [exact Hself|]. split; [exact Hgp|].
  apply (proj2 (gas_pipe_equations_characterised self example_modifiers gp
                  example_env 1600000 Hgp He Hp ltac:(lra))).
  exists 2%R, 5000%R, 2500%R, (1 / 1000)%R, 0%R, 0%R.
  split; [exact Hrho|].
  unfold example_env.
  cbn [String.eqb Ascii.eqb Bool.eqb andb].
  rewrite !dec_ideal_0, dec_1_3.
  repeat split; f_equal; lra.
Defined.
